(** * Conciliação de fornecedores: a verified model of [scraper/database.py]

    The development embeds the reconciliation core of the repository
    (the [DatabaseManager] class) as Rocq definitions and proves the
    properties its specification states about it.

    Conventions of the embedding.

    - Python [str] values are [string]s; every [ascii] stands for the code
      point of the same number (so the model covers text below U+0100).
      [NaN]/[None] cells of a data frame are [None].
    - SQLite [TEXT] columns are [option string], [REAL] columns are
      [option Q] ([None] is [NULL]).  Amounts are exact rationals: binary
      rounding of the machine floats is outside the model.
    - A text built with [||] from numbers is kept as a list of fragments
      ([frag]), the numbers unrendered.
    - Python exceptions are the [Raise] case of [result]. *)

From Stdlib Require Import String Ascii List ZArith QArith Qabs Qround Qminmax Lia Bool.
From stdpp Require Import gmap strings.
Import ListNotations.

Open Scope string_scope.
Open Scope list_scope.
Open Scope bool_scope.

(* ================================================================== *)
(** * Characters and strings *)
(* ================================================================== *)

Module Text.

(** [\d] of a [str] pattern, below U+0100: the ten ASCII digits. *)
Definition is_digit (c : ascii) : bool :=
  let n := nat_of_ascii c in (48 <=? n)%nat && (n <=? 57)%nat.

(** [str.isspace()] and [\s], below U+0100: TAB..CR, FS..US, space, NEL, NBSP. *)
Definition is_space (c : ascii) : bool :=
  let n := nat_of_ascii c in
  ((9 <=? n)%nat && (n <=? 13)%nat) || ((28 <=? n)%nat && (n <=? 32)%nat)
  || (n =? 133)%nat || (n =? 160)%nat.

(** The class [[\s\-\.\/]] of the splitter's regular expressions. *)
Definition is_sep (c : ascii) : bool :=
  is_space c || Ascii.eqb c "-" || Ascii.eqb c "." || Ascii.eqb c "/".

Definition is_comma (c : ascii) : bool := Ascii.eqb c ",".
Definition is_dot (c : ascii) : bool := Ascii.eqb c ".".

Definition is_empty (s : string) : bool :=
  match s with EmptyString => true | String _ _ => false end.

Fixpoint filter (p : ascii -> bool) (s : string) : string :=
  match s with
  | EmptyString => EmptyString
  | String c s' => if p c then String c (filter p s') else filter p s'
  end.

Fixpoint forallb (p : ascii -> bool) (s : string) : bool :=
  match s with
  | EmptyString => true
  | String c s' => p c && forallb p s'
  end.

Fixpoint existsb (p : ascii -> bool) (s : string) : bool :=
  match s with
  | EmptyString => false
  | String c s' => p c || existsb p s'
  end.

Fixpoint count (p : ascii -> bool) (s : string) : nat :=
  match s with
  | EmptyString => 0
  | String c s' => (if p c then 1 else 0) + count p s'
  end.

(** Longest prefix whose characters satisfy [p]. *)
Fixpoint take_while (p : ascii -> bool) (s : string) : string :=
  match s with
  | EmptyString => EmptyString
  | String c s' => if p c then String c (take_while p s') else EmptyString
  end.

Fixpoint drop_while (p : ascii -> bool) (s : string) : string :=
  match s with
  | EmptyString => EmptyString
  | String c s' => if p c then drop_while p s' else s
  end.

(** Removes the longest suffix whose characters satisfy [p]. *)
Fixpoint drop_while_end (p : ascii -> bool) (s : string) : string :=
  match s with
  | EmptyString => EmptyString
  | String c s' =>
      let r := drop_while_end p s' in
      if is_empty r && p c then EmptyString else String c r
  end.

(** [s[n:]] *)
Fixpoint drop (n : nat) (s : string) : string :=
  match n, s with
  | O, _ => s
  | S _, EmptyString => EmptyString
  | S n', String _ s' => drop n' s'
  end.

(** [str.strip()] *)
Definition strip (s : string) : string :=
  drop_while_end is_space (drop_while is_space s).

Fixpoint last_char (s : string) : option ascii :=
  match s with
  | EmptyString => None
  | String c EmptyString => Some c
  | String _ s' => last_char s'
  end.

(** [s.endswith(c)] for a one-character suffix. *)
Definition endswith_char (s : string) (c : ascii) : bool :=
  match last_char s with
  | Some d => Ascii.eqb d c
  | None => false
  end.

(** [sub in s] *)
Fixpoint contains (sub s : string) : bool :=
  String.prefix sub s
  || match s with
     | EmptyString => false
     | String _ s' => contains sub s'
     end.

(** [s.replace(old, new)] / SQLite [REPLACE(s, old, new)] with a non-empty
    [old]: occurrences are replaced left to right, without overlap. *)
Fixpoint replace_fuel (fuel : nat) (old new s : string) : string :=
  match fuel with
  | O => s
  | S fuel' =>
      if String.prefix old s
      then new +:+ replace_fuel fuel' old new (drop (String.length old) s)
      else match s with
           | EmptyString => EmptyString
           | String c s' => String c (replace_fuel fuel' old new s')
           end
  end.

Definition replace (old new s : string) : string :=
  if is_empty old then s else replace_fuel (S (String.length s)) old new s.

Fixpoint map (f : ascii -> ascii) (s : string) : string :=
  match s with
  | EmptyString => EmptyString
  | String c s' => String (f c) (map f s')
  end.

(** ASCII-only upper-casing, as SQLite's built-in [UPPER]. *)
Definition ascii_upper (c : ascii) : ascii :=
  let n := nat_of_ascii c in
  if (97 <=? n)%nat && (n <=? 122)%nat then ascii_of_nat (n - 32) else c.

(** [str.lower()] below U+0100: A-Z and the Latin-1 capitals À-Þ (but ×). *)
Definition py_lower (c : ascii) : ascii :=
  let n := nat_of_ascii c in
  if ((65 <=? n)%nat && (n <=? 90)%nat)
     || ((192 <=? n)%nat && (n <=? 222)%nat && negb (n =? 215)%nat)
  then ascii_of_nat (n + 32) else c.

End Text.

(* ================================================================== *)
(** * Exceptions *)
(* ================================================================== *)

Inductive exn : Type :=
| ValueError
| OperationalError          (* sqlite3.OperationalError *)
| InvalidDataFormat
| PlanilhaFormatacaoErradaError
| ExcecaoNaoMapeadaError.

Inductive result (A : Type) : Type :=
| Ok (a : A)
| Raise (e : exn).

Arguments Ok {A} a.
Arguments Raise {A} e.

Definition bind {A B : Type} (m : result A) (k : A -> result B) : result B :=
  match m with
  | Ok a => k a
  | Raise e => Raise e
  end.

(** [try: body  except Exception as e: handler(e)] *)
Definition try_except {A : Type} (body : result A) (handler : exn -> result A) : result A :=
  match body with
  | Ok a => Ok a
  | Raise e => handler e
  end.

Declare Scope result_scope.
Delimit Scope result_scope with result.
Notation "x <- m ;; k" := (bind m (fun x => k))
  (at level 100, m at next level, right associativity) : result_scope.
Notation "m ;;; k" := (bind m (fun _ => k))
  (at level 100, right associativity) : result_scope.

(* ================================================================== *)
(** * Record cleaner: [formatar_credito], [separar_codigo_descricao] *)
(* ================================================================== *)

Module Cleaner.
Import Text.

Definition digit_val (c : ascii) : Z := Z.of_nat (nat_of_ascii c - 48).

(** Value of a string of decimal digits, most significant first. *)
Fixpoint digits_value (acc : Z) (s : string) : Z :=
  match s with
  | EmptyString => acc
  | String c s' => digits_value (10 * acc + digit_val c) s'
  end.

Definition pow10 (n : nat) : positive := Z.to_pos (10 ^ Z.of_nat n).

(** [float(s)] on the strings that reach it in [formatar_credito], which
    hold only digits and dots: digits with at most one dot and at least
    one digit; anything else is a [ValueError].  The value is the exact
    decimal. *)
Definition py_float (s : string) : result Q :=
  let ip := take_while is_digit s in
  match drop_while is_digit s with
  | EmptyString =>
      if is_empty ip then Raise ValueError else Ok (inject_Z (digits_value 0 ip))
  | String c fp =>
      if is_dot c && forallb is_digit fp && negb (is_empty ip && is_empty fp)
      then Ok (Qmake (digits_value 0 (ip +:+ fp)) (pow10 (String.length fp)))
      else Raise ValueError
  end.

(** [re.sub(r'[^\d,]', '', valor_str)] *)
Definition keep_digits_commas (s : string) : string :=
  filter (fun c => is_digit c || is_comma c) s.

Definition formatar_credito (valor : option string) : result (option Q) :=
  match valor with
  | None => Ok None                                   (* pd.isna(valor) *)
  | Some v =>
      let valor_str := strip v in
      let is_credito := endswith_char valor_str "C" in
      let is_debito := endswith_char valor_str "D" in
      let valor_str := keep_digits_commas valor_str in
      (valor_float <-
         try_except
           (let valor_str :=
              if contains "," valor_str
              then replace "," "." (replace "." "" valor_str)
              else replace "." "" valor_str in
            valor_float <- py_float valor_str ;;
            Ok (if is_credito then (- Qabs valor_float)%Q
                else if is_debito then Qabs valor_float
                else valor_float))
           (fun _ => Ok 0%Q) ;;
       Ok (Some valor_float))%result
  end.

(** [re.match] of the pattern  ^( \d+ [\s\-\.\/]* \d* )  (written here with
    blanks between its parts): group 1, when the match succeeds.  The classes
    that follow one another are disjoint, so the greedy match takes the
    longest run of each in turn. *)
Definition re_match_codigo (s : string) : option string :=
  let d1 := take_while is_digit s in
  let r1 := drop_while is_digit s in
  let sp := take_while is_sep r1 in
  let d2 := take_while is_digit (drop_while is_sep r1) in
  if is_empty d1 then None else Some (d1 +:+ sp +:+ d2).

(** The body of the loop of [separar_codigo_descricao] for one cell:
    the pair written to the columns [col_codigo] and [col_descricao]. *)
Definition separar_valor (valor : option string) : string * string :=
  match valor with
  | None => ("", "")
  | Some v =>
      if negb (is_empty (strip v)) then
        let valor_str := strip v in
        match re_match_codigo valor_str with
        | Some g =>
            let codigo := strip g in
            let codigo_limpo := filter is_digit codigo in
            let descricao := strip (drop (String.length codigo) valor_str) in
            let descricao := drop_while is_sep descricao in
            (codigo_limpo, descricao)
        | None => ("", valor_str)
        end
      else ("", "")
  end.

(** The two new columns of the frame, from the column [coluna_origem]. *)
Definition separar_codigo_descricao (coluna : list (option string))
  : list (string * string) :=
  List.map separar_valor coluna.

(** [str.replace(r'^(AF|F)', '', regex=True)] *)
Definition strip_prefix_AF_F (s : string) : string :=
  if String.prefix "AF" s then drop 2 s
  else if String.prefix "F" s then drop 1 s
  else s.

(** Import-time cleaning of a vendor code:
    [.astype(str).str.strip()] then the prefix removal. *)
Definition clean_codigo_fornecedor (s : string) : string :=
  strip_prefix_AF_F (strip s).




Definition starts_with (p : ascii -> bool) (s : string) : bool :=
  match s with
  | EmptyString => false
  | String c _ => p c
  end.

(** The parts of an amount body before and from its first comma. *)
Definition int_part (body : string) : string :=
  take_while (fun c => negb (is_comma c)) body.

Definition frac_part (body : string) : string :=
  drop_while (fun c => negb (is_comma c)) body.

(** The claim's reading of an amount: thousands separators (dots) are
    ignored and the comma is the decimal separator. *)
Definition spec_magnitude (body : string) : Q :=
  let ip := filter is_digit (int_part body) in
  let fp := filter is_digit (frac_part body) in
  (inject_Z (digits_value 0 ip)
   + Qmake (digits_value 0 fp) (pow10 (String.length fp)))%Q.

(** Amount bodies: digits, dots and at most one comma, with a digit. *)
Definition amount_body (body : string) : bool :=
  forallb (fun c => is_digit c || is_dot c || is_comma c) body
  && (count is_comma body <=? 1)%nat
  && existsb is_digit body.

(** The string that [formatar_credito] hands to [float]. *)
Definition float_argument (v : string) : string :=
  let valor_str := keep_digits_commas (strip v) in
  if contains "," valor_str
  then replace "," "." (replace "." "" valor_str)
  else replace "." "" valor_str.

(** Every [c] of [s] replaced by [new]: what [replace] does for a
    one-character [old]. *)
Fixpoint subst_char (c : ascii) (new s : string) : string :=
  match s with
  | EmptyString => EmptyString
  | String d s' =>
      if Ascii.eqb d c then new +:+ subst_char c new s'
      else String d (subst_char c new s')
  end.

End Cleaner.

(* ================================================================== *)
(** * SQLite values and built-in functions *)
(* ================================================================== *)

Module Sql.
Import Text.

(** A fragment of a text value built with [||]: literal text, a [REAL]
    or an [INTEGER] count whose rendering is left to SQLite. *)
Inductive frag : Type :=
| Lit (s : string)
| Num (q : Q)
| Cnt (n : nat).

Definition rope : Type := list frag.

Definition frag_is_empty (f : frag) : bool :=
  match f with
  | Lit s => is_empty s
  | Num _ | Cnt _ => false          (* a number never renders as '' *)
  end.

(** [t = ''] *)
Definition rope_is_empty (t : rope) : bool := List.forallb frag_is_empty t.

Definition lit (s : string) : option rope := Some [Lit s].
Definition txt (x : option string) : option rope := option_map (fun s => [Lit s]) x.
Definition num (x : option Q) : option rope := option_map (fun q => [Num q]) x.

(** [x || y]: [NULL] when either side is. *)
Definition cat (x y : option rope) : option rope :=
  match x, y with
  | Some a, Some b => Some (a ++ b)
  | _, _ => None
  end.

Infix "|+|" := cat (at level 60, right associativity).

Definition COALESCE {A : Type} (x y : option A) : option A :=
  match x with
  | Some _ => x
  | None => y
  end.

(** [COALESCE(x, 0)] on a [REAL]. *)
Definition coalesce0 (x : option Q) : Q :=
  match x with
  | Some q => q
  | None => 0%Q
  end.

Definition is_null {A : Type} (x : option A) : bool :=
  match x with
  | Some _ => false
  | None => true
  end.

Definition is_blank (c : ascii) : bool := Ascii.eqb c " ".

(** [TRIM(x)]: spaces only. *)
Definition TRIM (x : option string) : option string :=
  option_map (fun s => drop_while_end is_blank (drop_while is_blank s)) x.

Definition UPPER (x : option string) : option string :=
  option_map (Text.map ascii_upper) x.

Definition REPLACE (x : option string) (old new : string) : option string :=
  option_map (replace old new) x.

Definition NULLIF (x : option string) (y : string) : option string :=
  match x with
  | Some s => if String.eqb s y then None else Some s
  | None => None
  end.

Definition ABS (x : option Q) : option Q := option_map Qabs x.

(** [ROUND(q, 2)], halves away from zero. *)
Definition round2 (q : Q) : Q :=
  Qmake (Z.sgn (Qnum q) * Qfloor (Qabs q * 100 + (1 # 2))) 100.

(** [x > y] on [REAL]s. *)
Definition Qgt_bool (x y : Q) : bool := negb (Qle_bool x y).

(** [x = y] in a [WHERE]: true only when both sides are non-null and equal. *)
Definition eq_text (x y : option string) : bool :=
  match x, y with
  | Some a, Some b => String.eqb a b
  | _, _ => false
  end.

(** [x <> ''] in a [WHERE]. *)
Definition ne_empty (x : option string) : bool :=
  match x with
  | Some a => negb (is_empty a)
  | None => false
  end.

(** [x LIKE 'p%'] for a pattern [p] of digits and dots. *)
Definition LIKE_prefix (x : option string) (p : string) : bool :=
  match x with
  | Some a => String.prefix p a
  | None => false
  end.

(** [UPPER(x) IN (...)] *)
Definition IN (x : option string) (l : list string) : bool :=
  match x with
  | Some a => List.existsb (String.eqb a) l
  | None => false
  end.

Definition non_null {A : Type} (l : list (option A)) : list A :=
  List.flat_map (fun x => match x with Some a => [a] | None => [] end) l.

Definition Qsum (l : list Q) : Q := List.fold_right Qplus 0%Q l.

(** [SUM(x)]: [NULL] when no row has a non-null value. *)
Definition SUM (l : list (option Q)) : option Q :=
  match non_null l with
  | [] => None
  | vs => Some (Qsum vs)
  end.

Fixpoint join (sep : rope) (l : list rope) : rope :=
  match l with
  | [] => []
  | [a] => a
  | a :: rest => a ++ sep ++ join sep rest
  end.

(** [GROUP_CONCAT(x, sep)] *)
Definition GROUP_CONCAT (l : list (option rope)) (sep : string) : option rope :=
  match non_null l with
  | [] => None
  | vs => Some (join [Lit sep] vs)
  end.

(** Equality of grouping keys: [NULL]s group together. *)
Definition key_eqb (x y : option string * option string) : bool :=
  let eqo a b :=
    match a, b with
    | Some s, Some t => String.eqb s t
    | None, None => true
    | _, _ => false
    end in
  eqo (fst x) (fst y) && eqo (snd x) (snd y).

(** The distinct keys of a [GROUP BY], each at its first occurrence. *)
Fixpoint group_keys (ks : list (option string * option string))
  : list (option string * option string) :=
  match ks with
  | [] => []
  | k :: rest => k :: List.filter (fun k' => negb (key_eqb k k')) (group_keys rest)
  end.

End Sql.

(* ================================================================== *)
(** * The ledger store: tables read and written by [process_data] *)
(* ================================================================== *)

Module Store.
Import Sql.

Inductive status : Type := Conferido | Divergente | Pendente.

Definition status_eqb (a b : status) : bool :=
  match a, b with
  | Conferido, Conferido | Divergente, Divergente | Pendente, Pendente => true
  | _, _ => false
  end.

(** [financeiro]: the columns the aggregation reads. *)
Record financeiro_row : Type := {
  fin_fornecedor : option string;
  fin_tipo_titulo : option string;
  fin_valor_original : option Q;
  fin_tit_vencidos_valor_nominal : option Q;
  fin_titulos_a_vencer_valor_nominal : option Q;
  fin_excluido : option Z;
  fin_codigo_fornecedor : option string;
  fin_descricao_fornecedor : option string
}.

(** [contas_itens] *)
Record contas_itens_row : Type := {
  ci_conta_contabil : option string;
  ci_descricao_item : option string;
  ci_codigo_fornecedor : option string;
  ci_descricao_fornecedor : option string;
  ci_saldo_atual : option Q
}.

(** [adiantamento] *)
Record adiantamento_row : Type := {
  ad_conta_contabil : option string;
  ad_codigo_fornecedor : option string;
  ad_descricao_fornecedor : option string;
  ad_saldo_atual : option Q
}.

(** [resultado]: one row per vendor reconciliation group. *)
Record resultado_row : Type := {
  res_codigo_fornecedor : option string;
  res_descricao_fornecedor : option string;
  res_saldo_contabil : option Q;
  res_saldo_financeiro : option Q;
  res_diferenca : option Q;
  res_status : status;
  res_detalhes : option rope;
  res_ordem_importancia : option nat
}.

(** [resultado_adiantamento]: one row per advance reconciliation group. *)
Record resultado_adiantamento_row : Type := {
  ra_codigo_fornecedor : option string;
  ra_descricao_fornecedor : option string;
  ra_total_financeiro : option Q;
  ra_total_contabil : option Q;
  ra_diferenca : option Q;
  ra_status : status;
  ra_detalhes : option rope
}.

(** The database file.  [has_codigo_fornecedor] and
    [has_descricao_fornecedor] say whether [financeiro] has these two
    columns: the table is recreated by each import from the frame's
    columns, and [_process_adiantamentos] adds them when they are missing. *)
Record database : Type := {
  financeiro : list financeiro_row;
  has_codigo_fornecedor : bool;
  has_descricao_fornecedor : bool;
  contas_itens : list contas_itens_row;
  adiantamento : list adiantamento_row;
  resultado : list resultado_row;
  resultado_adiantamento : list resultado_adiantamento_row
}.

Definition set_resultado (db : database) (t : list resultado_row) : database :=
  {| financeiro := financeiro db;
     has_codigo_fornecedor := has_codigo_fornecedor db;
     has_descricao_fornecedor := has_descricao_fornecedor db;
     contas_itens := contas_itens db;
     adiantamento := adiantamento db;
     resultado := t;
     resultado_adiantamento := resultado_adiantamento db |}.

Definition set_resultado_adiantamento (db : database)
  (t : list resultado_adiantamento_row) : database :=
  {| financeiro := financeiro db;
     has_codigo_fornecedor := has_codigo_fornecedor db;
     has_descricao_fornecedor := has_descricao_fornecedor db;
     contas_itens := contas_itens db;
     adiantamento := adiantamento db;
     resultado := resultado db;
     resultado_adiantamento := t |}.

Definition set_financeiro (db : database) (t : list financeiro_row)
  (has_cod has_desc : bool) : database :=
  {| financeiro := t;
     has_codigo_fornecedor := has_cod;
     has_descricao_fornecedor := has_desc;
     contas_itens := contas_itens db;
     adiantamento := adiantamento db;
     resultado := resultado db;
     resultado_adiantamento := resultado_adiantamento db |}.

Definition set_res_saldo_contabil (r : resultado_row) (v : option Q) : resultado_row :=
  {| res_codigo_fornecedor := res_codigo_fornecedor r;
     res_descricao_fornecedor := res_descricao_fornecedor r;
     res_saldo_contabil := v;
     res_saldo_financeiro := res_saldo_financeiro r;
     res_diferenca := res_diferenca r;
     res_status := res_status r;
     res_detalhes := res_detalhes r;
     res_ordem_importancia := res_ordem_importancia r |}.

Definition set_res_detalhes (r : resultado_row) (d : option rope) : resultado_row :=
  {| res_codigo_fornecedor := res_codigo_fornecedor r;
     res_descricao_fornecedor := res_descricao_fornecedor r;
     res_saldo_contabil := res_saldo_contabil r;
     res_saldo_financeiro := res_saldo_financeiro r;
     res_diferenca := res_diferenca r;
     res_status := res_status r;
     res_detalhes := d;
     res_ordem_importancia := res_ordem_importancia r |}.

Definition set_res_diferenca_status (r : resultado_row) (d : option Q) (s : status)
  : resultado_row :=
  {| res_codigo_fornecedor := res_codigo_fornecedor r;
     res_descricao_fornecedor := res_descricao_fornecedor r;
     res_saldo_contabil := res_saldo_contabil r;
     res_saldo_financeiro := res_saldo_financeiro r;
     res_diferenca := d;
     res_status := s;
     res_detalhes := res_detalhes r;
     res_ordem_importancia := res_ordem_importancia r |}.

Definition set_res_ordem_importancia (r : resultado_row) (n : option nat)
  : resultado_row :=
  {| res_codigo_fornecedor := res_codigo_fornecedor r;
     res_descricao_fornecedor := res_descricao_fornecedor r;
     res_saldo_contabil := res_saldo_contabil r;
     res_saldo_financeiro := res_saldo_financeiro r;
     res_diferenca := res_diferenca r;
     res_status := res_status r;
     res_detalhes := res_detalhes r;
     res_ordem_importancia := n |}.

Definition set_ra_total_contabil_detalhes (r : resultado_adiantamento_row)
  (v : option Q) (d : option rope) : resultado_adiantamento_row :=
  {| ra_codigo_fornecedor := ra_codigo_fornecedor r;
     ra_descricao_fornecedor := ra_descricao_fornecedor r;
     ra_total_financeiro := ra_total_financeiro r;
     ra_total_contabil := v;
     ra_diferenca := ra_diferenca r;
     ra_status := ra_status r;
     ra_detalhes := d |}.

Definition set_ra_diferenca_status (r : resultado_adiantamento_row)
  (d : option Q) (s : status) : resultado_adiantamento_row :=
  {| ra_codigo_fornecedor := ra_codigo_fornecedor r;
     ra_descricao_fornecedor := ra_descricao_fornecedor r;
     ra_total_financeiro := ra_total_financeiro r;
     ra_total_contabil := ra_total_contabil r;
     ra_diferenca := d;
     ra_status := s;
     ra_detalhes := ra_detalhes r |}.

Definition set_ra_detalhes (r : resultado_adiantamento_row) (d : option rope)
  : resultado_adiantamento_row :=
  {| ra_codigo_fornecedor := ra_codigo_fornecedor r;
     ra_descricao_fornecedor := ra_descricao_fornecedor r;
     ra_total_financeiro := ra_total_financeiro r;
     ra_total_contabil := ra_total_contabil r;
     ra_diferenca := ra_diferenca r;
     ra_status := ra_status r;
     ra_detalhes := d |}.

Definition set_fin_codigo_descricao (f : financeiro_row)
  (cod desc : option string) : financeiro_row :=
  {| fin_fornecedor := fin_fornecedor f;
     fin_tipo_titulo := fin_tipo_titulo f;
     fin_valor_original := fin_valor_original f;
     fin_tit_vencidos_valor_nominal := fin_tit_vencidos_valor_nominal f;
     fin_titulos_a_vencer_valor_nominal := fin_titulos_a_vencer_valor_nominal f;
     fin_excluido := fin_excluido f;
     fin_codigo_fornecedor := cod;
     fin_descricao_fornecedor := desc |}.

End Store.

(* ================================================================== *)
(** * The SQL statements of [process_data] *)
(* ================================================================== *)

Module Conciliacao.
Import Text Sql Store.

(** The literals of the queries. *)
Definition CONTA_FORNECEDORES : string := "2.01.02.01.0001".
Definition CONTA_ADIANTAMENTO : string := "1.01.06.02.0001".
Definition TOLERANCIA : Q := 0.03.

(** [COALESCE(NULLIF(TRIM(f.codigo_fornecedor), ''), TRIM(f.fornecedor))] *)
Definition fin_key (f : financeiro_row) : option string :=
  COALESCE (NULLIF (TRIM (fin_codigo_fornecedor f)) "") (TRIM (fin_fornecedor f)).

(** [COALESCE(NULLIF(TRIM(f.descricao_fornecedor), ''), TRIM(f.fornecedor))] *)
Definition fin_desc (f : financeiro_row) : option string :=
  COALESCE (NULLIF (TRIM (fin_descricao_fornecedor f)) "") (TRIM (fin_fornecedor f)).

(** [f.excluido = 0 AND UPPER(f.tipo_titulo) IN tipos] *)
Definition fin_selected (tipos : list string) (f : financeiro_row) : bool :=
  match fin_excluido f with
  | Some z => (z =? 0)%Z
  | None => false
  end
  && IN (UPPER (fin_tipo_titulo f)) tipos.

Definition fin_group (rows : list financeiro_row) (k : option string * option string)
  : list financeiro_row :=
  List.filter (fun f => key_eqb k (fin_key f, fin_desc f)) rows.

(** [query_consolidada]: one group per vendor of the NF/FT titles.  The
    statement names [f.codigo_fornecedor] and [f.descricao_fornecedor]:
    SQLite refuses it when [financeiro] lacks one of the columns. *)
Definition query_consolidada (db : database) : result database :=
  if has_codigo_fornecedor db && has_descricao_fornecedor db then
    let rows := List.filter (fin_selected ["NF"; "FT"]) (financeiro db) in
    let inserted :=
      List.map
        (fun k =>
           {| res_codigo_fornecedor := fst k;
              res_descricao_fornecedor := snd k;
              res_saldo_contabil := Some 0%Q;
              res_saldo_financeiro :=
                SUM (List.map (fun f => Some (coalesce0 (fin_valor_original f)))
                       (fin_group rows k));
              res_diferenca := Some 0%Q;          (* column default *)
              res_status := Pendente;
              res_detalhes := None;
              res_ordem_importancia := None |})
        (group_keys (List.map (fun f => (fin_key f, fin_desc f)) rows)) in
    Ok (set_resultado db (resultado db ++ inserted))
  else Raise OperationalError.

(** [REPLACE(REPLACE(UPPER(TRIM(x)), 'AF', ''), 'F', '')] *)
Definition norm_codigo (x : option string) : option string :=
  REPLACE (REPLACE (UPPER (TRIM x)) "AF" "") "F" "".

(** The join condition of [query_atualiza_contabil]. *)
Definition ci_matches (r : resultado_row) (ci : contas_itens_row) : bool :=
  LIKE_prefix (ci_conta_contabil ci) CONTA_FORNECEDORES
  && eq_text (norm_codigo (ci_codigo_fornecedor ci))
             (norm_codigo (res_codigo_fornecedor r))
  && negb (is_null (ci_codigo_fornecedor ci))
  && ne_empty (ci_codigo_fornecedor ci).

Definition ci_linha (ci : contas_itens_row) : option rope :=
  lit "Conta: " |+| txt (ci_conta_contabil ci)
  |+| lit " | Item: " |+| txt (ci_descricao_item ci)
  |+| lit " | Valor: R$ " |+| num (Some (round2 (coalesce0 (ci_saldo_atual ci)))).

Definition query_atualiza_contabil (db : database) : database :=
  set_resultado db
    (List.map
       (fun r =>
          let cis := List.filter (ci_matches r) (contas_itens db) in
          if List.existsb (ci_matches r) (contas_itens db) then
            set_res_detalhes
              (set_res_saldo_contabil r
                 (COALESCE (SUM (List.map ci_saldo_atual cis)) (Some 0%Q)))
              (GROUP_CONCAT (List.map ci_linha cis) " | ")
          else r)
       (resultado db)).

(** The join condition of [query_adiantamento]. *)
Definition ad_matches (r : resultado_row) (a : adiantamento_row) : bool :=
  LIKE_prefix (ad_conta_contabil a) CONTA_ADIANTAMENTO
  && eq_text (ad_codigo_fornecedor a) (res_codigo_fornecedor r).

Definition query_adiantamento (db : database) : database :=
  set_resultado db
    (List.map
       (fun r =>
          let ads := List.filter (ad_matches r) (adiantamento db) in
          if List.existsb (ad_matches r) (adiantamento db) then
            set_res_saldo_contabil r
              (option_map
                 (fun s => (s + coalesce0 (SUM (List.map ad_saldo_atual ads)))%Q)
                 (res_saldo_contabil r))
          else r)
       (resultado db)).

(** [COALESCE(NULLIF(TRIM(ci.codigo_fornecedor), ''), ci.descricao_fornecedor)] *)
Definition ci_key (ci : contas_itens_row) : option string :=
  COALESCE (NULLIF (TRIM (ci_codigo_fornecedor ci)) "") (ci_descricao_fornecedor ci).

(** [COALESCE(NULLIF(TRIM(ci.descricao_fornecedor), ''), ci.descricao_item)] *)
Definition ci_desc (ci : contas_itens_row) : option string :=
  COALESCE (NULLIF (TRIM (ci_descricao_fornecedor ci)) "") (ci_descricao_item ci).

(** [query_contabeis_faltantes]: accounting vendors with no group yet. *)
Definition query_contabeis_faltantes (db : database) : database :=
  let rows :=
    List.filter
      (fun ci =>
         LIKE_prefix (ci_conta_contabil ci) CONTA_FORNECEDORES
         && negb (List.existsb
                    (fun r => eq_text (res_codigo_fornecedor r) (ci_key ci))
                    (resultado db)))
      (contas_itens db) in
  let inserted :=
    List.map
      (fun k =>
         {| res_codigo_fornecedor := fst k;
            res_descricao_fornecedor := snd k;
            res_saldo_contabil :=
              SUM (List.map (fun ci => Some (coalesce0 (ci_saldo_atual ci)))
                     (List.filter (fun ci => key_eqb k (ci_key ci, ci_desc ci)) rows));
            res_saldo_financeiro := Some 0%Q;
            res_diferenca := Some 0%Q;            (* column default *)
            res_status := Pendente;
            res_detalhes := None;
            res_ordem_importancia := None |})
      (group_keys (List.map (fun ci => (ci_key ci, ci_desc ci)) rows)) in
  set_resultado db (resultado db ++ inserted).

(** The [CASE ... END] of the tolerance: the larger absolute side. *)
Definition maior_lado (contabil financeiro : Q) : Q :=
  if Qgt_bool (Qabs contabil) (Qabs financeiro)
  then Qabs contabil
  else Qabs financeiro.

(** The [CASE] that classifies a vendor group. *)
Definition classifica (saldo_contabil saldo_financeiro : option Q) : status :=
  if is_null saldo_contabil && is_null saldo_financeiro then Pendente
  else if Qle_bool (Qabs (coalesce0 saldo_financeiro - coalesce0 saldo_contabil))
            (TOLERANCIA * maior_lado (coalesce0 saldo_contabil) (coalesce0 saldo_financeiro))
       then Conferido
       else Divergente.

Definition query_diferenca (db : database) : database :=
  set_resultado db
    (List.map
       (fun r =>
          set_res_diferenca_status r
            (Some (round2 (coalesce0 (res_saldo_contabil r)
                           - coalesce0 (res_saldo_financeiro r))))
            (classifica (res_saldo_contabil r) (res_saldo_financeiro r)))
       (resultado db)).

(** The count of the sub-select of [query_investigacao]. *)
Definition itens_encontrados (db : database) (r : resultado_row) : nat :=
  List.length
    (List.filter
       (fun ci =>
          (eq_text (ci_codigo_fornecedor ci) (res_codigo_fornecedor r)
           || eq_text (ci_descricao_fornecedor ci) (res_descricao_fornecedor r))
          && LIKE_prefix (ci_conta_contabil ci) CONTA_FORNECEDORES)
       (contas_itens db)).

(** What [query_investigacao] does to one group. *)
Definition investigacao_row (db : database) (r : resultado_row) : resultado_row :=
  if status_eqb (res_status r) Divergente then
    set_res_detalhes r
      (COALESCE (res_detalhes r) (Some [Lit ""])
       |+| lit " | Divergência: R$ " |+| num (ABS (res_diferenca r))
       |+| lit ". Itens Contábeis encontrados: "
       |+| COALESCE (Some [Cnt (itens_encontrados db r); Lit " itens"])
             (lit "Nenhum item específico encontrado"))
  else r.

Definition query_investigacao (db : database) : database :=
  set_resultado db (List.map (investigacao_row db) (resultado db)).

(** [detalhes IS NULL OR detalhes = ''] *)
Definition sem_detalhes (d : option rope) : bool :=
  match d with
  | None => true
  | Some t => rope_is_empty t
  end.

(** The update "para fornecedores divergentes sem itens específicos",
    on one group. *)
Definition divergentes_sem_itens_row (r : resultado_row) : resultado_row :=
  if status_eqb (res_status r) Divergente && sem_detalhes (res_detalhes r) then
    set_res_detalhes r
      (lit "Divergência: R$ " |+| num (ABS (res_diferenca r))
       |+| lit ". Investigar manualmente no sistema. Nenhum item contábil específico encontrado para análise automática.")
  else r.

Definition update_divergentes_sem_itens (db : database) : database :=
  set_resultado db (List.map divergentes_sem_itens_row (resultado db)).

(** [ABS(COALESCE(diferenca, 0))] *)
Definition abs_diferenca (r : resultado_row) : Q := Qabs (coalesce0 (res_diferenca r)).

(** The [COUNT] of the ranking update, for the group [r]. *)
Definition conta_maiores (t : list resultado_row) (r : resultado_row) : nat :=
  List.length (List.filter (fun r2 => Qle_bool (abs_diferenca r) (abs_diferenca r2)) t).

Definition update_ordem_importancia (db : database) : database :=
  set_resultado db
    (List.map
       (fun r => set_res_ordem_importancia r (Some (conta_maiores (resultado db) r)))
       (resultado db)).

(** The update of the details of the groups that are not divergent, on
    one group. *)
Definition detalhes_nao_divergentes_row (r : resultado_row) : resultado_row :=
  if sem_detalhes (res_detalhes r) then
    set_res_detalhes r
      (match res_status r with
       | Conferido => lit "Conciliação dentro da tolerância"
       | Pendente =>
           lit "Financeiro: R$ " |+| num (Some (coalesce0 (res_saldo_financeiro r)))
           |+| lit " | Contábil: R$ " |+| num (Some (coalesce0 (res_saldo_contabil r)))
           |+| lit " | Diferença: R$ " |+| num (Some (coalesce0 (res_diferenca r)))
       | Divergente => res_detalhes r   (* ELSE detalhes *)
       end)
  else r.

Definition update_detalhes_nao_divergentes (db : database) : database :=
  set_resultado db (List.map detalhes_nao_divergentes_row (resultado db)).

(** ** [_process_adiantamentos] *)

(** The two [ALTER TABLE financeiro ADD COLUMN] statements: a new column
    is [NULL] in every row. *)
Definition alter_add_codigo_fornecedor (db : database) : database :=
  set_financeiro db
    (List.map (fun f => set_fin_codigo_descricao f None (fin_descricao_fornecedor f))
       (financeiro db))
    true (has_descricao_fornecedor db).

Definition alter_add_descricao_fornecedor (db : database) : database :=
  set_financeiro db
    (List.map (fun f => set_fin_codigo_descricao f (fin_codigo_fornecedor f) None)
       (financeiro db))
    (has_codigo_fornecedor db) true.

(** [UPDATE financeiro SET codigo_fornecedor = fornecedor
     WHERE codigo_fornecedor IS NULL] *)
Definition update_fin_codigo (db : database) : database :=
  set_financeiro db
    (List.map
       (fun f =>
          if is_null (fin_codigo_fornecedor f)
          then set_fin_codigo_descricao f (fin_fornecedor f) (fin_descricao_fornecedor f)
          else f)
       (financeiro db))
    (has_codigo_fornecedor db) (has_descricao_fornecedor db).

Definition update_fin_descricao (db : database) : database :=
  set_financeiro db
    (List.map
       (fun f =>
          if is_null (fin_descricao_fornecedor f)
          then set_fin_codigo_descricao f (fin_codigo_fornecedor f) (fin_fornecedor f)
          else f)
       (financeiro db))
    (has_codigo_fornecedor db) (has_descricao_fornecedor db).

(** [query_adiantamento_financeiro]: one group per vendor of the NDF/PA titles. *)
Definition query_adiantamento_financeiro (db : database) : database :=
  let rows := List.filter (fin_selected ["NDF"; "PA"]) (financeiro db) in
  let inserted :=
    List.map
      (fun k =>
         {| ra_codigo_fornecedor := fst k;
            ra_descricao_fornecedor := snd k;
            ra_total_financeiro :=
              SUM (List.map
                     (fun f => Some (coalesce0 (fin_tit_vencidos_valor_nominal f)
                                     + coalesce0 (fin_titulos_a_vencer_valor_nominal f))%Q)
                     (fin_group rows k));
            ra_total_contabil := Some 0%Q;        (* column default *)
            ra_diferenca := Some 0%Q;             (* column default *)
            ra_status := Pendente;
            ra_detalhes := None |})
      (group_keys (List.map (fun f => (fin_key f, fin_desc f)) rows)) in
  set_resultado_adiantamento db (resultado_adiantamento db ++ inserted).

(** The join condition of [query_contabil_update]. *)
Definition ra_matches (r : resultado_adiantamento_row) (a : adiantamento_row) : bool :=
  eq_text (ad_codigo_fornecedor a) (ra_codigo_fornecedor r)
  || eq_text (TRIM (ad_descricao_fornecedor a)) (ra_descricao_fornecedor r).

Definition query_contabil_update (db : database) : database :=
  set_resultado_adiantamento db
    (List.map
       (fun r =>
          let ads := List.filter (ra_matches r) (adiantamento db) in
          if List.existsb (ra_matches r) (adiantamento db) then
            set_ra_total_contabil_detalhes r
              (COALESCE (SUM (List.map ad_saldo_atual ads)) (Some 0%Q))
              (lit "Adiantamento: "
               |+| COALESCE
                     (GROUP_CONCAT
                        (List.map
                           (fun a => txt (ad_descricao_fornecedor a) |+| lit ": R$ "
                                     |+| num (ad_saldo_atual a))
                           ads)
                        " | ")
                     (lit "Nenhum registro contábil"))
          else r)
       (resultado_adiantamento db)).

(** [query_contabeis_sem_match]: accounting advances with no group yet. *)
Definition query_contabeis_sem_match (db : database) : database :=
  let rows :=
    List.filter
      (fun a =>
         negb (is_null (ad_codigo_fornecedor a))
         && ne_empty (ad_codigo_fornecedor a)
         && negb (List.existsb
                    (fun r =>
                       eq_text (ra_codigo_fornecedor r) (ad_codigo_fornecedor a)
                       || eq_text (TRIM (ra_descricao_fornecedor r))
                                  (TRIM (ad_descricao_fornecedor a)))
                    (resultado_adiantamento db)))
      (adiantamento db) in
  let chave (a : adiantamento_row) := (ad_codigo_fornecedor a, ad_descricao_fornecedor a) in
  let inserted :=
    List.map
      (fun k =>
         {| ra_codigo_fornecedor := fst k;
            ra_descricao_fornecedor := snd k;
            ra_total_financeiro := Some 0%Q;      (* column default *)
            ra_total_contabil :=
              SUM (List.map (fun a => Some (coalesce0 (ad_saldo_atual a)))
                     (List.filter (fun a => key_eqb k (chave a)) rows));
            ra_diferenca := Some 0%Q;             (* column default *)
            ra_status := Pendente;
            ra_detalhes := lit "Adiantamento contábil sem correspondência financeira" |})
      (group_keys (List.map chave rows)) in
  set_resultado_adiantamento db (resultado_adiantamento db ++ inserted).

(** The [CASE] that classifies an advance group. *)
Definition classifica_adiantamento (total_contabil total_financeiro : option Q) : status :=
  if is_null total_contabil && is_null total_financeiro then Pendente
  else if is_null total_contabil && negb (is_null total_financeiro) then Divergente
  else if is_null total_financeiro && negb (is_null total_contabil) then Divergente
  else if Qle_bool (Qabs (coalesce0 total_financeiro + coalesce0 total_contabil))
            (TOLERANCIA * maior_lado (coalesce0 total_contabil) (coalesce0 total_financeiro))
       then Conferido
       else Divergente.

Definition query_diferenca_adiantamento (db : database) : database :=
  set_resultado_adiantamento db
    (List.map
       (fun r =>
          set_ra_diferenca_status r
            (Some (round2 (coalesce0 (ra_total_financeiro r)
                           + coalesce0 (ra_total_contabil r))))
            (classifica_adiantamento (ra_total_contabil r) (ra_total_financeiro r)))
       (resultado_adiantamento db)).

Definition update_detalhes_adiantamento (db : database) : database :=
  set_resultado_adiantamento db
    (List.map
       (fun r =>
          if sem_detalhes (ra_detalhes r) then
            set_ra_detalhes r
              (if status_eqb (ra_status r) Conferido then lit "Adiantamento conciliado"
               else if status_eqb (ra_status r) Divergente && is_null (ra_total_financeiro r)
               then lit "Adiantamento contábil sem lançamento financeiro: R$ "
                    |+| num (Some (coalesce0 (ra_total_contabil r)))
               else if status_eqb (ra_status r) Divergente && is_null (ra_total_contabil r)
               then lit "Adiantamento financeiro sem lançamento contábil: R$ "
                    |+| num (Some (coalesce0 (ra_total_financeiro r)))
               else lit "Diferença: R$ " |+| num (Some (Qabs (coalesce0 (ra_diferenca r))))
                    |+| lit " | Financeiro: R$ " |+| num (Some (coalesce0 (ra_total_financeiro r)))
                    |+| lit " | Contábil: R$ " |+| num (Some (coalesce0 (ra_total_contabil r))))
          else r)
       (resultado_adiantamento db)).

End Conciliacao.

(* ================================================================== *)
(** * The connection, its transaction, and [process_data] *)
(* ================================================================== *)

Module Processo.
Import Sql Store Conciliacao.

(** The [sqlite3] connection: the contents it shows, and, while a
    transaction is open, the contents at its [BEGIN]. *)
Record connection : Type := {
  store : database;
  snapshot : option database
}.

(** Code that works on the connection and may raise: the connection is
    kept as the exception left it. *)
Definition M (A : Type) : Type := connection -> connection * result A.

Definition ret {A : Type} (a : A) : M A := fun conn => (conn, Ok a).

Definition raiseM {A : Type} (e : exn) : M A := fun conn => (conn, Raise e).

Definition bindM {A B : Type} (m : M A) (k : A -> M B) : M B :=
  fun conn =>
    match m conn with
    | (conn', Ok a) => k a conn'
    | (conn', Raise e) => (conn', Raise e)
    end.

(** [try: body  except Exception as e: handler(e)] *)
Definition try_catchM {A : Type} (body : M A) (handler : exn -> M A) : M A :=
  fun conn =>
    match body conn with
    | (conn', Ok a) => (conn', Ok a)
    | (conn', Raise e) => handler e conn'
    end.

Definition get_store : M database := fun conn => (conn, Ok (store conn)).

Declare Scope conn_scope.
Delimit Scope conn_scope with conn.
Notation "x <- m ;; k" := (bindM m (fun x => k))
  (at level 100, m at next level, right associativity) : conn_scope.
Notation "m ;;; k" := (bindM m (fun _ => k))
  (at level 100, right associativity) : conn_scope.

(** The calls of [process_data] on the connection and its cursor, in the
    order of the source. *)
Inductive call : Type :=
| BEGIN_TRANSACTION
| DELETE_RESULTADO
| DELETE_RESULTADO_ADIANTAMENTO
| QUERY_CONSOLIDADA
| QUERY_ATUALIZA_CONTABIL
| QUERY_ADIANTAMENTO
| QUERY_CONTABEIS_FALTANTES
| QUERY_DIFERENCA
| QUERY_INVESTIGACAO
| UPDATE_DIVERGENTES_SEM_ITENS
| UPDATE_ORDEM_IMPORTANCIA
| UPDATE_DETALHES_NAO_DIVERGENTES
| AD_DELETE_RESULTADO_ADIANTAMENTO
| AD_PRAGMA_TABLE_INFO
| AD_ALTER_CODIGO_FORNECEDOR
| AD_ALTER_DESCRICAO_FORNECEDOR
| AD_UPDATE_FIN_CODIGO
| AD_UPDATE_FIN_DESCRICAO
| AD_QUERY_ADIANTAMENTO_FINANCEIRO
| AD_QUERY_CONTABIL_UPDATE
| AD_QUERY_CONTABEIS_SEM_MATCH
| AD_QUERY_DIFERENCA
| AD_UPDATE_DETALHES
| COMMIT.

Section Run.

(** The environment: [faults c] tells whether the call [c] fails in the
    database engine (locked file, full disk, ...). *)
Variable faults : call -> bool.

(** [cursor.execute(stmt)] *)
Definition execute (c : call) (stmt : database -> result database) : M unit :=
  fun conn =>
    if faults c then (conn, Raise OperationalError)
    else match stmt (store conn) with
         | Ok db => ({| store := db; snapshot := snapshot conn |}, Ok tt)
         | Raise e => (conn, Raise e)
         end.

(** A statement that SQLite always accepts. *)
Definition total (f : database -> database) : database -> result database :=
  fun db => Ok (f db).

(** [self.conn.execute("BEGIN TRANSACTION")] *)
Definition begin_transaction : M unit :=
  fun conn =>
    if faults BEGIN_TRANSACTION then (conn, Raise OperationalError)
    else match snapshot conn with
         | Some _ => (conn, Raise OperationalError)   (* a transaction is open *)
         | None => ({| store := store conn; snapshot := Some (store conn) |}, Ok tt)
         end.

(** [self.conn.commit()] *)
Definition commit : M unit :=
  fun conn =>
    if faults COMMIT then (conn, Raise OperationalError)
    else ({| store := store conn; snapshot := None |}, Ok tt).

(** [self.conn.rollback()] *)
Definition rollback : M unit :=
  fun conn =>
    ({| store := match snapshot conn with
                 | Some db => db
                 | None => store conn
                 end;
        snapshot := None |}, Ok tt).

Definition _process_adiantamentos : M unit :=
  try_catchM
    (execute AD_DELETE_RESULTADO_ADIANTAMENTO
       (total (fun db => set_resultado_adiantamento db [])) ;;;
     execute AD_PRAGMA_TABLE_INFO (total (fun db => db)) ;;;
     existing_columns <- get_store ;;
     (if negb (has_codigo_fornecedor existing_columns)
      then execute AD_ALTER_CODIGO_FORNECEDOR (total alter_add_codigo_fornecedor)
      else ret tt) ;;;
     (if negb (has_descricao_fornecedor existing_columns)
      then execute AD_ALTER_DESCRICAO_FORNECEDOR (total alter_add_descricao_fornecedor)
      else ret tt) ;;;
     execute AD_UPDATE_FIN_CODIGO (total update_fin_codigo) ;;;
     execute AD_UPDATE_FIN_DESCRICAO (total update_fin_descricao) ;;;
     execute AD_QUERY_ADIANTAMENTO_FINANCEIRO (total query_adiantamento_financeiro) ;;;
     execute AD_QUERY_CONTABIL_UPDATE (total query_contabil_update) ;;;
     execute AD_QUERY_CONTABEIS_SEM_MATCH (total query_contabeis_sem_match) ;;;
     execute AD_QUERY_DIFERENCA (total query_diferenca_adiantamento) ;;;
     execute AD_UPDATE_DETALHES (total update_detalhes_adiantamento))%conn
    (fun e => raiseM e).                     (* logged, then [raise] *)

Definition process_data : M bool :=
  try_catchM
    (begin_transaction ;;;
     execute DELETE_RESULTADO (total (fun db => set_resultado db [])) ;;;
     execute DELETE_RESULTADO_ADIANTAMENTO
       (total (fun db => set_resultado_adiantamento db [])) ;;;
     execute QUERY_CONSOLIDADA query_consolidada ;;;
     execute QUERY_ATUALIZA_CONTABIL (total query_atualiza_contabil) ;;;
     execute QUERY_ADIANTAMENTO (total query_adiantamento) ;;;
     execute QUERY_CONTABEIS_FALTANTES (total query_contabeis_faltantes) ;;;
     execute QUERY_DIFERENCA (total query_diferenca) ;;;
     execute QUERY_INVESTIGACAO (total query_investigacao) ;;;
     execute UPDATE_DIVERGENTES_SEM_ITENS (total update_divergentes_sem_itens) ;;;
     try_catchM
       (execute UPDATE_ORDEM_IMPORTANCIA (total update_ordem_importancia))
       (fun rank_error => ret tt) ;;;         (* logged only *)
     execute UPDATE_DETALHES_NAO_DIVERGENTES (total update_detalhes_nao_divergentes) ;;;
     _process_adiantamentos ;;;
     commit ;;;
     ret true)%conn
    (fun e => (rollback ;;; raiseM ExcecaoNaoMapeadaError)%conn).


End Run.


(** No call fails. *)
Definition no_faults : call -> bool := fun _ => false.

(** Only the call [c] fails. *)
Definition call_eqb (a b : call) : bool :=
  match a, b with
  | BEGIN_TRANSACTION, BEGIN_TRANSACTION
  | DELETE_RESULTADO, DELETE_RESULTADO
  | DELETE_RESULTADO_ADIANTAMENTO, DELETE_RESULTADO_ADIANTAMENTO
  | QUERY_CONSOLIDADA, QUERY_CONSOLIDADA
  | QUERY_ATUALIZA_CONTABIL, QUERY_ATUALIZA_CONTABIL
  | QUERY_ADIANTAMENTO, QUERY_ADIANTAMENTO
  | QUERY_CONTABEIS_FALTANTES, QUERY_CONTABEIS_FALTANTES
  | QUERY_DIFERENCA, QUERY_DIFERENCA
  | QUERY_INVESTIGACAO, QUERY_INVESTIGACAO
  | UPDATE_DIVERGENTES_SEM_ITENS, UPDATE_DIVERGENTES_SEM_ITENS
  | UPDATE_ORDEM_IMPORTANCIA, UPDATE_ORDEM_IMPORTANCIA
  | UPDATE_DETALHES_NAO_DIVERGENTES, UPDATE_DETALHES_NAO_DIVERGENTES
  | AD_DELETE_RESULTADO_ADIANTAMENTO, AD_DELETE_RESULTADO_ADIANTAMENTO
  | AD_PRAGMA_TABLE_INFO, AD_PRAGMA_TABLE_INFO
  | AD_ALTER_CODIGO_FORNECEDOR, AD_ALTER_CODIGO_FORNECEDOR
  | AD_ALTER_DESCRICAO_FORNECEDOR, AD_ALTER_DESCRICAO_FORNECEDOR
  | AD_UPDATE_FIN_CODIGO, AD_UPDATE_FIN_CODIGO
  | AD_UPDATE_FIN_DESCRICAO, AD_UPDATE_FIN_DESCRICAO
  | AD_QUERY_ADIANTAMENTO_FINANCEIRO, AD_QUERY_ADIANTAMENTO_FINANCEIRO
  | AD_QUERY_CONTABIL_UPDATE, AD_QUERY_CONTABIL_UPDATE
  | AD_QUERY_CONTABEIS_SEM_MATCH, AD_QUERY_CONTABEIS_SEM_MATCH
  | AD_QUERY_DIFERENCA, AD_QUERY_DIFERENCA
  | AD_UPDATE_DETALHES, AD_UPDATE_DETALHES
  | COMMIT, COMMIT => true
  | _, _ => false
  end.

Definition only (c : call) : call -> bool := call_eqb c.

(** The calls that every run reaches, but for the ranking update, whose
    exception [process_data] catches.  The two [ALTER TABLE] are reached
    only when [financeiro] lacks a column. *)
Definition always_reached (c : call) : bool :=
  match c with
  | UPDATE_ORDEM_IMPORTANCIA
  | AD_ALTER_CODIGO_FORNECEDOR
  | AD_ALTER_DESCRICAO_FORNECEDOR => false
  | _ => true
  end.

(** Code that leaves the open transaction's snapshot as it found it,
    and code that does so at least when it raises. *)
Definition keeps_snapshot {A : Type} (m : M A) : Prop :=
  forall conn, snapshot (fst (m conn)) = snapshot conn.

Definition keeps_snapshot_on_raise {A : Type} (m : M A) : Prop :=
  forall conn conn' e, m conn = (conn', Raise e) -> snapshot conn' = snapshot conn.

(** The fields of a group that no statement changes after [query_diferenca]. *)
Definition core (r : resultado_row)
  : option string * option string * option Q * option Q * option Q * status :=
  (res_codigo_fornecedor r, res_descricao_fornecedor r,
   res_saldo_contabil r, res_saldo_financeiro r, res_diferenca r, res_status r).

(** A group without a rank. *)
Definition sem_ordem (r : resultado_row) : Prop := res_ordem_importancia r = None.

(** ** The statements of a run in which no call raises, composed *)

(** From the two [DELETE] to the groups ready for [query_diferenca]. *)
Definition antes_diferenca (db : database) : result database :=
  (db <- query_consolidada (set_resultado_adiantamento (set_resultado db []) []) ;;
   Ok (query_contabeis_faltantes (query_adiantamento (query_atualiza_contabil db))))%result.

(** From [query_diferenca] to the last update of [resultado];
    [rank_error] tells whether the ranking update raised. *)
Definition apos_diferenca (rank_error : bool) (db : database) : database :=
  let db := update_divergentes_sem_itens (query_investigacao db) in
  let db := if rank_error then db else update_ordem_importancia db in
  update_detalhes_nao_divergentes db.

(** [_process_adiantamentos], up to its [query_diferenca]. *)
Definition adiantamentos_antes_diferenca (db : database) : database :=
  let db := set_resultado_adiantamento db [] in
  let existing_columns := db in
  let db := if negb (has_codigo_fornecedor existing_columns)
            then alter_add_codigo_fornecedor db else db in
  let db := if negb (has_descricao_fornecedor existing_columns)
            then alter_add_descricao_fornecedor db else db in
  let db := update_fin_descricao (update_fin_codigo db) in
  query_contabeis_sem_match (query_contabil_update (query_adiantamento_financeiro db)).

Definition adiantamentos (db : database) : database :=
  update_detalhes_adiantamento
    (query_diferenca_adiantamento (adiantamentos_antes_diferenca db)).

End Processo.

(* ================================================================== *)
(** * [import_from_excel]: routing and replacement of a source table *)
(* ================================================================== *)

Module Importacao.
Import Text.

(** [Settings]: the names of the source tables. *)
Definition TABLE_FINANCEIRO : string := "financeiro".
Definition TABLE_MODELO1 : string := "modelo1".
Definition TABLE_CONTAS_ITENS : string := "contas_itens".
Definition TABLE_ADIANTAMENTO : string := "adiantamento".

(** Splits at the last occurrence of [c]. *)
Fixpoint rsplit (c : ascii) (s : string) : option (string * string) :=
  match s with
  | EmptyString => None
  | String d s' =>
      match rsplit c s' with
      | Some (a, b) => Some (String d a, b)
      | None => if Ascii.eqb d c then Some (EmptyString, s') else None
      end
  end.

(** [Path(p).name]: the last component of a path to a file (a path
    that does not end with a slash). *)
Definition path_name (p : string) : string :=
  match rsplit "/" p with
  | Some (_, n) => n
  | None => p
  end.

(** [Path(p).stem]: the name without its last suffix; a dot that starts
    or ends the name opens no suffix. *)
Definition path_stem (p : string) : string :=
  let name := path_name p in
  match rsplit "." name with
  | Some (a, b) => if is_empty a || is_empty b then name else a
  | None => name
  end.

(** ['tok' in filename], for the lower-cased stem of the path. *)
Definition has_token (tok file_path : string) : bool :=
  contains tok (Text.map py_lower (path_stem file_path)).

(** The destination table: lines 297-307 of [import_from_excel]. *)
Definition destino (file_path table_name : string) : string :=
  let filename := Text.map py_lower (path_stem file_path) in
  if contains "ctbr100" filename then TABLE_ADIANTAMENTO
  else if contains "ctbr140" filename then TABLE_CONTAS_ITENS
  else if contains "ctbr040" filename then TABLE_MODELO1
  else if contains "finr150" filename then TABLE_FINANCEIRO
  else table_name.

(** A cell of a data frame or of a table. *)
Inductive cell : Type :=
| CNull
| CInt (z : Z)
| CReal (q : Q)
| CText (s : string).

(** A data frame, and a table of the database: its columns in order,
    each with one cell per row. *)
Record frame : Type := {
  nrows : nat;
  columns : list (string * list cell)
}.

Definition column_names (df : frame) : list string := List.map fst (columns df).

Definition mem (x : string) (l : list string) : bool := List.existsb (String.eqb x) l.

(** [df[keep]]: for each label, the columns of that name. *)
Definition select (keep : list string) (df : frame) : frame :=
  {| nrows := nrows df;
     columns :=
       List.flat_map
         (fun k => List.filter (fun c => String.eqb (fst c) k) (columns df))
         keep |}.

(** [df[col] = v] for a column that the frame lacks. *)
Definition add_column (df : frame) (col : string) (v : cell) : frame :=
  {| nrows := nrows df;
     columns := columns df ++ [(col, List.repeat v (nrows df))] |}.

(** The value a column added by the import takes in every row. *)
Definition default_cell (col : string) : cell :=
  if String.eqb col "excluido" then CInt 0 else CNull.

(** The loop that adds the table's columns the frame lacks. *)
Fixpoint add_missing (table_columns : list string) (df : frame) : frame :=
  match table_columns with
  | [] => df
  | col :: rest =>
      add_missing rest
        (if mem col (column_names df) then df
         else add_column df col (default_cell col))
  end.

(** The names that loop adds to a frame whose columns are [seen]. *)
Fixpoint new_columns (table_columns seen : list string) : list string :=
  match table_columns with
  | [] => []
  | col :: rest =>
      if mem col seen then new_columns rest seen
      else col :: new_columns rest (seen ++ [col])
  end.

(** The frame written to a table whose columns are [table_columns]. *)
Definition prepared (table_columns : list string) (df : frame) : frame :=
  add_missing table_columns
    (select (List.filter (fun col => mem col table_columns) (column_names df)) df).

Section ImportFromExcel.

(** Lines 309-412: the file read, its columns mapped and its cells
    cleaned for the destination table.  The frame depends on the file and
    on the table's name, not on the database. *)
Variable load_frame : string -> string -> result frame.

(** [PRAGMA table_info(table_name)]: no row for a table that is not there. *)
Definition table_info (db : gmap string frame) (table_name : string) : list string :=
  match db !! table_name with
  | Some t => column_names t
  | None => []
  end.

(** The database after the call, and what the call returns or raises. *)
Definition import_from_excel (file_path table_name : string) (db : gmap string frame)
  : gmap string frame * result bool :=
  let table_name := destino file_path table_name in
  match load_frame file_path table_name with
  | Ok df =>
      let table_columns := table_info db table_name in
      let keep := List.filter (fun col => mem col table_columns) (column_names df) in
      let df := select keep df in
      let df := add_missing table_columns df in
      (* df.to_sql(table_name, self.conn, if_exists='replace', index=False) *)
      (<[table_name := df]> db, Ok true)
  | Raise PlanilhaFormatacaoErradaError
  | Raise InvalidDataFormat => (db, Ok false)
  | Raise _ => (db, Raise ExcecaoNaoMapeadaError)
  end.

End ImportFromExcel.

End Importacao.

(* ================================================================== *)
(** * Sample data *)
(* ================================================================== *)

Module Exemplos.
Import Sql Store Processo Importacao.

(** A frame read from a file: two rows, one column unknown to the table. *)
Definition df_exemplo : frame :=
  {| nrows := 2;
     columns := [("fornecedor", [CText "1001 ACME"; CText "2002 BETA"]);
                 ("extra", [CNull; CNull]);
                 ("valor_original", [CReal 10; CReal 20])] |}.

Definition load_exemplo : string -> string -> result frame :=
  fun _ _ => Ok df_exemplo.

(** A database whose [financeiro] table holds one older row. *)
Definition db_exemplo : gmap string frame :=
  <["financeiro" :=
      {| nrows := 1;
         columns := [("id", [CInt 1]); ("fornecedor", [CText "9 OLD"]);
                     ("valor_original", [CReal 1]); ("excluido", [CInt 0])] |}]> ∅.

(** One invoice of 1000.00 for the vendor 1001, one advance title of
    -500.00 for the vendor 3003. *)
Definition fin_acme : financeiro_row :=
  {| fin_fornecedor := Some "1001 ACME";
     fin_tipo_titulo := Some "NF";
     fin_valor_original := Some 1000%Q;
     fin_tit_vencidos_valor_nominal := Some 0%Q;
     fin_titulos_a_vencer_valor_nominal := Some 0%Q;
     fin_excluido := Some 0%Z;
     fin_codigo_fornecedor := Some "1001";
     fin_descricao_fornecedor := Some "ACME" |}.

Definition fin_gama : financeiro_row :=
  {| fin_fornecedor := Some "3003 GAMA";
     fin_tipo_titulo := Some "PA";
     fin_valor_original := Some 500%Q;
     fin_tit_vencidos_valor_nominal := Some (-500)%Q;
     fin_titulos_a_vencer_valor_nominal := Some 0%Q;
     fin_excluido := Some 0%Z;
     fin_codigo_fornecedor := Some "3003";
     fin_descricao_fornecedor := Some "GAMA" |}.

(** The accounting line of the vendor 1001, with a given balance, and a
    line of a vendor, 2002, that the financial side does not have. *)
Definition ci_acme (saldo : Q) : contas_itens_row :=
  {| ci_conta_contabil := Some "2.01.02.01.000199";
     ci_descricao_item := Some "1001 ACME";
     ci_codigo_fornecedor := Some "1001";
     ci_descricao_fornecedor := Some "ACME";
     ci_saldo_atual := Some saldo |}.

Definition ci_beta : contas_itens_row :=
  {| ci_conta_contabil := Some "2.01.02.01.000199";
     ci_descricao_item := Some "2002 BETA";
     ci_codigo_fornecedor := Some "2002";
     ci_descricao_fornecedor := Some "BETA";
     ci_saldo_atual := Some 50%Q |}.

Definition ad_gama : adiantamento_row :=
  {| ad_conta_contabil := Some "1.01.06.02.000105";
     ad_codigo_fornecedor := Some "3003";
     ad_descricao_fornecedor := Some "GAMA";
     ad_saldo_atual := Some 500%Q |}.

Definition db_conciliacao (saldo : Q) : database :=
  {| financeiro := [fin_acme; fin_gama];
     has_codigo_fornecedor := true;
     has_descricao_fornecedor := true;
     contas_itens := [ci_acme saldo; ci_beta];
     adiantamento := [ad_gama];
     resultado := [];
     resultado_adiantamento := [] |}.

Definition conn_conciliacao (saldo : Q) : connection :=
  {| store := db_conciliacao saldo; snapshot := None |}.

(** The connection after a run in which no call fails. *)
Definition conn_final (saldo : Q) : connection :=
  fst (process_data no_faults (conn_conciliacao saldo)).


(** A financial vendor 123 and an accounting line of another vendor, 1F23. *)
Definition fin_123 : financeiro_row :=
  {| fin_fornecedor := Some "123 DELTA";
     fin_tipo_titulo := Some "NF";
     fin_valor_original := Some 100%Q;
     fin_tit_vencidos_valor_nominal := Some 0%Q;
     fin_titulos_a_vencer_valor_nominal := Some 0%Q;
     fin_excluido := Some 0%Z;
     fin_codigo_fornecedor := Some "123";
     fin_descricao_fornecedor := Some "DELTA" |}.

Definition ci_1F23 : contas_itens_row :=
  {| ci_conta_contabil := Some "2.01.02.01.000150";
     ci_descricao_item := Some "OMEGA";
     ci_codigo_fornecedor := Some "1F23";
     ci_descricao_fornecedor := Some "OMEGA";
     ci_saldo_atual := Some 500%Q |}.

Definition conn_join : connection :=
  {| store :=
       {| financeiro := [fin_123];
          has_codigo_fornecedor := true;
          has_descricao_fornecedor := true;
          contas_itens := [ci_1F23];
          adiantamento := [];
          resultado := [];
          resultado_adiantamento := [] |};
     snapshot := None |}.

Definition resultado_row_default : resultado_row :=
  {| res_codigo_fornecedor := None;
     res_descricao_fornecedor := None;
     res_saldo_contabil := None;
     res_saldo_financeiro := None;
     res_diferenca := None;
     res_status := Pendente;
     res_detalhes := None;
     res_ordem_importancia := None |}.


End Exemplos.

From Stdlib Require Import DecimalString Sorted.

(* ================================================================== *)
(** * A title after the two vendor-column updates *)
(* ================================================================== *)

Module Titulos.
Import Sql Store Conciliacao.


(** Two databases that show the same accounting tables and the same
    vendor groups. *)
Definition mesmas_contas (db db' : database) : Prop :=
  contas_itens db = contas_itens db'
  /\ adiantamento db = adiantamento db'
  /\ resultado db = resultado db'.

End Titulos.

(* ================================================================== *)
(** * The numeric columns of [financeiro] and [modelo1] *)
(* ================================================================== *)

Module Numeros.
Import Text Cleaner.

Definition is_minus (c : ascii) : bool := Ascii.eqb c "-".

(** [_clean_financeiro_data], lines 670-676: the text of a cell of
    [valor_original], [saldo_devedor] or [titulos_vencer] as it is handed
    to [pd.to_numeric].  The class of the pattern keeps digits, commas,
    dots and minus signs. *)
Definition limpa_numero_financeiro (s : string) : string :=
  let s := filter (fun c => is_digit c || is_comma c || is_dot c || is_minus c) s in
  let s := replace "." "" s in
  replace "," "." s.

(** [_clean_modelo1_data], lines 751-753: the same for [saldo_anterior],
    [debito] and [saldo_atual].  The class keeps digits, commas and minus
    signs. *)
Definition limpa_numero_modelo1 (s : string) : string :=
  replace "," "." (filter (fun c => is_digit c || is_comma c || is_minus c) s).

End Numeros.

(* ================================================================== *)
(** * The schema: [_initialize_database] *)
(* ================================================================== *)

Module Esquema.
Import Text Importacao.

Definition TABLE_RESULTADO : string := "resultado".
Definition TABLE_RESULTADO_ADIANTAMENTO : string := "resultado_adiantamento".

(** [CREATE TABLE IF NOT EXISTS t (cols)]: a table without rows. *)
Definition create_table_if_not_exists (t : string) (cols : list string)
  (db : gmap string frame) : gmap string frame :=
  match db !! t with
  | Some _ => db
  | None => <[t := {| nrows := 0; columns := List.map (fun c => (c, [])) cols |}]> db
  end.

(** [ensure_column]: [PRAGMA table_info], then [ALTER TABLE t ADD COLUMN]
    when the column is not listed.  The new column is [NULL] in every
    row; SQLite refuses the statement for a table that is not there. *)
Definition ensure_column (t col : string) (db : gmap string frame)
  : result (gmap string frame) :=
  if mem col (table_info db t) then Ok db
  else match db !! t with
       | Some f => Ok (<[t := add_column f col CNull]> db)
       | None => Raise OperationalError
       end.

(** The columns of the six [CREATE TABLE] statements. *)
Definition COLUNAS_TABELA_FINANCEIRO : list string :=
  ["id"; "fornecedor"; "titulo"; "parcela"; "tipo_titulo"; "data_emissao";
   "data_vencimento"; "valor_original"; "tit_vencidos_valor_nominal";
   "titulos_a_vencer_valor_nominal"; "situacao"; "conta_contabil"; "centro_custo";
   "excluido"; "data_processamento"].

Definition COLUNAS_TABELA_MODELO1 : list string :=
  ["id"; "conta_contabil"; "descricao_conta"; "codigo_fornecedor";
   "descricao_fornecedor"; "saldo_anterior"; "debito"; "credito"; "saldo_atual";
   "tipo_fornecedor"; "data_processamento"].

Definition COLUNAS_TABELA_CONTAS_ITENS : list string :=
  ["id"; "conta_contabil"; "descricao_item"; "codigo_fornecedor";
   "descricao_fornecedor"; "saldo_anterior"; "debito"; "credito"; "saldo_atual";
   "item"; "quantidade"; "valor_unitario"; "valor_total"; "data_processamento"].

Definition COLUNAS_TABELA_ADIANTAMENTO : list string :=
  ["id"; "conta_contabil"; "descricao_item"; "codigo_fornecedor";
   "descricao_fornecedor"; "saldo_anterior"; "debito"; "credito"; "saldo_atual";
   "data_processamento"].

Definition COLUNAS_TABELA_RESULTADO_ADIANTAMENTO : list string :=
  ["id"; "codigo_fornecedor"; "descricao_fornecedor"; "total_financeiro";
   "total_contabil"; "diferenca"; "status"; "detalhes"; "data_processamento"].

Definition COLUNAS_TABELA_RESULTADO : list string :=
  ["id"; "codigo_fornecedor"; "descricao_fornecedor"; "saldo_contabil";
   "saldo_financeiro"; "diferenca"; "status"; "detalhes"; "ordem_importancia";
   "data_processamento"].

(** The six [CREATE TABLE IF NOT EXISTS], in the order of the source. *)
Definition create_tables (db : gmap string frame) : gmap string frame :=
  let db := create_table_if_not_exists TABLE_FINANCEIRO COLUNAS_TABELA_FINANCEIRO db in
  let db := create_table_if_not_exists TABLE_MODELO1 COLUNAS_TABELA_MODELO1 db in
  let db := create_table_if_not_exists TABLE_CONTAS_ITENS COLUNAS_TABELA_CONTAS_ITENS db in
  let db := create_table_if_not_exists TABLE_ADIANTAMENTO COLUNAS_TABELA_ADIANTAMENTO db in
  let db := create_table_if_not_exists TABLE_RESULTADO_ADIANTAMENTO
              COLUNAS_TABELA_RESULTADO_ADIANTAMENTO db in
  create_table_if_not_exists TABLE_RESULTADO COLUNAS_TABELA_RESULTADO db.

(** The columns that [_initialize_database] ensures, in the order of the
    source. *)
Definition COLUNAS_GARANTIDAS : list (string * string) :=
  [(TABLE_FINANCEIRO, "tit_vencidos_valor_nominal");
   (TABLE_FINANCEIRO, "titulos_a_vencer_valor_nominal");
   (TABLE_CONTAS_ITENS, "codigo_fornecedor");
   (TABLE_CONTAS_ITENS, "descricao_fornecedor");
   (TABLE_MODELO1, "codigo_fornecedor");
   (TABLE_MODELO1, "descricao_fornecedor");
   (TABLE_RESULTADO, "ordem_importancia")].

Fixpoint ensure_columns (l : list (string * string)) (db : gmap string frame)
  : result (gmap string frame) :=
  match l with
  | [] => Ok db
  | (t, col) :: rest => (db <- ensure_column t col db ;; ensure_columns rest db)%result
  end.

(** [_initialize_database] on the tables of the file, when the engine
    fails no statement: an exception of the body is raised again as
    [ExcecaoNaoMapeadaError]. *)
Definition _initialize_database (db : gmap string frame) : result (gmap string frame) :=
  try_except
    (ensure_columns COLUNAS_GARANTIDAS (create_tables db))
    (fun e => Raise ExcecaoNaoMapeadaError).

(** A sequence of calls of [import_from_excel], each with the files as
    they are when it is made. *)
Definition importa_todos
  (imports : list ((string -> string -> result frame) * string * string))
  (db : gmap string frame) : gmap string frame :=
  List.fold_left
    (fun d i => fst (import_from_excel (fst (fst i)) (snd (fst i)) (snd i) d))
    imports db.

(** A table after columns of [NULL]s were added to it. *)
Definition estende (f f1 : frame) : Prop :=
  nrows f1 = nrows f
  /\ exists extra : list string,
       columns f1
       = columns f ++ List.map (fun c => (c, List.repeat CNull (nrows f))) extra.

(** The tables that hold rows keep them through each statement. *)
Definition conserva (db db' : gmap string frame) : Prop :=
  forall t f, db !! t = Some f -> exists f1, db' !! t = Some f1 /\ estende f f1.

(** The six tables of the schema. *)
Definition tabelas : list string :=
  [TABLE_FINANCEIRO; TABLE_MODELO1; TABLE_CONTAS_ITENS; TABLE_ADIANTAMENTO;
   TABLE_RESULTADO_ADIANTAMENTO; TABLE_RESULTADO].

End Esquema.

(* ================================================================== *)
(** * Reading a file: [read_spreadsheetml] and the formats of the import *)
(* ================================================================== *)

Module Planilha.
Import Text Importacao.

(** [str(n)] of a count. *)
Definition str_nat (n : nat) : string := NilEmpty.string_of_uint (Nat.to_uint n).

(** A column label of the frame built from the header row: the text of
    the cell, or [None] for a cell without data. *)
Definition rotulo : Type := option string.

(** [f"{col}"] *)
Definition format_rotulo (col : rotulo) : string :=
  match col with
  | Some s => s
  | None => "None"
  end.

(** The loop of lines 476-484, from the dictionary [counts] on. *)
Fixpoint dedup_columns (counts : gmap rotulo nat) (cols : list rotulo) : list rotulo :=
  match cols with
  | [] => []
  | col :: rest =>
      match counts !! col with
      | None => col :: dedup_columns (<[col := 0%nat]> counts) rest
      | Some n =>
          Some (format_rotulo col +:+ "_" +:+ str_nat (S n))
          :: dedup_columns (<[col := S n]> counts) rest
      end
  end.



(** The frame of [read_spreadsheetml]: its labels and its rows. *)
Record tabela : Type := {
  rotulos : list rotulo;
  linhas : list (list (option string))
}.

(** [Path(p).suffix]: the last suffix of the name, with its dot; a dot
    that starts or ends the name opens no suffix. *)
Definition path_suffix (p : string) : string :=
  let name := path_name p in
  match rsplit "." name with
  | Some (a, b) => if is_empty a || is_empty b then "" else "." +:+ b
  | None => ""
  end.

(** [get_expected_columns]: the columns the import looks for, by table. *)
Definition get_expected_columns (table_name : string) : result (list string) :=
  if String.eqb table_name TABLE_FINANCEIRO then
    Ok ["fornecedor"; "titulo"; "parcela"; "tipo_titulo";
        "data_emissao"; "data_vencimento"; "valor_original";
        "tit_vencidos_valor_nominal"; "titulos_a_vencer_valor_nominal";
        "situacao"; "conta_contabil"; "centro_custo"]
  else if String.eqb table_name TABLE_MODELO1 then
    Ok ["conta_contabil"; "descricao_conta";
        "saldo_anterior"; "debito"; "credito"; "saldo_atual"]
  else if String.eqb table_name TABLE_CONTAS_ITENS then
    Ok ["conta_contabil"; "descricao_item";
        "codigo_fornecedor"; "descricao_fornecedor";
        "saldo_anterior"; "debito"; "credito"; "saldo_atual"]
  else if String.eqb table_name TABLE_ADIANTAMENTO then
    Ok ["conta_contabil"; "descricao_item";
        "codigo_fornecedor"; "descricao_fornecedor";
        "saldo_anterior"; "debito"; "credito"; "saldo_atual"]
  else Raise ValueError.

(** [Settings]: the column mappings, in the order of their items. *)
Definition COLUNAS_FINANCEIRO : list (string * string) :=
  [("Codigo-Nome do Fornecedor", "fornecedor");
   ("Prf-Numero Parcela", "titulo");
   ("Tp", "tipo_titulo");
   ("Data de Emissao", "data_emissao");
   ("Data de Vencto", "data_vencimento");
   ("Valor Original", "valor_original");
   ("Tit Vencidos Valor nominal", "tit_vencidos_valor_nominal");
   ("Titulos a vencer Valor nominal", "titulos_a_vencer_valor_nominal");
   ("Natureza", "situacao");
   ("Porta- dor", "centro_custo")].

Definition COLUNAS_MODELO1 : list (string * string) :=
  [("conta_contabil", "Conta");
   ("descricao_conta", "Descricao");
   ("saldo_anterior", "Saldo anterior");
   ("debito", "Debito");
   ("credito", "Credito");
   ("movimento_periodo", "Mov  periodo");
   ("saldo_atual", "Saldo atual")].

Definition COLUNAS_CONTAS_ITENS : list (string * string) :=
  [("conta_contabil", "Codigo");
   ("descricao_item", "Descricao");
   ("codigo_fornecedor", "Codigo.1");
   ("descricao_fornecedor", "Descricao.1");
   ("saldo_anterior", "Saldo anterior");
   ("debito", "Debito");
   ("credito", "Credito");
   ("movimento_periodo", "Movimento do periodo");
   ("saldo_atual", "Saldo atual")].

Definition COLUNAS_ADIANTAMENTO : list (string * string) :=
  [("conta_contabil", "Codigo");
   ("descricao_item", "Descricao");
   ("codigo_fornecedor", "Codigo.1");
   ("descricao_fornecedor", "Descricao.1");
   ("saldo_anterior", "Saldo anterior");
   ("debito", "Debito");
   ("credito", "Credito");
   ("movimento_periodo", "Movimento do periodo");
   ("saldo_atual", "Saldo atual")].

(** [_get_column_mapping] *)
Definition _get_column_mapping (file_path : string) : list (string * string) :=
  let filename := Text.map py_lower (path_stem file_path) in
  let ext := Text.map py_lower (path_suffix file_path) in
  if String.eqb ext ".xlsx" then
    if contains "finr150" filename then COLUNAS_FINANCEIRO
    else if contains "ctbr040" filename then COLUNAS_MODELO1
    else if contains "ctbr140" filename then COLUNAS_CONTAS_ITENS
    else if contains "ctbr100" filename then COLUNAS_ADIANTAMENTO
    else []
  else if String.eqb ext ".txt" then
    if contains "ctbr140" filename then COLUNAS_CONTAS_ITENS
    else if contains "ctbr100" filename then COLUNAS_ADIANTAMENTO
    else []
  else if String.eqb ext ".xml" then
    if contains "ctbr140" filename then COLUNAS_CONTAS_ITENS
    else if contains "ctbr100" filename then COLUNAS_ADIANTAMENTO
    else []
  else [].

(** The value of a key of a mapping. *)
Fixpoint valor_de (k : string) (m : list (string * string)) : option string :=
  match m with
  | [] => None
  | (k', v) :: rest => if String.eqb k k' then Some v else valor_de k rest
  end.

(** The labels of the frame after [df.rename(columns=column_mapping)]. *)
Definition rename (column_mapping : list (string * string)) (labels : list string)
  : list string :=
  List.map
    (fun l => match valor_de l column_mapping with
              | Some v => v
              | None => l
              end)
    labels.

(** The mapping that [Settings] gives for a table. *)
Definition colunas_da_tabela (table_name : string) : list (string * string) :=
  if String.eqb table_name TABLE_FINANCEIRO then COLUNAS_FINANCEIRO
  else if String.eqb table_name TABLE_MODELO1 then COLUNAS_MODELO1
  else if String.eqb table_name TABLE_CONTAS_ITENS then COLUNAS_CONTAS_ITENS
  else if String.eqb table_name TABLE_ADIANTAMENTO then COLUNAS_ADIANTAMENTO
  else [].

Section Leitura.

(** The file system and pandas: the rows of the [ss:Row] elements of
    an XML file (or the exception of the parser), the constructor
    [pd.DataFrame(data, columns=header)], [pd.read_excel] with its
    [nrows] and [header] arguments, and [pd.read_csv] with its
    separator. *)
Variable raw : Type.
Variable parse_rows : string -> result (list (list (option string))).
Variable DataFrame :
  list (list (option string)) -> list rotulo -> result (list (list (option string))).
Variable read_excel : string -> option nat -> nat -> result raw.
Variable read_csv : string -> string -> result raw.
Variable of_tabela : tabela -> raw.

(** Lines 340-361 of [import_from_excel]: the labels cleaned and
    mapped; and lines 365-412: the expected columns looked for, the
    cells cleaned. *)
Variable mapeia : string -> raw -> result raw.
Variable completa_e_limpa : string -> string -> list string -> raw -> result frame.

Definition read_spreadsheetml (path : string) : result tabela :=
  try_except
    (rows <- parse_rows path ;;
     if (List.length rows <? 2)%nat then Raise ValueError
     else
       let header := List.nth 1 rows [] in
       let data := List.skipn 2 rows in
       df <- DataFrame data header ;;
       Ok {| rotulos := dedup_columns ∅ header; linhas := df |})%result
    (fun e => Raise InvalidDataFormat).

(** Lines 309-338 of [import_from_excel]. *)
Definition le_arquivo (file_path : string) : result raw :=
  let ext := Text.map py_lower (path_suffix file_path) in
  if String.eqb ext ".xlsx" then
    (df_sample <- read_excel file_path (Some 5%nat) 0 ;;
     read_excel file_path None 1)%result
  else if String.eqb ext ".xml" then
    try_except
      (df <- read_spreadsheetml file_path ;; Ok (of_tabela df))%result
      (fun e => Raise InvalidDataFormat)
  else if String.eqb ext ".txt" then
    try_except (read_csv file_path ";")
      (fun _ => read_csv file_path (String (ascii_of_nat 9) ""))
  else Raise InvalidDataFormat.

(** Lines 309-412: what [import_from_excel] does before it looks at the
    destination table. *)
Definition load_frame (file_path table_name : string) : result frame :=
  (df <- le_arquivo file_path ;;
   df <- mapeia file_path df ;;
   expected_columns <- get_expected_columns table_name ;;
   completa_e_limpa file_path table_name expected_columns df)%result.

End Leitura.

End Planilha.

(* ================================================================== *)
(** * Reference dates: [_get_datas_referencia] and [scraper/utils.py] *)
(* ================================================================== *)

Module Retorno.

(** The exceptions of the code of the dates, of the parameters and of
    the export: the [ValueError] of the [datetime] constructor, of
    [calendar.monthrange] ([IllegalMonthError] is one) and of
    [_validar_parametros], the [UnboundLocalError] of a local variable
    read before it is assigned, the [TypeError] of [int(None)], of a
    number format applied to [None], of arithmetic on [None] and of a
    subscript or a membership test on a value that has none, the
    [AttributeError] of an attribute that an object lacks, the
    [ZeroDivisionError] of a division, the [sqlite3.OperationalError] of
    a statement that cannot be prepared, the [FileNotFoundError], the
    [KeyError] and the [json.JSONDecodeError] of the parameters file, the
    [ResultsSaveError] and the [ExcecaoNaoMapeadaError] of the project,
    and any other exception of a library. *)
Inductive excecao : Type :=
| ValueErrorData
| UnboundLocalError
| TypeError
| AttributeError
| ZeroDivisionError
| SqlOperationalError
| FileNotFoundError
| KeyError
| JSONDecodeError
| ResultsSaveError
| ExcecaoNaoMapeadaError
| OutraExcecao.

Inductive retorno (A : Type) : Type :=
| Devolve (a : A)
| Levanta (e : excecao).

Arguments Devolve {A} a.
Arguments Levanta {A} e.

Definition liga {A B : Type} (m : retorno A) (k : A -> retorno B) : retorno B :=
  match m with
  | Devolve a => k a
  | Levanta e => Levanta e
  end.

(** [try: body  except Exception as e: handler(e)] *)
Definition tenta {A : Type} (body : retorno A) (handler : excecao -> retorno A)
  : retorno A :=
  match body with
  | Devolve a => Devolve a
  | Levanta e => handler e
  end.

Declare Scope datas_scope.
Delimit Scope datas_scope with datas.
Notation "x <- m ;; k" := (liga m (fun x => k))
  (at level 100, m at next level, right associativity) : datas_scope.

End Retorno.

Module Datas.
Import Retorno.

(** A [date], or the date of a [datetime]: this code reads no time of
    day, and the format it prints has none. *)
Record datetime : Type := {
  year : Z;
  month : Z;
  day : Z
}.

(** [calendar.isleap] *)
Definition isleap (y : Z) : bool :=
  (y mod 4 =? 0)%Z && (negb (y mod 100 =? 0)%Z || (y mod 400 =? 0)%Z).

(** [calendar.mdays] *)
Definition mdays (m : Z) : Z :=
  match m with
  | 1 => 31 | 2 => 28 | 3 => 31 | 4 => 30 | 5 => 31 | 6 => 30
  | 7 => 31 | 8 => 31 | 9 => 30 | 10 => 31 | 11 => 30 | 12 => 31
  | _ => 0
  end%Z.

Definition dias_no_mes (y m : Z) : Z :=
  (mdays m + (if (m =? 2)%Z && isleap y then 1 else 0))%Z.

(** [calendar.monthrange(y, m)[1]] *)
Definition monthrange (y m : Z) : retorno Z :=
  if (1 <=? m)%Z && (m <=? 12)%Z then Devolve (dias_no_mes y m)
  else Levanta ValueErrorData.

(** The dates that exist: years 1 to 9999. *)
Definition valid (d : datetime) : bool :=
  (1 <=? year d)%Z && (year d <=? 9999)%Z
  && (1 <=? month d)%Z && (month d <=? 12)%Z
  && (1 <=? day d)%Z && (day d <=? dias_no_mes (year d) (month d))%Z.

(** [datetime(y, m, d)] and [date(y, m, d)] *)
Definition mk_datetime (y m d : Z) : retorno datetime :=
  let r := {| year := y; month := m; day := d |} in
  if valid r then Devolve r else Levanta ValueErrorData.

Definition decimal (z : Z) : string := NilEmpty.string_of_uint (N.to_uint (Z.to_N z)).

Definition dois_digitos (z : Z) : string :=
  if (z <? 10)%Z then "0" +:+ decimal z else decimal z.

(** [d.strftime('%d/%m/%Y')], for the years from 1000 on (below, the C
    library decides whether the year is padded). *)
Definition strftime (d : datetime) : string :=
  dois_digitos (day d) +:+ "/" +:+ dois_digitos (month d) +:+ "/" +:+ decimal (year d).

(** The first and the last day of the month before ([ano], [mes]): the
    two [if mes == 1] of the last-day rule. *)
Definition mes_anterior (ano mes : Z) : retorno (datetime * datetime) :=
  (data_inicial <-
     (if (mes =? 1)%Z then mk_datetime (ano - 1) 12 1
      else mk_datetime ano (mes - 1) 1) ;;
   data_final <-
     (if (mes =? 1)%Z then
        (ultimo_dia_anterior <- monthrange (ano - 1) 12 ;;
         mk_datetime (ano - 1) 12 ultimo_dia_anterior)
      else
        (ultimo_dia_anterior <- monthrange ano (mes - 1) ;;
         mk_datetime ano (mes - 1) ultimo_dia_anterior)) ;;
   Devolve (data_inicial, data_final))%datas.

(** [DatabaseManager._get_datas_referencia], before the dates are
    formatted. *)
Definition periodo_referencia (data_referencia : datetime)
  : retorno (datetime * datetime) :=
  let dia := day data_referencia in
  let mes := month data_referencia in
  let ano := year data_referencia in
  (ultimo_dia_mes <- monthrange ano mes ;;
   let eh_ultimo_dia := (dia =? ultimo_dia_mes)%Z in
   if eh_ultimo_dia then mes_anterior ano mes
   else
     (data_inicial <- mk_datetime ano mes 1 ;;
      Devolve (data_inicial, data_referencia)))%datas.

Definition _get_datas_referencia (data_referencia : datetime)
  : retorno (string * string) :=
  (p <- periodo_referencia data_referencia ;;
   Devolve (strftime (fst p), strftime (snd p)))%datas.

(** [Utils._calcular_datas_contas_itens]: the two local variables are
    assigned under [if eh_ultimo_dia] only; a variable that was not
    assigned is [None] here, and reading it raises. *)
Definition _calcular_datas_contas_itens (data_referencia : datetime)
  : retorno (string * string) :=
  let dia := day data_referencia in
  let mes := month data_referencia in
  let ano := year data_referencia in
  (ultimo_dia_mes <- monthrange ano mes ;;
   let eh_ultimo_dia := (dia =? ultimo_dia_mes)%Z in
   locals <-
     (if eh_ultimo_dia then
        (p <- mes_anterior ano mes ;; Devolve (Some (fst p), Some (snd p)))
      else Devolve (None, None)) ;;
   data_inicial <-
     match fst locals with
     | Some d => Devolve d
     | None => Levanta UnboundLocalError
     end ;;
   let data_inicial_str := strftime data_inicial in
   data_final <-
     match snd locals with
     | Some d => Devolve d
     | None => Levanta UnboundLocalError
     end ;;
   Devolve (data_inicial_str, strftime data_final))%datas.

(** [Utils.ultimo_dia_mes_anterior], with [datetime.now()] as [hoje]. *)
Definition ultimo_dia_mes_anterior_em (hoje : datetime) : retorno datetime :=
  let mes_anterior := if (month hoje =? 1)%Z then 12%Z else (month hoje - 1)%Z in
  let ano_anterior := if (month hoje =? 1)%Z then (year hoje - 1)%Z else year hoje in
  (ultimo_dia <- monthrange ano_anterior mes_anterior ;;
   mk_datetime ano_anterior mes_anterior ultimo_dia)%datas.

Definition ultimo_dia_mes_anterior (hoje : datetime) : retorno string :=
  (d <- ultimo_dia_mes_anterior_em hoje ;; Devolve (strftime d))%datas.

(** [Utils.primeiro_e_ultimo_dia], with [date.today()] as [hoje]. *)
Definition primeiro_e_ultimo_dia_em (hoje : datetime) : retorno (datetime * datetime) :=
  (primeiro_dia <- mk_datetime (year hoje) (month hoje) 1 ;;
   n <- monthrange (year hoje) (month hoje) ;;
   ultimo_dia <- mk_datetime (year hoje) (month hoje) n ;;
   Devolve (primeiro_dia, ultimo_dia))%datas.

Definition primeiro_e_ultimo_dia (hoje : datetime) : retorno (string * string) :=
  (p <- primeiro_e_ultimo_dia_em hoje ;;
   Devolve (strftime (fst p), strftime (snd p)))%datas.

(** [Utils.obter_ultimo_dia_ano_passado] *)
Definition obter_ultimo_dia_ano_passado (hoje : datetime) : retorno string :=
  (ultimo_dia <- mk_datetime (year hoje - 1) 12 31 ;; Devolve (strftime ultimo_dia))%datas.

(** The order of the calendar, and the day that follows a date. *)
Definition antes_ou_igual (a b : datetime) : Prop :=
  (year a < year b)%Z
  \/ (year a = year b /\ (month a < month b)%Z)
  \/ (year a = year b /\ month a = month b /\ (day a <= day b)%Z).

Definition dia_seguinte (d : datetime) : datetime :=
  if (day d <? dias_no_mes (year d) (month d))%Z
  then {| year := year d; month := month d; day := day d + 1 |}
  else if (month d <? 12)%Z
       then {| year := year d; month := month d + 1; day := 1 |}
       else {| year := year d + 1; month := 1; day := 1 |}.

Definition ultimo_do_mes (d : datetime) : bool :=
  (day d =? dias_no_mes (year d) (month d))%Z.

End Datas.

(* ================================================================== *)
(** * The summary sheet of [export_to_excel] *)
(* ================================================================== *)

Module Exportacao.
Import Text Cleaner Sql Store.

(** The order of SQLite on [REAL] and on [TEXT] values: a [NULL] comes
    before every value; texts compare by their code points. *)
Definition le_null (a b : option Q) : bool :=
  match a, b with
  | None, _ => true
  | Some _, None => false
  | Some x, Some y => Qle_bool x y
  end.

Definition text_le (a b : option string) : bool :=
  match a, b with
  | None, _ => true
  | Some _, None => false
  | Some x, Some y => String.leb x y
  end.

(** [ORDER BY ABS(diferenca) DESC, codigo_fornecedor]: whether the row
    [r1] may stand before the row [r2]. *)
Definition antes (r1 r2 : resultado_row) : bool :=
  let a1 := ABS (res_diferenca r1) in
  let a2 := ABS (res_diferenca r2) in
  if le_null a2 a1
  then if le_null a1 a2
       then text_le (res_codigo_fornecedor r1) (res_codigo_fornecedor r2)
       else true
  else false.

Fixpoint insere (x : resultado_row) (l : list resultado_row) : list resultado_row :=
  match l with
  | [] => [x]
  | y :: rest => if antes x y then x :: l else y :: insere x rest
  end.

Definition order_by (l : list resultado_row) : list resultado_row :=
  List.fold_right insere [] l.

(** The rows of [query_resumo]. *)
Definition query_resumo (db : database) : list resultado_row :=
  order_by
    (List.filter
       (fun r =>
          negb (is_null (res_codigo_fornecedor r))
          && ne_empty (res_codigo_fornecedor r)
          && ne_empty (TRIM (res_codigo_fornecedor r)))
       (resultado db)).

(** The masks of lines 2060-2065 and 2081-2086 on a cell that holds a
    text. *)
Definition codigo_presente (s : string) : bool :=
  let t := strip s in
  negb (String.eqb t "") && negb (String.eqb t "None") && negb (String.eqb t "nan").

(** A row of the sheet 'Resumo da Conciliação'. *)
Record resumo_row : Type := {
  rs_codigo : string;
  rs_descricao_fornecedor : string;
  rs_total_financeiro : Q;
  rs_total_contabil : Q;
  rs_diferenca : Q;
  rs_status : status;
  rs_detalhes : option rope
}.

(** The row of the sheet for a group whose code was split in two. *)
Definition linha_resumo (r : resultado_row) : resumo_row :=
  let par := separar_valor (res_codigo_fornecedor r) in
  {| rs_codigo := fst par;
     rs_descricao_fornecedor := snd par;      (* the column is written over *)
     rs_total_financeiro := coalesce0 (res_saldo_financeiro r);
     rs_total_contabil := coalesce0 (res_saldo_contabil r);
     rs_diferenca := coalesce0 (res_diferenca r);
     rs_status := res_status r;
     rs_detalhes := res_detalhes r |}.

(** Lines 2033-2111: the rows written to the sheet. *)
Definition resumo_conciliacao (db : database) : list resumo_row :=
  let df_resumo := query_resumo db in
  let df_resumo :=
    List.filter
      (fun r =>
         match res_codigo_fornecedor r with
         | Some c => codigo_presente c
         | None => false                      (* notna() *)
         end)
      df_resumo in
  let df_resumo :=
    List.filter
      (fun r => codigo_presente (fst (separar_valor (res_codigo_fornecedor r))))
      df_resumo in
  List.map linha_resumo df_resumo.

(** A group that the sheet shows: its code, stripped, starts with a digit. *)
Definition codigo_numerico (r : resultado_row) : bool :=
  match res_codigo_fornecedor r with
  | Some c => starts_with is_digit (strip c)
  | None => false
  end.

(** [ABS(diferenca)] does not grow from [r1] to [r2]. *)
Definition nao_cresce (r1 r2 : resultado_row) : Prop :=
  le_null (ABS (res_diferenca r2)) (ABS (res_diferenca r1)) = true.

End Exportacao.

(* ================================================================== *)
(** * The statistics and the metadata of [export_to_excel] *)
(* ================================================================== *)

Module Metadados.
Import Text Sql Store Conciliacao Retorno.

(** [SUM(CASE WHEN status = s THEN 1 ELSE 0 END)]: [NULL] on a table
    without rows. *)
Definition conta_status {A : Type} (status_de : A -> status) (s : status) (t : list A)
  : option Z :=
  match t with
  | [] => None
  | _ => Some (Z.of_nat (List.length (List.filter (fun r => status_eqb (status_de r) s) t)))
  end.

(** The row of [query_stats]. *)
Record stats_row : Type := {
  total_registros : Z;
  conciliados_ok : option Z;
  divergentes : option Z;
  pendentes : option Z;
  total_financeiro : Q;
  total_contabil : Q;
  diferenca_geral : Q
}.

Definition query_stats (db : database) : stats_row :=
  let tf :=
    Qabs (coalesce0
            (SUM (List.map
                    (fun f => Some (coalesce0 (fin_tit_vencidos_valor_nominal f)
                                    + coalesce0 (fin_titulos_a_vencer_valor_nominal f))%Q)
                    (List.filter (fin_selected ["NF"; "FT"]) (financeiro db))))) in
  let tc :=
    coalesce0
      (SUM (List.map ci_saldo_atual
              (List.filter (fun ci => LIKE_prefix (ci_conta_contabil ci) CONTA_FORNECEDORES)
                 (contas_itens db)))) in
  {| total_registros := Z.of_nat (List.length (resultado db));
     conciliados_ok := conta_status res_status Conferido (resultado db);
     divergentes := conta_status res_status Divergente (resultado db);
     pendentes := conta_status res_status Pendente (resultado db);
     total_financeiro := tf;
     total_contabil := tc;
     diferenca_geral := (tf - Qabs tc)%Q |}.

(** The row of [query_adiantamento_stats]. *)
Record adiantamento_stats_row : Type := {
  total_adiantamentos : Z;
  adiantamentos_ok : option Z;
  adiantamentos_divergentes : option Z;
  adiantamentos_pendentes : option Z;
  total_financeiro_adiantamento : option Q;
  total_contabil_adiantamento : option Q;
  diferenca_adiantamento : option Q
}.

Definition query_adiantamento_stats (db : database) : adiantamento_stats_row :=
  let tf := ABS (SUM (List.map ra_total_financeiro (resultado_adiantamento db))) in
  let tc := SUM (List.map ra_total_contabil (resultado_adiantamento db)) in
  {| total_adiantamentos := Z.of_nat (List.length (resultado_adiantamento db));
     adiantamentos_ok := conta_status ra_status Conferido (resultado_adiantamento db);
     adiantamentos_divergentes :=
       conta_status ra_status Divergente (resultado_adiantamento db);
     adiantamentos_pendentes := conta_status ra_status Pendente (resultado_adiantamento db);
     total_financeiro_adiantamento := tf;
     total_contabil_adiantamento := tc;
     diferenca_adiantamento :=
       match tf, tc with
       | Some a, Some b => Some (a - b)%Q
       | _, _ => None
       end |}.

(** A value of the column 'Valor' of the sheet 'Metadados': a text, an
    integer, an amount under the format [R$ {x:,.2f}] (kept unrendered),
    the time of the export, or the period. *)
Inductive valor : Type :=
| VTexto (s : string)
| VInteiro (z : Z)
| VMoeda (q : Q)
| VAgora
| VPeriodo (data_inicial data_final : string).

(** [int(x)] and [f"R$ {x:,.2f}"] on a cell of the statistics row: both
    raise [TypeError] on [None], which is how the [NULL] of a column
    without any number is read. *)
Definition py_int (x : option Z) : retorno valor :=
  match x with
  | Some z => Devolve (VInteiro z)
  | None => Levanta TypeError
  end.

Definition py_moeda (x : option Q) : retorno valor :=
  match x with
  | Some q => Devolve (VMoeda q)
  | None => Levanta TypeError
  end.

(** The elements of a list display, evaluated from left to right. *)
Fixpoint lista (l : list (retorno valor)) : retorno (list valor) :=
  match l with
  | [] => Devolve []
  | x :: rest => (v <- x ;; vs <- lista rest ;; Devolve (v :: vs))%datas
  end.

Definition LEGENDA : string :=
  "CONFERIDO: Diferença dentro da tolerância (até 3%) | DIVERGENTE: Diferença significativa | PENDENTE: Sem correspondência".

Definition TOLERANCIA_TEXTO : string := "Até 3% de discrepância é considerada tolerável".

(** Lines 2132-2235: [metadata_values]. *)
Definition metadata_values (export_type data_inicial data_final : string)
  (stats : stats_row) (adiantamento_stats : adiantamento_stats_row)
  : retorno (list valor) :=
  if String.eqb export_type "fornecedores" then
    lista [Devolve VAgora;
           Devolve (VPeriodo data_inicial data_final);
           py_int (Some (total_registros stats));
           py_int (conciliados_ok stats);
           py_int (divergentes stats);
           py_int (pendentes stats);
           py_moeda (Some (total_financeiro stats));
           py_moeda (Some (total_contabil stats));
           py_moeda (Some (diferenca_geral stats));
           Devolve (VTexto "---");
           Devolve (VTexto LEGENDA);
           Devolve (VTexto TOLERANCIA_TEXTO)]
  else if String.eqb export_type "adiantamentos" then
    lista [Devolve VAgora;
           Devolve (VPeriodo data_inicial data_final);
           py_int (Some (total_adiantamentos adiantamento_stats));
           py_int (adiantamentos_ok adiantamento_stats);
           py_int (adiantamentos_divergentes adiantamento_stats);
           py_int (adiantamentos_pendentes adiantamento_stats);
           py_moeda (total_financeiro_adiantamento adiantamento_stats);
           py_moeda (total_contabil_adiantamento adiantamento_stats);
           py_moeda (diferenca_adiantamento adiantamento_stats);
           Devolve (VTexto "---");
           Devolve (VTexto LEGENDA);
           Devolve (VTexto TOLERANCIA_TEXTO)]
  else
    lista [Devolve VAgora;
           Devolve (VPeriodo data_inicial data_final);
           py_int (Some (total_registros stats));
           py_int (conciliados_ok stats);
           py_int (divergentes stats);
           py_int (pendentes stats);
           py_moeda (Some (total_financeiro stats));
           py_moeda (Some (total_contabil stats));
           py_moeda (Some (diferenca_geral stats));
           Devolve (VTexto "---");
           py_int (Some (total_adiantamentos adiantamento_stats));
           py_int (adiantamentos_divergentes adiantamento_stats);
           py_moeda (total_financeiro_adiantamento adiantamento_stats);
           py_moeda (total_contabil_adiantamento adiantamento_stats);
           py_moeda (diferenca_adiantamento adiantamento_stats);
           Devolve (VTexto "---");
           Devolve (VTexto LEGENDA);
           Devolve (VTexto TOLERANCIA_TEXTO)].

Section ExportToExcel.

(** The file system and the libraries: what is written before the
    metadata are computed (the workbook opened, the sheets of the
    tables), and what is done with them (the sheet 'Metadados', the
    styles, the protection, the validation); each returns or raises. *)
Variable escreve_abas : string -> database -> retorno unit.
Variable finaliza : string -> list valor -> retorno string.

(** [export_to_excel], with [datetime.now()] as [agora]: the reference
    dates are computed before the [try]. *)
Definition export_to_excel (agora : Datas.datetime) (export_type : string)
  (db : database) : retorno string :=
  (datas <- Datas._get_datas_referencia agora ;;
   tenta
     (_ <- escreve_abas export_type db ;;
      let stats := query_stats db in
      let adiantamento_stats := query_adiantamento_stats db in
      metadata <- metadata_values export_type (fst datas) (snd datas)
                    stats adiantamento_stats ;;
      finaliza export_type metadata)
     (fun e => Levanta ResultsSaveError))%datas.

End ExportToExcel.

End Metadados.

(* ================================================================== *)
(** * The check of the totals *)
(* ================================================================== *)

Module Consistencia.
Import Text Importacao Retorno.

(** The columns that the query of [validate_data_consistency] names,
    each with its table. *)
Definition COLUNAS_CONSULTA : list (string * string) :=
  [(TABLE_FINANCEIRO, "saldo_devedor");
   (TABLE_FINANCEIRO, "excluido");
   (TABLE_FINANCEIRO, "tipo_titulo");
   (TABLE_MODELO1, "saldo_atual");
   (TABLE_MODELO1, "descricao_conta")].

(** SQLite resolves the names of a statement before it runs it: the
    statement is prepared when every column it names is in its table. *)
Definition prepara (db : gmap string frame) : bool :=
  List.forallb (fun i => mem (snd i) (table_info db (fst i))) COLUNAS_CONSULTA.

(** [max(a, b)]: the second argument when it is greater than the first. *)
Definition py_max (a b : Q) : Q := if Qle_bool b a then a else b.

(** [abs(totals[0] - totals[1]) / max(totals[0], totals[1]) * 100] *)
Definition diferenca_percentual (totals : option Q * option Q) : retorno Q :=
  match totals with
  | (Some a, Some b) =>
      if Qeq_bool (py_max a b) 0 then Levanta ZeroDivisionError
      else Devolve (Qabs (a - b) / py_max a b * 100)%Q
  | _ => Levanta TypeError
  end.

Section Validacao.

(** The row of the two sums, as the engine computes it on tables that
    have the columns: a sum over no row, or over [NULL]s only, is
    [NULL]. *)
Variable totais : gmap string frame -> option Q * option Q.

(** [cursor.execute(query)] and [cursor.fetchone()] *)
Definition consulta_totais (db : gmap string frame) : retorno (option Q * option Q) :=
  if prepara db then Devolve (totais db) else Levanta SqlOperationalError.

(** [validate_data_consistency]: a difference above 5 percent is
    logged, and the function returns [True]; any exception is logged,
    and the function returns [False]. *)
Definition validate_data_consistency (db : gmap string frame) : bool :=
  match (totals <- consulta_totais db ;;
         diferenca <- diferenca_percentual totals ;;
         Devolve true)%datas with
  | Devolve b => b
  | Levanta _ => false
  end.

End Validacao.

End Consistencia.

(* ================================================================== *)
(** * The parameters of the reports *)
(* ================================================================== *)

Module Parametros.
Import Text Retorno Datas.

(** A value read by [json.load]; an object is the [dict] it was read
    into: its items in order, each key once. *)
#[warnings="-register-all"]
Inductive json : Type :=
| JNull
| JBool (b : bool)
| JInt (z : Z)
| JFloat (q : Q)
| JStr (s : string)
| JArr (l : list json)
| JObj (l : list (string * json)).

(** What [_resolver_valor] returns: its argument, or what a method of
    the dates returns, a text or a pair of texts. *)
Inductive resolvido : Type :=
| Json (j : json)
| Tupla (a b : string).

(** [s.endswith(suf)] *)
Definition endswith (suf s : string) : bool :=
  (String.length suf <=? String.length s)%nat
  && String.eqb (drop (String.length s - String.length suf) s) suf.

(** [s[2:-2]] *)
Definition miolo (s : string) : string :=
  String.substring 2 (String.length s - 4) s.

Definition nao_ponto (c : ascii) : bool := negb (is_dot c).

(** A character of the name of a method: no white space and no dot. *)
Definition de_nome (c : ascii) : bool := negb (is_space c) && nao_ponto c.

(** [placeholder.split('.', 1)], for a text with a dot. *)
Definition split_ponto (s : string) : string * string :=
  (take_while nao_ponto s, drop 1 (drop_while nao_ponto s)).

(** The name of the method and the part asked of its result; [None] is
    Python's. *)
Definition nome_e_parte (placeholder : string) : string * option string :=
  if existsb is_dot placeholder
  then (fst (split_ponto placeholder), Some (strip (snd (split_ponto placeholder))))
  else (placeholder, None).

(** [Utils._get_data_atual] and [Utils.data_futura], with
    [date.today()] and [datetime.today()] as [hoje]. *)
Definition _get_data_atual (hoje : datetime) : retorno string :=
  Devolve (strftime hoje).

Definition data_futura (hoje : datetime) : retorno string :=
  let ano_futuro := (year hoje + 25)%Z in
  Devolve ("31/12/" +:+ decimal ano_futuro).

(** [Utils.datas_contas_itens] *)
Definition datas_contas_itens (hoje : datetime) : retorno (string * string) :=
  _calcular_datas_contas_itens hoje.

Definition texto (metodo : datetime -> retorno string) (hoje : datetime)
  : retorno resolvido :=
  (s <- metodo hoje ;; Devolve (Json (JStr s)))%datas.

Definition tupla (metodo : datetime -> retorno (string * string)) (hoje : datetime)
  : retorno resolvido :=
  (p <- metodo hoje ;; Devolve (Tupla (fst p) (snd p)))%datas.

(** The dict [metodos_disponiveis]; each method reads the clock when it
    is called, [hoje] here. *)
Definition metodos_disponiveis (nome_metodo : string)
  : option (datetime -> retorno resolvido) :=
  if String.eqb nome_metodo "primeiro_e_ultimo_dia" then Some (tupla primeiro_e_ultimo_dia)
  else if String.eqb nome_metodo "obter_ultimo_dia_ano_passado"
       then Some (texto obter_ultimo_dia_ano_passado)
  else if String.eqb nome_metodo "data_atual" then Some (texto _get_data_atual)
  else if String.eqb nome_metodo "datas_contas_itens" then Some (tupla datas_contas_itens)
  else if String.eqb nome_metodo "data_futura" then Some (texto data_futura)
  else if String.eqb nome_metodo "ultimo_dia_mes_anterior"
       then Some (texto ultimo_dia_mes_anterior)
  else None.

(** The part of a result: lines 232-241. *)
Definition parte_do_resultado (resultado : resolvido) (parte : option string) : resolvido :=
  match resultado, parte with
  | Tupla a b, Some parte =>
      if is_empty parte then resultado
      else if String.eqb parte "inicial" then Json (JStr a)
      else if String.eqb parte "final" then Json (JStr b)
      else resultado
  | _, _ => resultado
  end.

(** [Utils._resolver_valor], on a value of the parameters file. *)
Definition _resolver_valor (hoje : datetime) (valor : json) : retorno resolvido :=
  match valor with
  | JStr s =>
      if String.prefix "{{" s && endswith "}}" s then
        let placeholder := strip (miolo s) in
        let nome_metodo := fst (nome_e_parte placeholder) in
        let parte := snd (nome_e_parte placeholder) in
        match metodos_disponiveis nome_metodo with
        | Some metodo =>
            (resultado <- metodo hoje ;;
             Devolve (parte_do_resultado resultado parte))%datas
        | None => Devolve (Json valor)
        end
      else Devolve (Json valor)
  | _ => Devolve (Json valor)
  end.







Section Carga.

(** The file of the parameters opened and read by [json.load]. *)
Variable le_json : string -> retorno json.


End Carga.


End Parametros.

(* ################################################################## *)
(** * Proofs *)
(* ################################################################## *)

(* ================================================================== *)
(** * Facts about strings *)
(* ================================================================== *)

Module TextFacts.
Import Text.

#[local] Arguments String.append : simpl nomatch.

Lemma digit_not_sep c : is_digit c = true -> is_sep c = false.
Proof. destruct c as [[] [] [] [] [] [] [] []]; vm_compute; congruence. Qed.


Lemma digit_not_space c : is_digit c = true -> is_space c = false.
Proof. destruct c as [[] [] [] [] [] [] [] []]; vm_compute; congruence. Qed.

Lemma append_empty_r s : s +:+ "" = s.
Proof. induction s as [|c s IH]; simpl; [reflexivity | now rewrite IH]. Qed.

Lemma append_assoc a b c : (a +:+ b) +:+ c = a +:+ (b +:+ c).
Proof. induction a as [|x a IH]; simpl; [reflexivity | now rewrite IH]. Qed.

Lemma take_drop_while p s : take_while p s +:+ drop_while p s = s.
Proof.
  induction s as [|c s IH]; simpl; [reflexivity|].
  destruct (p c); simpl; [now rewrite IH | reflexivity].
Qed.

Lemma forallb_take_while p s : forallb p (take_while p s) = true.
Proof.
  induction s as [|c s IH]; simpl; [reflexivity|].
  destruct (p c) eqn:E; simpl; [now rewrite E | reflexivity].
Qed.

Lemma starts_drop_while p s : Cleaner.starts_with p (drop_while p s) = false.
Proof.
  induction s as [|c s IH]; simpl; [reflexivity|].
  destruct (p c) eqn:E; simpl; [exact IH | exact E].
Qed.

Lemma forallb_app p a b : forallb p (a +:+ b) = forallb p a && forallb p b.
Proof.
  induction a as [|c a IH]; simpl; [reflexivity|].
  now rewrite IH, andb_assoc.
Qed.

Lemma forallb_impl (p q : ascii -> bool) s :
  (forall c, p c = true -> q c = true) -> forallb p s = true -> forallb q s = true.
Proof.
  intros Hpq. induction s as [|c s IH]; simpl; [reflexivity|].
  intros [Hc Hs]%andb_true_iff. now rewrite (Hpq _ Hc), IH.
Qed.

Lemma take_while_app p a b :
  forallb p a = true -> Cleaner.starts_with p b = false ->
  take_while p (a +:+ b) = a.
Proof.
  induction a as [|c a IH]; simpl.
  - intros _. destruct b as [|d b]; simpl; [reflexivity | now intros ->].
  - intros [-> Ha]%andb_true_iff Hb. now rewrite IH.
Qed.

Lemma drop_while_app p a b :
  forallb p a = true -> drop_while p (a +:+ b) = drop_while p b.
Proof.
  induction a as [|c a IH]; simpl; [reflexivity|].
  intros [-> Ha]%andb_true_iff. now apply IH.
Qed.

Lemma drop_while_id p b : Cleaner.starts_with p b = false -> drop_while p b = b.
Proof. destruct b as [|d b]; simpl; [reflexivity | now intros ->]. Qed.

Lemma filter_app p a b : filter p (a +:+ b) = filter p a +:+ filter p b.
Proof.
  induction a as [|c a IH]; simpl; [reflexivity|].
  destruct (p c); simpl; now rewrite IH.
Qed.

Lemma filter_all p s : forallb p s = true -> filter p s = s.
Proof.
  induction s as [|c s IH]; simpl; [reflexivity|].
  intros [-> Hs]%andb_true_iff. now rewrite IH.
Qed.

Lemma filter_none p s : forallb (fun c => negb (p c)) s = true -> filter p s = "".
Proof.
  induction s as [|c s IH]; simpl; [reflexivity|].
  intros [Hc Hs]%andb_true_iff. apply negb_true_iff in Hc. rewrite Hc. now apply IH.
Qed.

Lemma filter_agree (p q : ascii -> bool) s :
  forallb (fun c => Bool.eqb (p c) (q c)) s = true -> filter p s = filter q s.
Proof.
  induction s as [|c s IH]; simpl; [reflexivity|].
  intros [Hc Hs]%andb_true_iff. apply eqb_prop in Hc. rewrite Hc, (IH Hs). reflexivity.
Qed.

(** What [drop_while_end] removes is a suffix of characters of the class. *)
Lemma drop_while_end_split p s :
  exists tail, s = drop_while_end p s +:+ tail /\ forallb p tail = true.
Proof.
  induction s as [|c s (tail & Hs & Ht)]; simpl.
  - exists "". split; reflexivity.
  - destruct (is_empty (drop_while_end p s) && p c) eqn:E.
    + apply andb_true_iff in E as [E Hc].
      exists (String c s). split; [reflexivity|]. simpl. rewrite Hc. simpl.
      destruct (drop_while_end p s); [|discriminate]. simpl in Hs. now subst.
    + exists tail. split; [simpl; now rewrite <- Hs | exact Ht].
Qed.

Lemma drop_length_app a b : drop (String.length a) (a +:+ b) = b.
Proof. induction a as [|c a IH]; simpl; [now destruct b | exact IH]. Qed.

Lemma length_append a b : String.length (a +:+ b) = (String.length a + String.length b)%nat.
Proof. induction a as [|c a IH]; simpl; [reflexivity | now rewrite IH]. Qed.

Lemma is_empty_true s : is_empty s = true -> s = "".
Proof. now destruct s. Qed.

Lemma drop_while_end_app_keep p a b :
  is_empty (drop_while_end p b) = false ->
  drop_while_end p (a +:+ b) = a +:+ drop_while_end p b.
Proof.
  intros Hb. induction a as [|c a IH]; simpl; [reflexivity|].
  rewrite IH. destruct (a +:+ drop_while_end p b) eqn:E; simpl; [|reflexivity].
  destruct a; simpl in E; [|discriminate]. now rewrite E in Hb.
Qed.

Lemma drop_while_end_all p s : forallb p s = true -> drop_while_end p s = "".
Proof.
  induction s as [|c s IH]; simpl; [reflexivity|].
  intros [-> Hs]%andb_true_iff. now rewrite (IH Hs).
Qed.

Lemma drop_while_end_nonempty p s :
  existsb (fun c => negb (p c)) s = true -> is_empty (drop_while_end p s) = false.
Proof.
  induction s as [|c s IH]; simpl; [discriminate|].
  destruct (p c) eqn:Hc; simpl.
  - intros H. rewrite (IH H). reflexivity.
  - intros _. now rewrite andb_false_r.
Qed.

End TextFacts.

(* ================================================================== *)
(** * The code/description splitter *)
(* ================================================================== *)

Module SepararFacts.
Import Text Cleaner TextFacts.

#[local] Arguments String.append : simpl nomatch.

Lemma filter_drop_while (p q : ascii -> bool) s :
  (forall c, p c = true -> q c = false) ->
  filter q (drop_while p s) = filter q s.
Proof.
  intros Hpq. induction s as [|c s IH]; simpl; [reflexivity|].
  destruct (p c) eqn:Hc; simpl; [now rewrite (Hpq _ Hc) | reflexivity].
Qed.

Lemma filter_drop_while_end (p q : ascii -> bool) s :
  (forall c, p c = true -> q c = false) ->
  filter q (drop_while_end p s) = filter q s.
Proof.
  intros Hpq. destruct (drop_while_end_split p s) as (tail & Hs & Ht).
  rewrite Hs at 2. rewrite filter_app, (filter_none q tail), append_empty_r; [reflexivity|].
  eapply forallb_impl; [|exact Ht]. intros c Hc. now rewrite (Hpq _ Hc).
Qed.

Lemma filter_strip (q : ascii -> bool) s :
  (forall c, is_space c = true -> q c = false) ->
  filter q (strip s) = filter q s.
Proof.
  intros H. unfold strip. now rewrite filter_drop_while_end, filter_drop_while.
Qed.

Lemma take_while_empty p s : starts_with p s = false -> take_while p s = "".
Proof. destruct s as [|c s]; simpl; [reflexivity | now intros ->]. Qed.

Lemma starts_with_app_l p a b :
  is_empty a = false -> starts_with p (a +:+ b) = starts_with p a.
Proof. now destruct a. Qed.

Lemma starts_with_forallb p a : is_empty a = false -> forallb p a = true -> starts_with p a = true.
Proof. destruct a as [|c a]; simpl; [discriminate|]. now intros _ [-> _]%andb_true_iff. Qed.

(** The match is a prefix of digits and separators that starts with a digit. *)
Lemma re_match_codigo_shape s g :
  re_match_codigo s = Some g ->
  exists rest,
    s = g +:+ rest
    /\ starts_with is_digit g = true
    /\ forallb (fun c => is_digit c || is_sep c) g = true.
Proof.
  unfold re_match_codigo.
  destruct (is_empty (take_while is_digit s)) eqn:E; [discriminate|].
  intros [= <-].
  exists (drop_while is_digit (drop_while is_sep (drop_while is_digit s))).
  split; [|split].
  - rewrite !append_assoc, !take_drop_while. reflexivity.
  - rewrite starts_with_app_l by exact E.
    apply starts_with_forallb; [exact E | apply forallb_take_while].
  - rewrite !forallb_app, !andb_true_iff. repeat split.
    + eapply forallb_impl; [|apply forallb_take_while]. now intros c ->.
    + eapply forallb_impl; [|apply forallb_take_while]. intros c ->. apply orb_true_r.
    + eapply forallb_impl; [|apply forallb_take_while]. now intros c ->.
Qed.

Lemma re_match_codigo_none s :
  starts_with is_digit s = false -> re_match_codigo s = None.
Proof.
  intros H. unfold re_match_codigo. now rewrite (take_while_empty _ _ H).
Qed.

(** The greedy match on a string laid out as digits, separators, digits
    and a remainder that continues neither run. *)
Lemma re_match_codigo_parts d1 sp d2 rest :
  is_empty d1 = false ->
  forallb is_digit d1 = true -> forallb is_sep sp = true -> forallb is_digit d2 = true ->
  (is_empty sp = true -> is_empty d2 = true) ->
  starts_with is_digit rest = false ->
  (is_empty d2 = true -> starts_with is_sep rest = false) ->
  re_match_codigo (d1 +:+ sp +:+ d2 +:+ rest) = Some (d1 +:+ sp +:+ d2).
Proof.
  intros Hd1 Hf1 Hfs Hf2 Hsp Hrest Hrest'.
  assert (Hd2r : starts_with is_sep (d2 +:+ rest) = false).
  { destruct d2 as [|c d2]; simpl; [now apply Hrest'|].
    simpl in Hf2. apply andb_true_iff in Hf2 as [Hc _]. now apply digit_not_sep. }
  assert (Hspr : starts_with is_digit (sp +:+ d2 +:+ rest) = false).
  { destruct sp as [|c sp]; simpl.
    - rewrite (is_empty_true d2) by now apply Hsp. exact Hrest.
    - simpl in Hfs. apply andb_true_iff in Hfs as [Hc _].
      destruct (is_digit c) eqn:Hd; [|reflexivity].
      apply digit_not_sep in Hd. congruence. }
  unfold re_match_codigo.
  rewrite (take_while_app is_digit d1) by assumption.
  rewrite (drop_while_app is_digit d1) by assumption.
  rewrite (drop_while_id is_digit) by assumption.
  rewrite (take_while_app is_sep sp) by assumption.
  rewrite (drop_while_app is_sep sp) by assumption.
  rewrite (drop_while_id is_sep) by assumption.
  rewrite (take_while_app is_digit d2) by assumption.
  now rewrite Hd1.
Qed.

(** What the splitter returns when the expression matches. *)
Lemma separar_valor_match v g rest :
  strip v = g +:+ rest -> re_match_codigo (strip v) = Some g ->
  separar_valor (Some v) = (filter is_digit g, drop_while is_sep (strip rest)).
Proof.
  intros Hs Hm.
  destruct (re_match_codigo_shape _ _ Hm) as (_ & _ & Hstart & _).
  unfold separar_valor. rewrite Hm.
  assert (Hne : is_empty (strip v) = false).
  { rewrite Hs. destruct g; [discriminate | reflexivity]. }
  rewrite Hne. simpl negb. cbv iota.
  assert (Hg : strip g = drop_while_end is_space g).
  { unfold strip. rewrite drop_while_id; [reflexivity|].
    destruct g as [|c g]; simpl in *; [discriminate|]. now apply digit_not_space. }
  rewrite Hg.
  destruct (drop_while_end_split is_space g) as (tail & Hsplit & Htail).
  f_equal.
  - apply filter_drop_while_end. intros c Hc.
    destruct (is_digit c) eqn:Hd; [|reflexivity].
    apply digit_not_space in Hd. congruence.
  - f_equal. rewrite Hs. rewrite Hsplit at 2.
    rewrite append_assoc, drop_length_app.
    unfold strip. now rewrite drop_while_app.
Qed.



End SepararFacts.

(* ================================================================== *)
(** * The monetary cleaner *)
(* ================================================================== *)

Module CreditoFacts.
Import Text Cleaner TextFacts SepararFacts.

#[local] Arguments String.append : simpl nomatch.

Lemma prefix_char c d s :
  String.prefix (String c "") (String d s) = Ascii.eqb d c.
Proof.
  simpl. destruct (ascii_dec c d) as [->|Hne].
  - rewrite Ascii.eqb_refl. now destruct s.
  - symmetry. apply Ascii.eqb_neq. congruence.
Qed.

Lemma replace_fuel_char c new s fuel :
  (String.length s < fuel)%nat ->
  replace_fuel fuel (String c "") new s = subst_char c new s.
Proof.
  revert s. induction fuel as [|fuel IH]; intros s Hlen; [lia|].
  destruct s as [|d s]; [reflexivity|].
  cbn [replace_fuel subst_char]. rewrite prefix_char.
  simpl in Hlen. destruct (Ascii.eqb d c); simpl; rewrite IH by lia; reflexivity.
Qed.

Lemma replace_char c new s : replace (String c "") new s = subst_char c new s.
Proof. unfold replace. cbn [is_empty]. apply replace_fuel_char. lia. Qed.

Lemma subst_char_absent c new s :
  forallb (fun d => negb (Ascii.eqb d c)) s = true -> subst_char c new s = s.
Proof.
  induction s as [|d s IH]; simpl; [reflexivity|].
  intros [Hd Hs]%andb_true_iff. apply negb_true_iff in Hd. rewrite Hd. now rewrite IH.
Qed.

Lemma subst_char_app c new a b :
  subst_char c new (a +:+ b) = subst_char c new a +:+ subst_char c new b.
Proof.
  induction a as [|d a IH]; simpl; [reflexivity|].
  destruct (Ascii.eqb d c); simpl; rewrite IH; [now rewrite append_assoc | reflexivity].
Qed.

Lemma digit_not_comma c : is_digit c = true -> is_comma c = false.
Proof. destruct c as [[] [] [] [] [] [] [] []]; vm_compute; congruence. Qed.

Lemma digit_not_dot c : is_digit c = true -> is_dot c = false.
Proof. destruct c as [[] [] [] [] [] [] [] []]; vm_compute; congruence. Qed.

Lemma contains_absent c s :
  forallb (fun d => negb (Ascii.eqb d c)) s = true -> contains (String c "") s = false.
Proof.
  induction s as [|d s IH]; [reflexivity|].
  cbn [contains forallb]. rewrite prefix_char.
  intros [Hd Hs]%andb_true_iff. apply negb_true_iff in Hd. rewrite Hd. now apply IH.
Qed.

Lemma contains_present c a b :
  contains (String c "") (a +:+ String c b) = true.
Proof.
  induction a as [|d a IH].
  - cbn [String.append contains]. rewrite prefix_char, Ascii.eqb_refl. reflexivity.
  - change (String d a +:+ String c b) with (String d (a +:+ String c b)).
    cbn [contains]. rewrite IH. apply orb_true_r.
Qed.

(** Positional value of a digit string. *)
Lemma digits_value_acc acc s :
  digits_value acc s = (acc * 10 ^ Z.of_nat (String.length s) + digits_value 0 s)%Z.
Proof.
  revert acc. induction s as [|c s IH]; intros acc.
  - simpl. lia.
  - cbn [digits_value String.length]. rewrite (IH (10 * acc + digit_val c)%Z), (IH (10 * 0 + digit_val c)%Z).
    rewrite Nat2Z.inj_succ, Z.pow_succ_r by lia. lia.
Qed.

Lemma digits_value_fold acc a b :
  digits_value acc (a +:+ b) = digits_value (digits_value acc a) b.
Proof.
  revert acc. induction a as [|c a IH]; intros acc; [reflexivity|].
  change (String c a +:+ b) with (String c (a +:+ b)). cbn [digits_value]. apply IH.
Qed.

Lemma digits_value_app a b :
  digits_value 0 (a +:+ b)
  = (digits_value 0 a * 10 ^ Z.of_nat (String.length b) + digits_value 0 b)%Z.
Proof. rewrite digits_value_fold. apply digits_value_acc. Qed.

Lemma digits_value_nonneg s : (0 <= digits_value 0 s)%Z.
Proof.
  assert (H : forall acc, (0 <= acc)%Z -> (0 <= digits_value acc s)%Z).
  { induction s as [|c s IH]; intros acc Hacc; simpl; [exact Hacc|].
    apply IH. unfold digit_val. lia. }
  apply H. lia.
Qed.

Lemma pow10_pos n : Z.pos (pow10 n) = (10 ^ Z.of_nat n)%Z.
Proof. unfold pow10. apply Z2Pos.id. apply Z.pow_pos_nonneg; lia. Qed.

Lemma forallb_filter p s : forallb p (filter p s) = true.
Proof.
  induction s as [|c s IH]; simpl; [reflexivity|].
  destruct (p c) eqn:E; simpl; [now rewrite E | exact IH].
Qed.

Lemma existsb_app p a b : existsb p (a +:+ b) = existsb p a || existsb p b.
Proof.
  induction a as [|c a IH]; simpl; [reflexivity|]. now rewrite IH, orb_assoc.
Qed.

Lemma filter_nonempty p s : existsb p s = true -> is_empty (filter p s) = false.
Proof.
  induction s as [|c s IH]; simpl; [discriminate|].
  destruct (p c); simpl; [reflexivity | exact IH].
Qed.

Lemma filter_empty p s : existsb p s = false -> filter p s = "".
Proof.
  induction s as [|c s IH]; simpl; [reflexivity|].
  destruct (p c); simpl; [discriminate | exact IH].
Qed.

Lemma count_app p a b : count p (a +:+ b) = (count p a + count p b)%nat.
Proof.
  induction a as [|c a IH]; simpl; [reflexivity|]. rewrite IH. lia.
Qed.

Lemma count_zero p s : count p s = 0%nat -> forallb (fun c => negb (p c)) s = true.
Proof.
  induction s as [|c s IH]; simpl; [reflexivity|].
  destruct (p c); simpl; [discriminate | exact IH].
Qed.

Lemma drop_while_end_none p s :
  forallb (fun c => negb (p c)) s = true -> drop_while_end p s = s.
Proof.
  induction s as [|c s IH]; simpl; [reflexivity|].
  intros [Hc Hs]%andb_true_iff. apply negb_true_iff in Hc.
  now rewrite (IH Hs), Hc, andb_false_r.
Qed.

Lemma strip_none s : forallb (fun c => negb (is_space c)) s = true -> strip s = s.
Proof.
  intros H. unfold strip.
  rewrite drop_while_id.
  - now apply drop_while_end_none.
  - destruct s as [|c s]; simpl in *; [reflexivity|].
    apply andb_true_iff in H as [Hc _]. now apply negb_true_iff in Hc.
Qed.

Lemma last_char_app s c : last_char (s +:+ String c "") = Some c.
Proof.
  induction s as [|d s IH]; [reflexivity|].
  change (String d s +:+ String c "") with (String d (s +:+ String c "")).
  cbn [last_char]. rewrite IH. destruct (s +:+ String c "") eqn:E; [|reflexivity].
  destruct s; discriminate.
Qed.

Lemma amount_class_cases c :
  (is_digit c || is_dot c || is_comma c) = true ->
  is_space c = false
  /\ (is_comma c = false -> (is_digit c || is_comma c) = is_digit c).
Proof. destruct c as [[] [] [] [] [] [] [] []]; vm_compute; intuition congruence. Qed.

Lemma keep_comma_free s :
  forallb (fun c => is_digit c || is_dot c || is_comma c) s = true ->
  forallb (fun c => negb (is_comma c)) s = true ->
  keep_digits_commas s = filter is_digit s.
Proof.
  intros H1 H2. apply filter_agree.
  induction s as [|c s IH]; simpl in *; [reflexivity|].
  apply andb_true_iff in H1 as [Hc H1]. apply andb_true_iff in H2 as [Hn H2].
  apply negb_true_iff in Hn.
  rewrite (proj2 (amount_class_cases c Hc) Hn), eqb_reflx. now apply IH.
Qed.

Lemma keep_amount body :
  amount_body body = true ->
  keep_digits_commas body
  = filter is_digit (int_part body)
    +:+ match frac_part body with
        | EmptyString => ""
        | String c B => String "," (filter is_digit B)
        end
  /\ match frac_part body with
     | EmptyString => True
     | String c B => filter is_digit (frac_part body) = filter is_digit B
     end
  /\ is_empty (filter is_digit (int_part body) +:+ filter is_digit (frac_part body)) = false.
Proof.
  unfold amount_body, int_part, frac_part.
  intros [[Hall Hcount]%andb_true_iff Hdig]%andb_true_iff.
  apply Nat.leb_le in Hcount.
  set (notc := fun c => negb (is_comma c)) in *.
  pose proof (take_drop_while notc body) as Hsplit.
  pose proof (forallb_take_while notc body) as HA.
  pose proof (starts_drop_while notc body) as HR.
  rewrite <- Hsplit in Hall, Hcount, Hdig.
  rewrite forallb_app in Hall. apply andb_true_iff in Hall as [HallA HallR].
  rewrite count_app in Hcount. rewrite existsb_app in Hdig.
  unfold keep_digits_commas in *.
  rewrite <- Hsplit at 1. rewrite filter_app.
  fold (keep_digits_commas (take_while notc body)).
  rewrite (keep_comma_free _ HallA HA).
  destruct (drop_while notc body) as [|c B] eqn:ER.
  - simpl in *. rewrite orb_false_r in Hdig. repeat split.
    rewrite append_empty_r. now apply filter_nonempty.
  - simpl in HR. unfold notc in HR. apply negb_false_iff in HR.
    simpl in HallR. apply andb_true_iff in HallR as [_ HallB].
    simpl in Hcount. rewrite HR in Hcount.
    assert (HB : forallb notc B = true) by (apply count_zero; lia).
    assert (Hc : c = ","%char).
    { unfold is_comma in HR. now apply Ascii.eqb_eq in HR. }
    subst c. simpl.
    fold (keep_digits_commas B). rewrite (keep_comma_free _ HallB HB).
    repeat split.
    simpl in Hdig.
    destruct (existsb is_digit (take_while notc body)) eqn:EA.
    + apply filter_nonempty in EA.
      destruct (filter is_digit (take_while notc body)); [discriminate | reflexivity].
    + simpl in Hdig. apply filter_nonempty in Hdig.
      rewrite (filter_empty _ _ EA). exact Hdig.
Qed.

Lemma py_float_int d :
  forallb is_digit d = true -> is_empty d = false ->
  py_float d = Ok (inject_Z (digits_value 0 d)).
Proof.
  intros Hd Hne. unfold py_float.
  pose proof (take_while_app is_digit d "" Hd eq_refl) as Ht.
  pose proof (drop_while_app is_digit d "" Hd) as Hdr.
  rewrite append_empty_r in Ht, Hdr. rewrite Ht, Hdr. simpl. now rewrite Hne.
Qed.

Lemma py_float_decimal dA dB :
  forallb is_digit dA = true -> forallb is_digit dB = true ->
  is_empty (dA +:+ dB) = false ->
  py_float (dA +:+ String "." dB)
  = Ok (Qmake (digits_value 0 (dA +:+ dB)) (pow10 (String.length dB))).
Proof.
  intros HA HB Hne. unfold py_float.
  rewrite (take_while_app is_digit dA) by (assumption || reflexivity).
  rewrite (drop_while_app is_digit dA) by assumption.
  simpl drop_while. cbv iota. rewrite HB.
  replace (is_empty dA && is_empty dB) with false; [reflexivity|].
  destruct dA; simpl in *; [now rewrite Hne | reflexivity].
Qed.

(** The string handed to [float] for an amount body with a one-letter
    suffix, and its value. *)
Lemma float_argument_amount body sfx :
  amount_body body = true ->
  (sfx = "C"%char \/ sfx = "D"%char) ->
  exists f,
    strip (body +:+ String sfx "") = body +:+ String sfx ""
    /\ py_float (float_argument (body +:+ String sfx "")) = Ok f
    /\ (f == spec_magnitude body)%Q
    /\ (0 <= f)%Q.
Proof.
  intros Hbody Hsfx.
  destruct (keep_amount body Hbody) as (Hkeep & Hfrac & Hne).
  assert (Hstrip : strip (body +:+ String sfx "") = body +:+ String sfx "").
  { apply strip_none. rewrite forallb_app. apply andb_true_iff. split.
    - unfold amount_body in Hbody.
      apply andb_true_iff in Hbody as [[Hall _]%andb_true_iff _].
      eapply forallb_impl; [|exact Hall].
      intros c Hc. now rewrite (proj1 (amount_class_cases c Hc)).
    - destruct Hsfx as [-> | ->]; reflexivity. }
  assert (Hk : keep_digits_commas (body +:+ String sfx "") = keep_digits_commas body).
  { unfold keep_digits_commas. rewrite filter_app.
    destruct Hsfx as [-> | ->]; simpl; apply append_empty_r. }
  unfold float_argument. rewrite Hstrip, Hk, Hkeep.
  unfold spec_magnitude. fold (int_part body) (frac_part body).
  set (dA := filter is_digit (int_part body)) in *.
  assert (HdA : forallb is_digit dA = true) by apply forallb_filter.
  assert (HnodotA : forallb (fun d => negb (Ascii.eqb d ".")) dA = true).
  { eapply forallb_impl; [|exact HdA]. intros c Hc.
    apply digit_not_dot in Hc. unfold is_dot in Hc. now rewrite Hc. }
  assert (HnocomA : forallb (fun d => negb (Ascii.eqb d ",")) dA = true).
  { eapply forallb_impl; [|exact HdA]. intros c Hc.
    apply digit_not_comma in Hc. unfold is_comma in Hc. now rewrite Hc. }
  destruct (frac_part body) as [|c B] eqn:EF.
  - rewrite append_empty_r in *. simpl in Hne. rewrite ?append_empty_r in Hne.
    rewrite (contains_absent _ _ HnocomA).
    rewrite replace_char, (subst_char_absent _ _ _ HnodotA).
    exists (inject_Z (digits_value 0 dA)). split; [reflexivity|]. split; [|split].
    + now apply py_float_int.
    + simpl. unfold Qeq. simpl. lia.
    + unfold Qle. simpl. pose proof (digits_value_nonneg dA). lia.
  - rewrite Hfrac in *.
    set (dB := filter is_digit B) in *.
    assert (HdB : forallb is_digit dB = true) by apply forallb_filter.
    assert (HnodotB : forallb (fun d => negb (Ascii.eqb d ".")) dB = true).
    { eapply forallb_impl; [|exact HdB]. intros d Hd.
      apply digit_not_dot in Hd. unfold is_dot in Hd. now rewrite Hd. }
    assert (HnocomB : forallb (fun d => negb (Ascii.eqb d ",")) dB = true).
    { eapply forallb_impl; [|exact HdB]. intros d Hd.
      apply digit_not_comma in Hd. unfold is_comma in Hd. now rewrite Hd. }
    rewrite contains_present.
    rewrite !replace_char.
    rewrite (subst_char_absent "." "" (dA +:+ String "," dB)).
    2:{ rewrite forallb_app, HnodotA. simpl. exact HnodotB. }
    rewrite subst_char_app, (subst_char_absent _ _ _ HnocomA).
    cbn [subst_char]. rewrite Ascii.eqb_refl, (subst_char_absent _ _ _ HnocomB).
    change ("." +:+ dB) with (String "." dB).
    exists (Qmake (digits_value 0 (dA +:+ dB)) (pow10 (String.length dB))).
    split; [reflexivity|]. split; [|split].
    + now apply py_float_decimal.
    + unfold Qeq, Qplus, inject_Z. cbn [Qnum Qden].
      rewrite digits_value_app, Pos2Z.inj_mul, !pow10_pos. lia.
    + unfold Qle. cbn [Qnum Qden]. pose proof (digits_value_nonneg (dA +:+ dB)). lia.
Qed.

Lemma formatar_credito_unfold v :
  formatar_credito (Some v)
  = match py_float (float_argument v) with
    | Ok f =>
        Ok (Some (if endswith_char (strip v) "C" then (- Qabs f)%Q
                  else if endswith_char (strip v) "D" then Qabs f
                  else f))
    | Raise _ => Ok (Some 0%Q)
    end.
Proof.
  unfold formatar_credito, float_argument, try_except, bind.
  destruct (contains "," (keep_digits_commas (strip v)));
    match goal with |- context [py_float ?s] => destruct (py_float s) end; reflexivity.
Qed.

End CreditoFacts.

(* ================================================================== *)
(** * Claims about the record cleaner *)
(* ================================================================== *)

Section CleanerClaims.
Import Text Cleaner TextFacts SepararFacts CreditoFacts.

(** C4. For an amount made of digits, dots (thousands separators) and at
    most one comma (the decimal separator), followed by the suffix C or D,
    [formatar_credito] returns a number whose magnitude is the amount read
    with the dots ignored and the comma as decimal separator, negative for
    C and positive for D; "1.234,56C" gives -1234.56 and "1.234,56D" gives
    1234.56.  On every string the function returns a number and raises
    nothing, and the number is zero when [float] refuses the cleaned string. *)
Theorem formatar_credito_sign_magnitude :
  (forall body : string,
      amount_body body = true ->
      (exists v, formatar_credito (Some (body +:+ "C")) = Ok (Some v)
                 /\ (v == - spec_magnitude body)%Q /\ (v <= 0)%Q)
      /\ (exists v, formatar_credito (Some (body +:+ "D")) = Ok (Some v)
                    /\ (v == spec_magnitude body)%Q /\ (0 <= v)%Q))
  /\ formatar_credito (Some "1.234,56C") = Ok (Some (-1234.56)%Q)
  /\ formatar_credito (Some "1.234,56D") = Ok (Some 1234.56%Q)
  /\ (forall s : string,
         exists v, formatar_credito (Some s) = Ok (Some v)
                   /\ (forall e, py_float (float_argument s) = Raise e -> v = 0%Q)).
Proof.
  split; [|split; [reflexivity | split; [reflexivity|]]].
  - intros body Hbody. split.
    + destruct (float_argument_amount body "C" Hbody (or_introl eq_refl))
        as (f & Hstrip & Hf & Hmag & Hpos).
      exists (- Qabs f)%Q. rewrite formatar_credito_unfold, Hf, Hstrip.
      unfold endswith_char. rewrite last_char_app. cbn [Ascii.eqb Bool.eqb].
      split; [reflexivity|]. rewrite (Qabs_pos f Hpos). split.
      * now rewrite Hmag.
      * apply (Qopp_le_compat 0 f) in Hpos. exact Hpos.
    + destruct (float_argument_amount body "D" Hbody (or_intror eq_refl))
        as (f & Hstrip & Hf & Hmag & Hpos).
      exists (Qabs f). rewrite formatar_credito_unfold, Hf, Hstrip.
      unfold endswith_char. rewrite last_char_app. cbn [Ascii.eqb Bool.eqb].
      split; [reflexivity|]. rewrite (Qabs_pos f Hpos). split; assumption.
  - intros s. rewrite formatar_credito_unfold.
    destruct (py_float (float_argument s)) as [f|e].
    + eexists. split; [reflexivity|]. intros e [=].
    + exists 0%Q. split; [reflexivity|]. reflexivity.
Qed.

(** C4, at the amount "1.234,56" with the credit suffix. *)
Lemma formatar_credito_witness :
  amount_body "1.234,56" = true
  /\ exists v, formatar_credito (Some "1.234,56C") = Ok (Some v)
               /\ (v == - spec_magnitude "1.234,56")%Q /\ (v <= 0)%Q.
Proof.
  split; [reflexivity|].
  exact (proj1 (proj1 formatar_credito_sign_magnitude "1.234,56" eq_refl)).
Defined.




End CleanerClaims.

(* ================================================================== *)
(** * Import: routing and replacement *)
(* ================================================================== *)

Module ImportacaoFacts.
Import Text Importacao.

Lemma mem_app x a b : mem x (a ++ b) = mem x a || mem x b.
Proof. unfold mem. apply existsb_app. Qed.

Lemma mem_true_iff x l : mem x l = true <-> In x l.
Proof.
  unfold mem. rewrite existsb_exists. split.
  - intros (y & Hy & E). apply String.eqb_eq in E. now subst.
  - intros H. exists x. split; [exact H | apply String.eqb_refl].
Qed.

Lemma mem_cons x y l : mem x (y :: l) = String.eqb x y || mem x l.
Proof. reflexivity. Qed.

Lemma mem_filter x (p : string -> bool) l :
  mem x (List.filter p l) = mem x l && p x.
Proof.
  induction l as [|y l IH]; [reflexivity|].
  cbn [List.filter]. rewrite mem_cons.
  destruct (String.eqb x y) eqn:E.
  - apply String.eqb_eq in E. subst y. destruct (p x) eqn:Hp.
    + rewrite mem_cons, String.eqb_refl. reflexivity.
    + rewrite IH. now rewrite !andb_false_r.
  - destruct (p y); [rewrite mem_cons, E|]; exact IH.
Qed.

Lemma names_select keep df :
  column_names (select keep df)
  = List.flat_map (fun k => List.filter (String.eqb k) (column_names df)) keep.
Proof.
  unfold column_names, select. cbn [columns].
  induction keep as [|k keep IH]; [reflexivity|].
  cbn [List.flat_map]. rewrite List.map_app, IH. f_equal.
  clear IH. induction (columns df) as [|[n d] cs IHc]; [reflexivity|].
  cbn [List.filter List.map fst]. rewrite (String.eqb_sym k n).
  destruct (String.eqb n k); cbn [List.map fst]. all: now rewrite IHc.
Qed.

Lemma mem_filter_eqb x k l : mem x (List.filter (String.eqb k) l) = String.eqb x k && mem k l.
Proof.
  rewrite mem_filter. destruct (String.eqb x k) eqn:E.
  - apply String.eqb_eq in E. subst k. now rewrite String.eqb_refl, andb_true_r.
  - rewrite (String.eqb_sym k x), E. now rewrite andb_false_r.
Qed.

Lemma mem_select x keep df :
  mem x (column_names (select keep df)) = mem x keep && mem x (column_names df).
Proof.
  rewrite names_select. induction keep as [|k keep IH]; [reflexivity|].
  cbn [List.flat_map]. rewrite mem_app, IH, mem_filter_eqb.
  cbn [mem List.existsb]. fold (mem x keep).
  destruct (String.eqb x k) eqn:E; cbn; [|reflexivity].
  apply String.eqb_eq in E. subst k.
  destruct (mem x (column_names df)); cbn; [reflexivity | now rewrite andb_false_r].
Qed.

Lemma mem_new_columns x T seen :
  mem x (new_columns T seen) = mem x T && negb (mem x seen).
Proof.
  revert seen. induction T as [|c T IH]; intros seen; [reflexivity|].
  cbn [new_columns]. destruct (mem c seen) eqn:Hc.
  - rewrite IH. cbn [mem List.existsb]. fold (mem x T).
    destruct (String.eqb x c) eqn:E; [|reflexivity].
    apply String.eqb_eq in E. subst c. rewrite Hc. cbn. now rewrite andb_false_r.
  - cbn [mem List.existsb]. fold (mem x (new_columns T (seen ++ [c]))) (mem x T).
    rewrite IH, mem_app. cbn [mem List.existsb].
    destruct (String.eqb x c) eqn:E; cbn.
    + apply String.eqb_eq in E. subst c. now rewrite Hc.
    + now rewrite orb_false_r.
Qed.




(** The frame after the loop: the columns it had, then the new ones. *)
Lemma add_missing_columns T df :
  nrows (add_missing T df) = nrows df
  /\ columns (add_missing T df)
     = columns df
       ++ List.map (fun c => (c, List.repeat (default_cell c) (nrows df)))
            (new_columns T (column_names df)).
Proof.
  revert df. induction T as [|c T IH]; intros df.
  - cbn. now rewrite List.app_nil_r.
  - cbn [add_missing new_columns]. destruct (mem c (column_names df)) eqn:Hc; [apply IH|].
    destruct (IH (add_column df c (default_cell c))) as [Hn Hcols].
    rewrite Hn, Hcols. split; [reflexivity|].
    unfold add_column, column_names. cbn [nrows columns].
    rewrite List.map_app, <- List.app_assoc. reflexivity.
Qed.


Lemma names_add_missing T df :
  column_names (add_missing T df) = column_names df ++ new_columns T (column_names df).
Proof.
  unfold column_names at 1. rewrite (proj2 (add_missing_columns T df)).
  rewrite List.map_app, List.map_map. cbn [fst]. now rewrite List.map_id.
Qed.


Lemma prefix_map f u s :
  String.prefix u s = true -> String.prefix (map f u) (map f s) = true.
Proof.
  revert s. induction u as [|c u IH]; intros s.
  - intros _. now destruct s.
  - destruct s as [|d s]; [discriminate|]. cbn [String.prefix map].
    destruct (ascii_dec c d) as [->|Hne]; [|discriminate].
    intros H. destruct (ascii_dec (f d) (f d)); [now apply IH | congruence].
Qed.

Lemma contains_map f u s :
  contains u s = true -> contains (map f u) (map f s) = true.
Proof.
  induction s as [|d s IH]; intros H; cbn [contains] in H.
  - rewrite orb_false_r in H. apply (prefix_map f) in H.
    cbn [map] in *. cbn [contains]. now rewrite H.
  - change (map f (String d s)) with (String (f d) (map f s)). cbn [contains].
    apply orb_true_iff in H as [H|H].
    + apply (prefix_map f) in H. cbn [map] in H. now rewrite H.
    + rewrite (IH H). apply orb_true_r.
Qed.

End ImportacaoFacts.

(* ================================================================== *)
(** * Claims about the import *)
(* ================================================================== *)

Section ImportClaims.
Import Text Importacao ImportacaoFacts.

Variable load_frame : string -> string -> result frame.

Lemma import_from_excel_ok file_path table_name db df :
  load_frame file_path (destino file_path table_name) = Ok df ->
  import_from_excel load_frame file_path table_name db
  = (<[destino file_path table_name :=
         prepared (table_info db (destino file_path table_name)) df]> db, Ok true).
Proof. intros H. unfold import_from_excel. rewrite H. reflexivity. Qed.

Lemma import_from_excel_fail file_path table_name db e :
  load_frame file_path (destino file_path table_name) = Raise e ->
  fst (import_from_excel load_frame file_path table_name db) = db.
Proof. intros H. unfold import_from_excel. rewrite H. now destruct e. Qed.



(** C10. The destination of an import is fixed by the tokens of the
    file name's stem, in any letter case and in the order ctbr100,
    ctbr140, ctbr040, finr150: advances, accounting detail, accounting
    summary, financial.  With a token in the stem the table name given by
    the caller has no effect on the import; it is the destination only
    when the stem has none of the tokens.  No table other than the
    destination is changed. *)
Theorem destino_by_filename_token (file_path : string) :
  (forall u, contains u (path_stem file_path) = true ->
             forall tok, Text.map py_lower u = tok -> has_token tok file_path = true)
  /\ (forall table_name,
         has_token "ctbr100" file_path = true ->
         destino file_path table_name = TABLE_ADIANTAMENTO)
  /\ (forall table_name,
         has_token "ctbr100" file_path = false ->
         has_token "ctbr140" file_path = true ->
         destino file_path table_name = TABLE_CONTAS_ITENS)
  /\ (forall table_name,
         has_token "ctbr100" file_path = false ->
         has_token "ctbr140" file_path = false ->
         has_token "ctbr040" file_path = true ->
         destino file_path table_name = TABLE_MODELO1)
  /\ (forall table_name,
         has_token "ctbr100" file_path = false ->
         has_token "ctbr140" file_path = false ->
         has_token "ctbr040" file_path = false ->
         has_token "finr150" file_path = true ->
         destino file_path table_name = TABLE_FINANCEIRO)
  /\ (forall table_name,
         has_token "ctbr100" file_path = false ->
         has_token "ctbr140" file_path = false ->
         has_token "ctbr040" file_path = false ->
         has_token "finr150" file_path = false ->
         destino file_path table_name = table_name)
  /\ (forall t1 t2 db,
         has_token "ctbr100" file_path || has_token "ctbr140" file_path
         || has_token "ctbr040" file_path || has_token "finr150" file_path = true ->
         import_from_excel load_frame file_path t1 db
         = import_from_excel load_frame file_path t2 db)
  /\ (forall table_name db t',
         t' <> destino file_path table_name ->
         fst (import_from_excel load_frame file_path table_name db) !! t' = db !! t').
Proof.
  unfold has_token, destino.
  repeat match goal with |- _ /\ _ => split end.
  - intros u Hu tok <-. now apply contains_map.
  - intros t ->. reflexivity.
  - intros t -> ->. reflexivity.
  - intros t -> -> ->. reflexivity.
  - intros t -> -> -> ->. reflexivity.
  - intros t -> -> -> ->. reflexivity.
  - intros t1 t2 db H.
    assert (E : destino file_path t1 = destino file_path t2).
    { unfold destino.
      destruct (contains "ctbr100" _); [reflexivity|].
      destruct (contains "ctbr140" _); [reflexivity|].
      destruct (contains "ctbr040" _); [reflexivity|].
      destruct (contains "finr150" _); [reflexivity | discriminate]. }
    unfold import_from_excel. fold (destino file_path t1) (destino file_path t2).
    now rewrite E.
  - intros table_name db t' Hne.
    fold (destino file_path table_name) in Hne.
    destruct (load_frame file_path (destino file_path table_name)) as [df|e] eqn:Hload.
    + rewrite (import_from_excel_ok _ _ db df Hload). cbn [fst].
      apply lookup_insert_ne. congruence.
    + now rewrite (import_from_excel_fail _ _ db e Hload).
Qed.

End ImportClaims.



(** C10, at a file name with the token in capitals and another table asked for. *)
Lemma destino_witness :
  Importacao.has_token "ctbr100" "/dados/CTBR100_jan.xlsx" = true
  /\ Importacao.destino "/dados/CTBR100_jan.xlsx" "financeiro" = "adiantamento".
Proof.
  split; [reflexivity|].
  apply (proj1 (proj2 (destino_by_filename_token Exemplos.load_exemplo
                         "/dados/CTBR100_jan.xlsx"))).
  reflexivity.
Defined.

(* ================================================================== *)
(** * The run of [process_data] *)
(* ================================================================== *)

Module ProcessoFacts.
Import Sql Store Conciliacao Processo.

Section Inversion.
Variable faults : call -> bool.

Lemma bindM_ok {A B} (m : M A) (k : A -> M B) conn conn' b :
  bindM m k conn = (conn', Ok b) ->
  exists conn1 a, m conn = (conn1, Ok a) /\ k a conn1 = (conn', Ok b).
Proof.
  unfold bindM. destruct (m conn) as [conn1 [a|e]]; [|discriminate].
  intros H. now exists conn1, a.
Qed.

Lemma execute_ok c stmt conn conn' u :
  execute faults c stmt conn = (conn', Ok u) ->
  faults c = false
  /\ exists db, stmt (store conn) = Ok db
                /\ conn' = {| store := db; snapshot := snapshot conn |}.
Proof.
  unfold execute. destruct (faults c); [discriminate|].
  destruct (stmt (store conn)) as [db|e]; [|discriminate].
  intros [= <- _]. split; [reflexivity|]. now exists db.
Qed.

Lemma execute_total_ok c f conn conn' u :
  execute faults c (total f) conn = (conn', Ok u) ->
  faults c = false /\ conn' = {| store := f (store conn); snapshot := snapshot conn |}.
Proof.
  intros H. apply execute_ok in H as (Hc & db & [= <-] & ->). now split.
Qed.

Lemma rank_ok conn conn' u :
  try_catchM (execute faults UPDATE_ORDEM_IMPORTANCIA (total update_ordem_importancia))
    (fun _ => ret tt) conn = (conn', Ok u) ->
  conn' = {| store := if faults UPDATE_ORDEM_IMPORTANCIA then store conn
                      else update_ordem_importancia (store conn);
             snapshot := snapshot conn |}.
Proof.
  unfold try_catchM, execute, total, ret.
  destruct (faults UPDATE_ORDEM_IMPORTANCIA); intros [= <-]; [now destruct conn | reflexivity].
Qed.

Lemma begin_ok conn conn' u :
  begin_transaction faults conn = (conn', Ok u) ->
  faults BEGIN_TRANSACTION = false /\ snapshot conn = None
  /\ conn' = {| store := store conn; snapshot := Some (store conn) |}.
Proof.
  unfold begin_transaction. destruct (faults BEGIN_TRANSACTION); [discriminate|].
  destruct (snapshot conn); [discriminate|]. intros [= <-]. now repeat split.
Qed.

Lemma commit_ok conn conn' u :
  commit faults conn = (conn', Ok u) ->
  faults COMMIT = false /\ conn' = {| store := store conn; snapshot := None |}.
Proof.
  unfold commit. destruct (faults COMMIT); [discriminate|]. intros [= <-]. now split.
Qed.

Ltac step H :=
  let c1 := fresh "conn" in
  let a := fresh "a" in
  let H1 := fresh "H" in
  apply bindM_ok in H as (c1 & a & H1 & H);
  first
    [ apply execute_total_ok in H1 as [? ->]
    | apply rank_ok in H1 as -> ];
  cbn [store snapshot] in H.

Lemma _process_adiantamentos_ok conn conn' u :
  _process_adiantamentos faults conn = (conn', Ok u) ->
  conn' = {| store := adiantamentos (store conn); snapshot := snapshot conn |}
  /\ faults AD_DELETE_RESULTADO_ADIANTAMENTO = false
  /\ faults AD_PRAGMA_TABLE_INFO = false
  /\ faults AD_UPDATE_FIN_CODIGO = false
  /\ faults AD_UPDATE_FIN_DESCRICAO = false
  /\ faults AD_QUERY_ADIANTAMENTO_FINANCEIRO = false
  /\ faults AD_QUERY_CONTABIL_UPDATE = false
  /\ faults AD_QUERY_CONTABEIS_SEM_MATCH = false
  /\ faults AD_QUERY_DIFERENCA = false
  /\ faults AD_UPDATE_DETALHES = false.
Proof.
  unfold _process_adiantamentos, try_catchM.
  match goal with |- (match ?b conn with _ => _ end) = _ -> _ =>
    destruct (b conn) as [conn1 [a|e]] eqn:H end; [|discriminate].
  intros [= <- _].
  step H. step H.
  apply bindM_ok in H as (cg & existing & Hg & H).
  unfold get_store in Hg. injection Hg as <- <-. cbn [store snapshot] in H.
  apply bindM_ok in H as (ca & ua & Ha & H).
  apply bindM_ok in H as (cb & ub & Hb & H).
  unfold adiantamentos, adiantamentos_antes_diferenca. cbv zeta.
  cbn [has_codigo_fornecedor has_descricao_fornecedor set_resultado_adiantamento] in *.
  destruct (has_codigo_fornecedor (store conn)) eqn:Hcod;
    destruct (has_descricao_fornecedor (store conn)) eqn:Hdesc;
    cbn [negb] in *; unfold ret in *;
    repeat match goal with
      | H : execute faults _ (total _) _ = (_, Ok _) |- _ =>
          apply execute_total_ok in H as [? ->]
      | H : (_, Ok _) = (_, Ok _) |- _ => injection H as <-
      end; cbn [store snapshot] in *;
    repeat (step H);
    apply execute_total_ok in H as [? ->]; cbn [store snapshot];
    repeat split; assumption || reflexivity.
Qed.

Lemma process_data_inv conn conn' b :
  process_data faults conn = (conn', Ok b) ->
  b = true /\ snapshot conn = None /\ snapshot conn' = None
  /\ (forall c, always_reached c = true -> faults c = false)
  /\ exists db0,
       antes_diferenca (store conn) = Ok db0
       /\ store conn'
          = adiantamentos
              (apos_diferenca (faults UPDATE_ORDEM_IMPORTANCIA) (query_diferenca db0)).
Proof.
  unfold process_data, try_catchM.
  match goal with |- (match ?m conn with _ => _ end) = _ -> _ =>
    destruct (m conn) as [conn1 [a|e]] eqn:H end; [|discriminate].
  intros [= <- <-].
  apply bindM_ok in H as (c0 & u0 & Hb & H).
  apply begin_ok in Hb as (Fbegin & Hsnap & ->).
  step H. step H.
  apply bindM_ok in H as (c1 & u1 & Hq & H).
  apply execute_ok in Hq as (Fcons & db0 & Hdb0 & ->). cbn [store snapshot] in *.
  repeat (step H).
  apply bindM_ok in H as (c2 & u2 & Had & H).
  apply _process_adiantamentos_ok in Had
    as (-> & F1 & F2 & F3 & F4 & F5 & F6 & F7 & F8 & F9).
  cbn [store snapshot] in H.
  apply bindM_ok in H as (c3 & u3 & Hc & H).
  apply commit_ok in Hc as (Fcommit & ->).
  unfold ret in H. injection H as <- <-. cbn [store snapshot].
  split; [reflexivity|]. split; [exact Hsnap|]. split; [reflexivity|]. split.
  - intros c Hc. destruct c; try discriminate Hc; assumption.
  - exists (query_contabeis_faltantes (query_adiantamento (query_atualiza_contabil db0))).
    split.
    + unfold antes_diferenca. now rewrite Hdb0.
    + unfold apos_diferenca. cbv zeta.
      destruct (faults UPDATE_ORDEM_IMPORTANCIA); reflexivity.
Qed.

(** What a run gives back: [True], or the exception of the handler. *)
Lemma process_data_outcome conn :
  snd (process_data faults conn) = Ok true
  \/ snd (process_data faults conn) = Raise ExcecaoNaoMapeadaError.
Proof.
  destruct (process_data faults conn) as [conn' [b|e]] eqn:H.
  - left. apply process_data_inv in H as (-> & _). reflexivity.
  - right. cbn [snd]. revert H. unfold process_data, try_catchM.
    match goal with |- (match ?m conn with _ => _ end) = _ -> _ =>
      destruct (m conn) as [conn1 [a|e1]] end; [discriminate|].
    unfold bindM, rollback, raiseM. now intros [= _ <-].
Qed.

Lemma keeps_bindM {A B} (m : M A) (k : A -> M B) :
  keeps_snapshot m -> (forall a, keeps_snapshot (k a)) -> keeps_snapshot (bindM m k).
Proof.
  intros Hm Hk conn. unfold bindM. specialize (Hm conn).
  destruct (m conn) as [conn1 [a|e]]; cbn [fst] in *; [|exact Hm].
  now rewrite Hk.
Qed.

Lemma keeps_try_catchM {A} (m : M A) (h : exn -> M A) :
  keeps_snapshot m -> (forall e, keeps_snapshot (h e)) -> keeps_snapshot (try_catchM m h).
Proof.
  intros Hm Hh conn. unfold try_catchM. specialize (Hm conn).
  destruct (m conn) as [conn1 [a|e]]; cbn [fst] in *; [exact Hm|].
  now rewrite Hh.
Qed.

Lemma keeps_execute c stmt : keeps_snapshot (execute faults c stmt).
Proof.
  intros conn. unfold execute. destruct (faults c); [reflexivity|].
  now destruct (stmt (store conn)).
Qed.

Lemma keeps_ret {A} (a : A) : keeps_snapshot (ret a).
Proof. now intros conn. Qed.

Lemma keeps_raiseM {A} e : keeps_snapshot (@raiseM A e).
Proof. now intros conn. Qed.

Lemma keeps_get_store : keeps_snapshot get_store.
Proof. now intros conn. Qed.

Lemma keeps_process_adiantamentos : keeps_snapshot (_process_adiantamentos faults).
Proof.
  unfold _process_adiantamentos.
  apply keeps_try_catchM; [|intros e; apply keeps_raiseM].
  repeat first
    [ apply keeps_execute
    | apply keeps_get_store
    | apply keeps_ret
    | apply keeps_bindM; [|intros ?]
    | match goal with |- keeps_snapshot (if ?b then _ else _) => destruct b end ].
Qed.

Lemma on_raise_of_keeps {A} (m : M A) : keeps_snapshot m -> keeps_snapshot_on_raise m.
Proof. intros H conn conn' e Hm. specialize (H conn). now rewrite Hm in H. Qed.

Lemma on_raise_bindM {A B} (m : M A) (k : A -> M B) :
  keeps_snapshot m -> (forall a, keeps_snapshot_on_raise (k a)) ->
  keeps_snapshot_on_raise (bindM m k).
Proof.
  intros Hm Hk conn conn' e. unfold bindM. specialize (Hm conn).
  destruct (m conn) as [conn1 [a|e1]]; cbn [fst] in Hm.
  - intros H. apply Hk in H. congruence.
  - intros [= <- _]. exact Hm.
Qed.

Lemma on_raise_commit : keeps_snapshot_on_raise (bindM (commit faults) (fun _ => ret true)).
Proof.
  intros conn conn' e. unfold bindM, commit, ret.
  destruct (faults COMMIT); [|discriminate]. now intros [= <- _].
Qed.

(** A run that raises leaves the database as it was at [BEGIN]. *)
Lemma process_data_rollback conn conn' e :
  snapshot conn = None ->
  process_data faults conn = (conn', Raise e) ->
  e = ExcecaoNaoMapeadaError /\ store conn' = store conn /\ snapshot conn' = None.
Proof.
  intros Hsnap. unfold process_data, try_catchM.
  match goal with |- (match ?m conn with _ => _ end) = _ -> _ =>
    destruct (m conn) as [conn1 [a|e1]] eqn:H end; [discriminate|].
  unfold bindM at 1, rollback, raiseM. intros [= <- <-]. cbn [store snapshot].
  split; [reflexivity|]. split; [|reflexivity].
  revert H. unfold bindM at 1, begin_transaction. rewrite Hsnap.
  destruct (faults BEGIN_TRANSACTION).
  - intros [= <- _]. now rewrite Hsnap.
  - intros H.
    match type of H with ?m ?c = _ =>
      assert (Hk : keeps_snapshot_on_raise m)
    end.
    { repeat (apply on_raise_bindM;
              [ first [ apply keeps_execute
                      | apply keeps_process_adiantamentos
                      | apply keeps_try_catchM;
                        [apply keeps_execute | intros ?; apply keeps_ret] ]
              | intros ? ]).
      apply on_raise_commit. }
    apply Hk in H. cbn [snapshot] in H. now rewrite H.
Qed.

End Inversion.
End ProcessoFacts.

(* ================================================================== *)
(** * The rows of the result tables *)
(* ================================================================== *)

Module ResultadoFacts.
Import Sql Store Conciliacao Processo ProcessoFacts.



Lemma core_query_investigacao db :
  List.map core (resultado (query_investigacao db)) = List.map core (resultado db).
Proof.
  unfold query_investigacao. cbn [resultado set_resultado]. rewrite List.map_map.
  apply List.map_ext. intros r. unfold investigacao_row.
  now destruct (status_eqb (res_status r) Divergente).
Qed.

Lemma core_update_divergentes_sem_itens db :
  List.map core (resultado (update_divergentes_sem_itens db)) = List.map core (resultado db).
Proof.
  unfold update_divergentes_sem_itens. cbn [resultado set_resultado]. rewrite List.map_map.
  apply List.map_ext. intros r. unfold divergentes_sem_itens_row.
  now destruct (status_eqb (res_status r) Divergente && sem_detalhes (res_detalhes r)).
Qed.

Lemma core_update_ordem_importancia db :
  List.map core (resultado (update_ordem_importancia db)) = List.map core (resultado db).
Proof.
  unfold update_ordem_importancia. cbn [resultado set_resultado]. rewrite List.map_map.
  now apply List.map_ext.
Qed.

Lemma core_update_detalhes_nao_divergentes db :
  List.map core (resultado (update_detalhes_nao_divergentes db))
  = List.map core (resultado db).
Proof.
  unfold update_detalhes_nao_divergentes. cbn [resultado set_resultado]. rewrite List.map_map.
  apply List.map_ext. intros r. unfold detalhes_nao_divergentes_row.
  now destruct (sem_detalhes (res_detalhes r)).
Qed.

Lemma core_apos_diferenca b db :
  List.map core (resultado (apos_diferenca b db)) = List.map core (resultado db).
Proof.
  unfold apos_diferenca. cbv zeta. rewrite core_update_detalhes_nao_divergentes.
  destruct b; [|rewrite core_update_ordem_importancia];
    now rewrite core_update_divergentes_sem_itens, core_query_investigacao.
Qed.

Lemma resultado_adiantamentos db : resultado (adiantamentos db) = resultado db.
Proof.
  unfold adiantamentos, adiantamentos_antes_diferenca. cbv zeta.
  cbn [has_codigo_fornecedor has_descricao_fornecedor set_resultado_adiantamento].
  destruct (has_codigo_fornecedor db), (has_descricao_fornecedor db); reflexivity.
Qed.

(** Every group of a finished run carries the status and the difference
    that [query_diferenca] computes from its two totals. *)
Lemma resultado_final faults conn conn' r :
  process_data faults conn = (conn', Ok true) ->
  In r (resultado (store conn')) ->
  res_status r = classifica (res_saldo_contabil r) (res_saldo_financeiro r)
  /\ res_diferenca r
     = Some (round2 (coalesce0 (res_saldo_contabil r)
                     - coalesce0 (res_saldo_financeiro r))).
Proof.
  intros Hrun Hin.
  apply process_data_inv in Hrun as (_ & _ & _ & _ & db0 & _ & Hstore).
  rewrite Hstore, resultado_adiantamentos in Hin.
  apply (List.in_map core) in Hin. rewrite core_apos_diferenca in Hin.
  apply List.in_map_iff in Hin as (r0 & Hcore & Hin0).
  unfold query_diferenca in Hin0. cbn [resultado set_resultado] in Hin0.
  apply List.in_map_iff in Hin0 as (r1 & <- & _).
  unfold core in Hcore. cbn in Hcore.
  injection Hcore as _ _ Hc Hf Hd Hs.
  rewrite <- Hs, <- Hd, <- Hc, <- Hf. now split.
Qed.

End ResultadoFacts.

Module RankFacts.
Import Sql Store Conciliacao Processo ProcessoFacts ResultadoFacts.

Lemma length_filter_map {A B} (p : B -> bool) (h : A -> B) (l : list A) :
  List.length (List.filter p (List.map h l))
  = List.length (List.filter (fun x => p (h x)) l).
Proof.
  induction l as [|x l IH]; [reflexivity|].
  cbn [List.map List.filter]. destruct (p (h x)); cbn [List.length]; now rewrite IH.
Qed.

Lemma length_filter_le {A} (p q : A -> bool) (l : list A) :
  (forall x, p x = true -> q x = true) ->
  (List.length (List.filter p l) <= List.length (List.filter q l))%nat.
Proof.
  intros Hpq. induction l as [|x l IH]; [reflexivity|].
  cbn [List.filter]. destruct (p x) eqn:Hp.
  - rewrite (Hpq x Hp). cbn [List.length]. lia.
  - destruct (q x); cbn [List.length]; lia.
Qed.

Lemma length_filter_pos {A} (p : A -> bool) (l : list A) x :
  In x l -> p x = true -> (1 <= List.length (List.filter p l))%nat.
Proof.
  induction l as [|y l IH]; [contradiction|].
  intros [->|Hin] Hp; cbn [List.filter].
  - rewrite Hp. cbn [List.length]. lia.
  - specialize (IH Hin Hp). destruct (p y); cbn [List.length]; lia.
Qed.

(** The count depends on the table and on the group through the
    absolute differences only. *)
Lemma conta_maiores_map (h : resultado_row -> resultado_row) t r r' :
  (forall x, abs_diferenca (h x) = abs_diferenca x) ->
  abs_diferenca r' = abs_diferenca r ->
  conta_maiores (List.map h t) r' = conta_maiores t r.
Proof.
  intros Hh Hr. unfold conta_maiores. rewrite length_filter_map.
  f_equal. apply List.filter_ext. intros x. now rewrite Hh, Hr.
Qed.

Lemma conta_maiores_monotone t r1 r2 :
  (abs_diferenca r2 < abs_diferenca r1)%Q ->
  (conta_maiores t r1 <= conta_maiores t r2)%nat.
Proof.
  intros Hlt. unfold conta_maiores. apply length_filter_le.
  intros x Hx. apply Qle_bool_iff in Hx. apply Qle_bool_iff.
  apply Qlt_le_weak. now apply (Qlt_le_trans _ (abs_diferenca r1)).
Qed.

Lemma conta_maiores_self t r : In r t -> (1 <= conta_maiores t r)%nat.
Proof.
  intros Hin. unfold conta_maiores. apply (length_filter_pos _ _ r Hin).
  apply Qle_bool_iff. apply Qle_refl.
Qed.

(** Before the ranking update no group has a rank. *)
Lemma antes_diferenca_sem_ordem db db0 :
  antes_diferenca db = Ok db0 -> List.Forall sem_ordem (resultado db0).
Proof.
  unfold antes_diferenca, bind, query_consolidada.
  cbn [has_codigo_fornecedor has_descricao_fornecedor set_resultado
       set_resultado_adiantamento resultado financeiro].
  destruct (has_codigo_fornecedor db && has_descricao_fornecedor db); [|discriminate].
  intros [= <-].
  unfold query_contabeis_faltantes. cbn [resultado set_resultado].
  apply List.Forall_app. split.
  - unfold query_adiantamento. cbn [resultado set_resultado].
    apply List.Forall_map, List.Forall_forall. intros r Hr.
    unfold query_atualiza_contabil in Hr. cbn [resultado set_resultado] in Hr.
    apply List.in_map_iff in Hr as (r0 & <- & Hr0).
    cbn [List.app] in Hr0. apply List.in_map_iff in Hr0 as (k & <- & _).
    unfold sem_ordem.
    repeat match goal with |- context [if ?b then _ else _] => destruct b end;
      reflexivity.
  - apply List.Forall_map, List.Forall_forall. intros k _. reflexivity.
Qed.

Lemma sem_ordem_preserved (h : resultado_row -> resultado_row) t :
  (forall r, res_ordem_importancia (h r) = res_ordem_importancia r) ->
  List.Forall sem_ordem t -> List.Forall sem_ordem (List.map h t).
Proof.
  intros Hh Ht. apply List.Forall_map. eapply List.Forall_impl; [|exact Ht].
  intros r Hr. unfold sem_ordem. now rewrite Hh.
Qed.

Lemma abs_diferenca_core r r' : core r = core r' -> abs_diferenca r = abs_diferenca r'.
Proof. unfold core, abs_diferenca. now intros [= _ _ _ _ -> _]. Qed.

Lemma detalhes_nao_divergentes_row_frame r :
  abs_diferenca (detalhes_nao_divergentes_row r) = abs_diferenca r
  /\ res_ordem_importancia (detalhes_nao_divergentes_row r) = res_ordem_importancia r.
Proof. unfold detalhes_nao_divergentes_row. now destruct (sem_detalhes (res_detalhes r)). Qed.

(** The table a finished run leaves, from the table the ranking update read. *)
Lemma resultado_apos_diferenca b db :
  let t := resultado (update_divergentes_sem_itens (query_investigacao db)) in
  resultado (apos_diferenca b db)
  = List.map detalhes_nao_divergentes_row
      (if b then t
       else List.map (fun r => set_res_ordem_importancia r (Some (conta_maiores t r))) t).
Proof. now destruct b. Qed.

End RankFacts.

(* ================================================================== *)
(** * Claims about the classification and the ranking *)
(* ================================================================== *)

Section ClassificationClaims.
Import Sql Store Conciliacao Processo ProcessoFacts ResultadoFacts RankFacts.



(** C6. After a run of [process_data] in which the ranking update did
    not fail, the rank of every group of the vendor result table is the
    number of groups of the table, itself included, whose absolute
    difference is at least its own (when the update failed, no group has
    a rank); so a group with a strictly larger absolute difference never
    has a larger rank. *)
Theorem importance_rank_counts (faults : call -> bool) (conn conn' : connection) :
  process_data faults conn = (conn', Ok true) ->
  let t := resultado (store conn') in
  (forall r, In r t ->
     res_ordem_importancia r
     = if faults UPDATE_ORDEM_IMPORTANCIA then None
       else Some (List.length
                    (List.filter
                       (fun r2 => Qle_bool (Qabs (coalesce0 (res_diferenca r)))
                                    (Qabs (coalesce0 (res_diferenca r2))))
                       t)))
  /\ (forall r, In r t -> faults UPDATE_ORDEM_IMPORTANCIA = false ->
        exists n, res_ordem_importancia r = Some n /\ (1 <= n)%nat)
  /\ (forall r1 r2 n1 n2, In r1 t -> In r2 t ->
        res_ordem_importancia r1 = Some n1 -> res_ordem_importancia r2 = Some n2 ->
        (Qabs (coalesce0 (res_diferenca r2)) < Qabs (coalesce0 (res_diferenca r1)))%Q ->
        (n1 <= n2)%nat).
Proof.
  intros Hrun. cbv zeta.
  apply process_data_inv in Hrun as (_ & _ & _ & _ & db0 & Hdb0 & Hstore).
  rewrite Hstore, resultado_adiantamentos, resultado_apos_diferenca. cbv zeta.
  set (t0 := resultado (update_divergentes_sem_itens (query_investigacao (query_diferenca db0)))).
  assert (Hkey : forall r, In r (List.map detalhes_nao_divergentes_row
                  (if faults UPDATE_ORDEM_IMPORTANCIA then t0
                   else List.map (fun r => set_res_ordem_importancia r
                                              (Some (conta_maiores t0 r))) t0)) ->
     res_ordem_importancia r
     = if faults UPDATE_ORDEM_IMPORTANCIA then None
       else Some (conta_maiores
                    (List.map detalhes_nao_divergentes_row
                       (List.map (fun r => set_res_ordem_importancia r
                                              (Some (conta_maiores t0 r))) t0)) r)).
  { intros r Hin. destruct (faults UPDATE_ORDEM_IMPORTANCIA).
    - assert (Hall : List.Forall sem_ordem (List.map detalhes_nao_divergentes_row t0)).
      { apply sem_ordem_preserved;
          [intros; apply detalhes_nao_divergentes_row_frame|].
        unfold t0, update_divergentes_sem_itens, query_investigacao, query_diferenca.
        cbn [resultado set_resultado].
        apply sem_ordem_preserved.
        { intros x. unfold divergentes_sem_itens_row.
          now destruct (status_eqb (res_status x) Divergente && sem_detalhes (res_detalhes x)). }
        apply sem_ordem_preserved.
        { intros x. unfold investigacao_row.
          now destruct (status_eqb (res_status x) Divergente). }
        apply sem_ordem_preserved; [reflexivity|].
        now apply (antes_diferenca_sem_ordem (store conn)). }
      rewrite List.Forall_forall in Hall. now apply Hall.
    - rewrite List.map_map in Hin. apply List.in_map_iff in Hin as (r0 & <- & Hin0).
      rewrite (proj2 (detalhes_nao_divergentes_row_frame _)).
      cbn [res_ordem_importancia set_res_ordem_importancia]. f_equal.
      rewrite List.map_map. symmetry. apply conta_maiores_map.
      + intros x. now rewrite (proj1 (detalhes_nao_divergentes_row_frame _)).
      + now rewrite (proj1 (detalhes_nao_divergentes_row_frame _)). }
  split; [|split].
  - intros r Hin. rewrite (Hkey r Hin).
    destruct (faults UPDATE_ORDEM_IMPORTANCIA); reflexivity.
  - intros r Hin Hf. rewrite (Hkey r Hin). rewrite Hf in *.
    eexists. split; [reflexivity|]. now apply conta_maiores_self.
  - intros r1 r2 n1 n2 Hin1 Hin2 H1 H2 Hlt.
    rewrite (Hkey r1 Hin1) in H1. rewrite (Hkey r2 Hin2) in H2.
    destruct (faults UPDATE_ORDEM_IMPORTANCIA); [discriminate|].
    injection H1 as <-. injection H2 as <-.
    now apply conta_maiores_monotone.
Qed.

End ClassificationClaims.



(** C6, at a table of two groups with the differences 200.00 and 50.00. *)
Lemma importance_rank_witness :
  List.map Store.res_ordem_importancia
    (Store.resultado (Processo.store (Exemplos.conn_final 1200)))
  = [Some 1%nat; Some 2%nat]
  /\ exists n, Store.res_ordem_importancia
                 (hd Exemplos.resultado_row_default
                    (Store.resultado (Processo.store (Exemplos.conn_final 1200))))
               = Some n /\ (1 <= n)%nat.
Proof.
  split; [vm_compute; reflexivity|].
  refine (proj1 (proj2 (importance_rank_counts Processo.no_faults
                          (Exemplos.conn_conciliacao 1200) (Exemplos.conn_final 1200) _))
            _ _ _).
  - vm_compute. reflexivity.
  - vm_compute. left. reflexivity.
  - reflexivity.
Defined.

(* ================================================================== *)
(** * Claims about the transaction and the annotation *)
(* ================================================================== *)

Module TransactionFacts.
Import Sql Store Conciliacao Processo ProcessoFacts.

(** A run whose calls all succeed, the ranking update apart, commits. *)
Lemma process_data_completes (faults : call -> bool) conn :
  snapshot conn = None ->
  (forall c, always_reached c = true -> faults c = false) ->
  has_codigo_fornecedor (store conn) && has_descricao_fornecedor (store conn) = true ->
  snd (process_data faults conn) = Ok true.
Proof.
  intros Hsnap Hf Hcols.
  pose proof (Hf BEGIN_TRANSACTION eq_refl) as F0.
  pose proof (Hf DELETE_RESULTADO eq_refl) as F1.
  pose proof (Hf DELETE_RESULTADO_ADIANTAMENTO eq_refl) as F2.
  pose proof (Hf QUERY_CONSOLIDADA eq_refl) as F3.
  pose proof (Hf QUERY_ATUALIZA_CONTABIL eq_refl) as F4.
  pose proof (Hf QUERY_ADIANTAMENTO eq_refl) as F5.
  pose proof (Hf QUERY_CONTABEIS_FALTANTES eq_refl) as F6.
  pose proof (Hf QUERY_DIFERENCA eq_refl) as F7.
  pose proof (Hf QUERY_INVESTIGACAO eq_refl) as F8.
  pose proof (Hf UPDATE_DIVERGENTES_SEM_ITENS eq_refl) as F9.
  pose proof (Hf UPDATE_DETALHES_NAO_DIVERGENTES eq_refl) as F10.
  pose proof (Hf AD_DELETE_RESULTADO_ADIANTAMENTO eq_refl) as F11.
  pose proof (Hf AD_PRAGMA_TABLE_INFO eq_refl) as F12.
  pose proof (Hf AD_UPDATE_FIN_CODIGO eq_refl) as F13.
  pose proof (Hf AD_UPDATE_FIN_DESCRICAO eq_refl) as F14.
  pose proof (Hf AD_QUERY_ADIANTAMENTO_FINANCEIRO eq_refl) as F15.
  pose proof (Hf AD_QUERY_CONTABIL_UPDATE eq_refl) as F16.
  pose proof (Hf AD_QUERY_CONTABEIS_SEM_MATCH eq_refl) as F17.
  pose proof (Hf AD_QUERY_DIFERENCA eq_refl) as F18.
  pose proof (Hf AD_UPDATE_DETALHES eq_refl) as F19.
  pose proof (Hf COMMIT eq_refl) as F20.
  apply andb_true_iff in Hcols as [Hcod Hdesc].
  unfold process_data, _process_adiantamentos, try_catchM, bindM, begin_transaction,
    commit, execute, total, get_store, ret, raiseM, query_consolidada.
  rewrite F0, Hsnap, F1, F2, F3. cbn [store snapshot].
  cbn [has_codigo_fornecedor has_descricao_fornecedor set_resultado
       set_resultado_adiantamento].
  rewrite Hcod, Hdesc. cbn [andb].
  rewrite F4, F5, F6, F7, F8, F9. cbn [store snapshot].
  destruct (faults UPDATE_ORDEM_IMPORTANCIA); cbn [store snapshot];
    rewrite F10, F11, F12; cbn [store snapshot];
    cbn [has_codigo_fornecedor has_descricao_fornecedor set_resultado
         set_resultado_adiantamento update_detalhes_nao_divergentes
         update_ordem_importancia update_divergentes_sem_itens query_investigacao
         query_diferenca query_contabeis_faltantes query_adiantamento
         query_atualiza_contabil];
    rewrite Hcod, Hdesc; cbn [negb];
    rewrite F13, F14, F15, F16, F17, F18, F19; cbn [store snapshot];
    rewrite F20; reflexivity.
Qed.









End TransactionFacts.

Section TransactionClaims.
Import Sql Store Conciliacao Processo ProcessoFacts ResultadoFacts TransactionFacts.

(** C8, as stated, fails: when the ranking update raises, the exception
    is caught inside [process_data]; the run goes on, commits the two
    result tables (without ranks) and returns [True]. *)
Lemma ranking_exception_counterexample :
  only UPDATE_ORDEM_IMPORTANCIA UPDATE_ORDEM_IMPORTANCIA = true
  /\ snd (process_data (only UPDATE_ORDEM_IMPORTANCIA) (Exemplos.conn_conciliacao 1200))
     = Ok true
  /\ resultado (store (Exemplos.conn_conciliacao 1200)) = []
  /\ List.map (fun r => (res_codigo_fornecedor r, res_status r, res_ordem_importancia r))
       (resultado
          (store (fst (process_data (only UPDATE_ORDEM_IMPORTANCIA)
                         (Exemplos.conn_conciliacao 1200)))))
     = [(Some "1001", Divergente, None); (Some "2002", Divergente, None)].
Proof. repeat split; vm_compute; reflexivity. Qed.

(** C8 (amended). A run of [process_data] that starts with no open
    transaction returns [True] or raises [ExcecaoNaoMapeadaError], and
    leaves no transaction open.  When it raises, the database is the one
    the run started from: neither result table has a row of the failed
    run.  It raises whenever a call that every run reaches, other than
    the ranking update, fails, and whenever [financeiro] lacks one of the
    vendor columns the first query names.  When none of this happens it
    returns [True], whether or not the ranking update failed. *)
Theorem process_data_transaction (faults : call -> bool) (conn : connection) :
  snapshot conn = None ->
  let run := process_data faults conn in
  (snd run = Ok true \/ snd run = Raise ExcecaoNaoMapeadaError)
  /\ snapshot (fst run) = None
  /\ (snd run = Raise ExcecaoNaoMapeadaError -> store (fst run) = store conn)
  /\ (forall c, always_reached c = true -> faults c = true ->
        snd run = Raise ExcecaoNaoMapeadaError)
  /\ (has_codigo_fornecedor (store conn) && has_descricao_fornecedor (store conn) = false ->
      snd run = Raise ExcecaoNaoMapeadaError)
  /\ ((forall c, always_reached c = true -> faults c = false) ->
      has_codigo_fornecedor (store conn) && has_descricao_fornecedor (store conn) = true ->
      snd run = Ok true).
Proof.
  intros Hsnap. cbv zeta.
  pose proof (process_data_outcome faults conn) as Hout.
  destruct (process_data faults conn) as [conn' [b|e]] eqn:Hrun; cbn [fst snd] in *.
  - destruct Hout as [[= ->]|[=]].
    pose proof (process_data_inv faults _ _ _ Hrun)
      as (_ & _ & Hs' & Hf & db0 & Hdb0 & _).
    split; [now left|]. split; [exact Hs'|]. split; [discriminate|].
    split; [|split].
    + intros c Hc Hfc. rewrite (Hf c Hc) in Hfc. discriminate.
    + intros Hcols. exfalso. revert Hdb0.
      unfold antes_diferenca, bind, query_consolidada.
      cbn [has_codigo_fornecedor has_descricao_fornecedor set_resultado
           set_resultado_adiantamento].
      rewrite Hcols. discriminate.
    + reflexivity.
  - destruct (process_data_rollback faults _ _ _ Hsnap Hrun) as (-> & Hstore & Hs').
    split; [now right|]. split; [exact Hs'|]. split; [intros _; exact Hstore|].
    split; [reflexivity|]. split; [reflexivity|].
    intros Hf Hcols.
    pose proof (process_data_completes faults conn Hsnap Hf Hcols) as H.
    rewrite Hrun in H. exact H.
Qed.



(** C3 fails on the code.  The join of [query_atualiza_contabil] removes
    every "AF" and every "F" of the two codes, so the accounting line of
    the vendor 1F23 joins the group of the vendor 123 and its 500.00 are
    added to that group, while the import-time cleaning removes a leading
    prefix only and keeps 1F23 as it is; the residual insert, which
    compares the codes as they are, then counts the same line again in a
    group of its own. *)
Lemma norm_codigo_removes_inner_letters :
  norm_codigo (Some "1F23") = Some "123"
  /\ Cleaner.clean_codigo_fornecedor "1F23" = "1F23"
  /\ Cleaner.clean_codigo_fornecedor " AF123 " = "123"
  /\ snd (process_data no_faults Exemplos.conn_join) = Ok true
  /\ List.map (fun r => (res_codigo_fornecedor r, res_saldo_financeiro r,
                         res_saldo_contabil r))
       (resultado (store (fst (process_data no_faults Exemplos.conn_join))))
     = [(Some "123", Some 100%Q, Some 500%Q); (Some "1F23", Some 0%Q, Some 500%Q)].
Proof. repeat split; vm_compute; reflexivity. Qed.

End TransactionClaims.

(** C8 (amended), at a run whose [query_diferenca] fails. *)
Lemma process_data_transaction_witness :
  snd (Processo.process_data (Processo.only Processo.QUERY_DIFERENCA)
         (Exemplos.conn_conciliacao 1200))
  = Raise ExcecaoNaoMapeadaError
  /\ Processo.store
       (fst (Processo.process_data (Processo.only Processo.QUERY_DIFERENCA)
               (Exemplos.conn_conciliacao 1200)))
     = Processo.store (Exemplos.conn_conciliacao 1200).
Proof.
  pose proof (process_data_transaction (Processo.only Processo.QUERY_DIFERENCA)
                (Exemplos.conn_conciliacao 1200) eq_refl) as H.
  cbv zeta in H. destruct H as (_ & _ & Hroll & Hraise & _).
  split.
  - apply (Hraise Processo.QUERY_DIFERENCA); reflexivity.
  - apply Hroll. apply (Hraise Processo.QUERY_DIFERENCA); reflexivity.
Defined.


(* ================================================================== *)
(** * Groups and their totals *)
(* ================================================================== *)

Module GruposFacts.
Import Sql Store Conciliacao Processo ProcessoFacts ResultadoFacts.

Lemma key_eqb_eq a b : key_eqb a b = true <-> a = b.
Proof.
  destruct a as [a1 a2], b as [b1 b2]. unfold key_eqb. cbn [fst snd].
  rewrite andb_true_iff.
  assert (H : forall x y : option string,
             match x, y with
             | Some s, Some t => String.eqb s t
             | None, None => true
             | _, _ => false
             end = true <-> x = y).
  { intros [s|] [t|]; split; try congruence; try reflexivity.
    - intros E. apply String.eqb_eq in E. now subst.
    - intros [= ->]. apply String.eqb_refl. }
  rewrite !H. split; [intros [-> ->]; reflexivity | intros [= -> ->]; now split].
Qed.

Lemma key_eqb_refl a : key_eqb a a = true.
Proof. now apply key_eqb_eq. Qed.

Lemma in_group_keys k ks : In k (group_keys ks) <-> In k ks.
Proof.
  induction ks as [|k0 ks IH]; [reflexivity|].
  cbn [group_keys]. split.
  - intros [<-|H]; [now left|].
    apply List.filter_In in H as [H _]. right. now apply IH.
  - intros [<-|H]; [now left|].
    destruct (key_eqb k0 k) eqn:E.
    + apply key_eqb_eq in E. now left.
    + right. apply List.filter_In. split; [now apply IH | now rewrite E].
Qed.






(** [SUM] of a column without [NULL]s. *)
Lemma SUM_some {A : Type} (v : A -> Q) (l : list A) :
  l <> [] -> SUM (List.map (fun x => Some (v x)) l) = Some (Qsum (List.map v l)).
Proof.
  intros Hne. unfold SUM.
  assert (H : non_null (List.map (fun x => Some (v x)) l) = List.map v l).
  { unfold non_null. induction l as [|x l IH]; [reflexivity|].
    cbn [List.map List.flat_map List.app]. f_equal.
    destruct l as [|y l]; [reflexivity|]. apply IH. discriminate. }
  rewrite H. destruct l; [contradiction | reflexivity].
Qed.

Lemma SUM_empty : SUM [] = None.
Proof. reflexivity. Qed.

Lemma group_nonempty {A : Type} (key : A -> option string * option string)
  (rows : list A) k :
  In k (group_keys (List.map key rows)) ->
  List.filter (fun r => key_eqb k (key r)) rows <> [].
Proof.
  intros Hk. apply in_group_keys, List.in_map_iff in Hk as (r & <- & Hr).
  intros Hempty.
  assert (Hin : In r (List.filter (fun r' => key_eqb (key r) (key r')) rows)).
  { apply List.filter_In. split; [exact Hr | apply key_eqb_refl]. }
  now rewrite Hempty in Hin.
Qed.

End GruposFacts.

(* ================================================================== *)
(** * The totals of a finished run *)
(* ================================================================== *)

Module TotaisFacts.
Import Sql Store Conciliacao Processo ProcessoFacts ResultadoFacts GruposFacts.



(** The vendor groups as [query_diferenca] finds them. *)
Lemma resultado_antes_diferenca db db0 :
  antes_diferenca db = Ok db0 ->
  has_codigo_fornecedor db && has_descricao_fornecedor db = true
  /\ exists h : resultado_row -> resultado_row,
       (forall r, res_saldo_financeiro (h r) = res_saldo_financeiro r)
       /\ (forall r, is_null (res_saldo_contabil r) = false ->
                     is_null (res_saldo_contabil (h r)) = false)
       /\ exists residual : list resultado_row,
            (forall r, In r residual ->
               res_saldo_financeiro r = Some 0%Q
               /\ is_null (res_saldo_contabil r) = false)
            /\ resultado db0
               = List.map h
                   (List.map
                      (fun k =>
                         {| res_codigo_fornecedor := fst k;
                            res_descricao_fornecedor := snd k;
                            res_saldo_contabil := Some 0%Q;
                            res_saldo_financeiro :=
                              SUM (List.map (fun f => Some (coalesce0 (fin_valor_original f)))
                                     (fin_group
                                        (List.filter (fin_selected ["NF"; "FT"]) (financeiro db))
                                        k));
                            res_diferenca := Some 0%Q;
                            res_status := Pendente;
                            res_detalhes := None;
                            res_ordem_importancia := None |})
                      (group_keys
                         (List.map (fun f => (fin_key f, fin_desc f))
                            (List.filter (fin_selected ["NF"; "FT"]) (financeiro db)))))
                 ++ residual.
Proof.
  unfold antes_diferenca, bind, query_consolidada.
  cbn [has_codigo_fornecedor has_descricao_fornecedor set_resultado
       set_resultado_adiantamento resultado financeiro].
  destruct (has_codigo_fornecedor db && has_descricao_fornecedor db); [|discriminate].
  intros [= <-]. split; [reflexivity|].
  unfold query_contabeis_faltantes, query_adiantamento, query_atualiza_contabil.
  cbn [resultado set_resultado contas_itens adiantamento set_resultado_adiantamento
       List.app].
  rewrite List.map_map.
  eexists. split; [|split; [|eexists; split]].
  4: reflexivity.
  - intros r. cbv beta.
    repeat match goal with |- context [if ?b then _ else _] => destruct b end;
      reflexivity.
  - intros r Hr. cbv beta.
    repeat match goal with |- context [if ?b then _ else _] => destruct b end;
      cbn; try exact Hr;
      repeat match goal with |- context [SUM ?l] => destruct (SUM l) end;
      try reflexivity;
      (destruct (res_saldo_contabil r); [reflexivity | discriminate]).
  - intros r Hr. apply List.in_map_iff in Hr as (k & <- & Hk). cbn. split; [reflexivity|].
    rewrite SUM_some; [reflexivity|].
    now apply group_nonempty in Hk.
Qed.

(** The advance groups as [query_diferenca_adiantamento] finds them. *)
Lemma fin_amounts_steps db :
  List.map
    (fun f => (fin_tipo_titulo f, fin_excluido f, fin_valor_original f,
               fin_tit_vencidos_valor_nominal f, fin_titulos_a_vencer_valor_nominal f))
    (financeiro
       (update_fin_descricao
          (update_fin_codigo
             (let db1 := set_resultado_adiantamento db [] in
              let db2 := if negb (has_codigo_fornecedor db1)
                         then alter_add_codigo_fornecedor db1 else db1 in
              if negb (has_descricao_fornecedor db1)
              then alter_add_descricao_fornecedor db2 else db2))))
  = List.map
      (fun f => (fin_tipo_titulo f, fin_excluido f, fin_valor_original f,
                 fin_tit_vencidos_valor_nominal f, fin_titulos_a_vencer_valor_nominal f))
      (financeiro db).
Proof.
  cbv zeta.
  cbn [has_codigo_fornecedor has_descricao_fornecedor set_resultado_adiantamento].
  unfold update_fin_descricao, update_fin_codigo.
  cbn [financeiro set_financeiro].
  destruct (has_codigo_fornecedor db), (has_descricao_fornecedor db); cbn [negb];
    unfold alter_add_codigo_fornecedor, alter_add_descricao_fornecedor;
    cbn [financeiro set_financeiro set_resultado_adiantamento];
    rewrite ?List.map_map; apply List.map_ext; intros f;
    repeat match goal with |- context [if ?b then _ else _] => destruct b end;
    reflexivity.
Qed.

Lemma filter_by_amounts {A B C : Type} (amounts : A -> B) (sel : B -> bool) (v : B -> C)
  (l l' : list A) :
  List.map amounts l = List.map amounts l' ->
  List.map (fun f => v (amounts f)) (List.filter (fun f => sel (amounts f)) l)
  = List.map (fun f => v (amounts f)) (List.filter (fun f => sel (amounts f)) l').
Proof.
  revert l'. induction l as [|x l IH]; intros [|y l'] H; try discriminate; [reflexivity|].
  cbn [List.map] in H. injection H as Hxy Hl.
  cbn [List.filter]. rewrite Hxy.
  destruct (sel (amounts y)); cbn [List.map]; rewrite ?Hxy; now rewrite (IH _ Hl).
Qed.

Lemma resultado_adiantamento_antes_diferenca db :
  exists fin' : list financeiro_row,
    List.map (fun f => coalesce0 (fin_tit_vencidos_valor_nominal f)
                       + coalesce0 (fin_titulos_a_vencer_valor_nominal f))%Q
      (List.filter (fin_selected ["NDF"; "PA"]) fin')
    = List.map (fun f => coalesce0 (fin_tit_vencidos_valor_nominal f)
                         + coalesce0 (fin_titulos_a_vencer_valor_nominal f))%Q
        (List.filter (fin_selected ["NDF"; "PA"]) (financeiro db))
    /\ exists h : resultado_adiantamento_row -> resultado_adiantamento_row,
         (forall r, ra_total_financeiro (h r) = ra_total_financeiro r)
         /\ (forall r, is_null (ra_total_contabil r) = false ->
                       is_null (ra_total_contabil (h r)) = false)
         /\ exists residual : list resultado_adiantamento_row,
              (forall r, In r residual ->
                 ra_total_financeiro r = Some 0%Q
                 /\ is_null (ra_total_contabil r) = false)
              /\ resultado_adiantamento (adiantamentos_antes_diferenca db)
                 = List.map h
                     (List.map
                        (fun k =>
                           {| ra_codigo_fornecedor := fst k;
                              ra_descricao_fornecedor := snd k;
                              ra_total_financeiro :=
                                SUM (List.map
                                       (fun f =>
                                          Some (coalesce0 (fin_tit_vencidos_valor_nominal f)
                                                + coalesce0 (fin_titulos_a_vencer_valor_nominal f))%Q)
                                       (fin_group
                                          (List.filter (fin_selected ["NDF"; "PA"]) fin') k));
                              ra_total_contabil := Some 0%Q;
                              ra_diferenca := Some 0%Q;
                              ra_status := Pendente;
                              ra_detalhes := None |})
                        (group_keys
                           (List.map (fun f => (fin_key f, fin_desc f))
                              (List.filter (fin_selected ["NDF"; "PA"]) fin'))))
                   ++ residual.
Proof.
  pose proof (fin_amounts_steps db) as Hsteps. cbv zeta in Hsteps.
  unfold adiantamentos_antes_diferenca. cbv zeta.
  set (db' := update_fin_descricao (update_fin_codigo _)) in *.
  exists (financeiro db'). split.
  - apply (filter_by_amounts
             (fun f => (fin_tipo_titulo f, fin_excluido f, fin_valor_original f,
                        fin_tit_vencidos_valor_nominal f,
                        fin_titulos_a_vencer_valor_nominal f))
             (fun a => match snd (fst (fst (fst a))) with
                       | Some z => (z =? 0)%Z
                       | None => false
                       end && IN (UPPER (fst (fst (fst (fst a))))) ["NDF"; "PA"])
             (fun a => (coalesce0 (snd (fst a)) + coalesce0 (snd a))%Q)
             _ _ Hsteps).
  - assert (Hra : resultado_adiantamento db' = []).
    { subst db'. unfold update_fin_descricao, update_fin_codigo.
      cbn [resultado_adiantamento set_financeiro has_codigo_fornecedor
           has_descricao_fornecedor set_resultado_adiantamento].
      destruct (has_codigo_fornecedor db), (has_descricao_fornecedor db); reflexivity. }
    clearbody db'.
    unfold query_contabeis_sem_match, query_contabil_update, query_adiantamento_financeiro.
    cbn [resultado_adiantamento set_resultado_adiantamento adiantamento financeiro].
    rewrite Hra. cbn [List.app].
    eexists. split; [|split; [|eexists; split]].
    4: reflexivity.
    + intros r. cbv beta.
      repeat match goal with |- context [if ?b then _ else _] => destruct b end;
        reflexivity.
    + intros r Hr. cbv beta.
      repeat match goal with |- context [if ?b then _ else _] => destruct b end;
        cbn; try exact Hr;
        repeat match goal with |- context [SUM ?l] => destruct (SUM l) end;
        reflexivity.
    + intros r Hr. apply List.in_map_iff in Hr as (k & <- & Hk). cbn. split; [reflexivity|].
      rewrite SUM_some; [reflexivity|].
      now apply group_nonempty in Hk.
Qed.

End TotaisFacts.

(* ================================================================== *)
(** * Properties of the result tables of a finished run *)
(* ================================================================== *)

Section TotalsProperties.
Import Sql Store Conciliacao Processo ProcessoFacts ResultadoFacts GruposFacts TotaisFacts.

(** X1 ([process_data], [_process_adiantamentos]).  Every group that a
    finished run leaves in [resultado] or in [resultado_adiantamento] has
    both of its totals non-null, and its status is 'Conferido' or
    'Divergente': the inserts give 0 to the side they do not compute, so no
    group is left 'Pendente', and the branches of the two classifying
    [CASE]s that test a total for [NULL] are never taken. *)
Theorem no_group_left_pendente (faults : call -> bool) (conn conn' : connection) :
  process_data faults conn = (conn', Ok true) ->
  (forall r, In r (resultado (store conn')) ->
     is_null (res_saldo_contabil r) = false
     /\ is_null (res_saldo_financeiro r) = false
     /\ (res_status r = Conferido \/ res_status r = Divergente))
  /\ (forall r, In r (resultado_adiantamento (store conn')) ->
        is_null (ra_total_contabil r) = false
        /\ is_null (ra_total_financeiro r) = false
        /\ (ra_status r = Conferido \/ ra_status r = Divergente)).
Proof.
  intros Hrun. split.
  - intros r Hin.
    destruct (resultado_final _ _ _ _ Hrun Hin) as [Hst _].
    apply process_data_inv in Hrun as (_ & _ & _ & _ & db0 & Hdb0 & Hstore).
    rewrite Hstore, resultado_adiantamentos in Hin.
    apply (List.in_map core) in Hin. rewrite core_apos_diferenca in Hin.
    apply List.in_map_iff in Hin as (r1 & Hcore & Hin1).
    unfold query_diferenca in Hin1. cbn [resultado set_resultado] in Hin1.
    apply List.in_map_iff in Hin1 as (r0 & <- & Hin0).
    unfold core in Hcore. cbn in Hcore. injection Hcore as _ _ Hc Hf _ _.
    apply resultado_antes_diferenca in Hdb0
      as (_ & h & Hsf & Hsc & residual & Hres & Heq).
    assert (Hnn : is_null (res_saldo_contabil r0) = false
                  /\ is_null (res_saldo_financeiro r0) = false).
    { rewrite Heq in Hin0. apply List.in_app_or in Hin0 as [Hin0|Hin0].
      - apply List.in_map_iff in Hin0 as (x & <- & Hx).
        apply List.in_map_iff in Hx as (k & <- & Hk).
        split; [now apply Hsc|]. rewrite Hsf. cbn.
        rewrite SUM_some; [reflexivity | now apply group_nonempty in Hk].
      - destruct (Hres _ Hin0) as [-> ?]. now split. }
    rewrite <- Hc, <- Hf. destruct Hnn as [Hn1 Hn2]. split; [exact Hn1|].
    split; [exact Hn2|].
    rewrite Hst, <- Hc, <- Hf. unfold classifica. rewrite Hn1. cbn [andb].
    destruct (Qle_bool _ _); [now left | now right].
  - intros r Hin.
    apply process_data_inv in Hrun as (_ & _ & _ & _ & db0 & _ & Hstore).
    rewrite Hstore in Hin. unfold adiantamentos in Hin.
    unfold update_detalhes_adiantamento in Hin at 1.
    cbn [resultado_adiantamento set_resultado_adiantamento] in Hin.
    apply List.in_map_iff in Hin as (r1 & Hr1 & Hin1).
    unfold query_diferenca_adiantamento in Hin1 at 1.
    cbn [resultado_adiantamento set_resultado_adiantamento] in Hin1.
    apply List.in_map_iff in Hin1 as (r0 & Hr0 & Hin0).
    destruct (resultado_adiantamento_antes_diferenca
                (apos_diferenca (faults UPDATE_ORDEM_IMPORTANCIA) (query_diferenca db0)))
      as (fin' & _ & h & Hsf & Hsc & residual & Hres & Heq).
    assert (Hnn : is_null (ra_total_contabil r0) = false
                  /\ is_null (ra_total_financeiro r0) = false).
    { rewrite Heq in Hin0. apply List.in_app_or in Hin0 as [Hin0|Hin0].
      - apply List.in_map_iff in Hin0 as (x & <- & Hx).
        apply List.in_map_iff in Hx as (k & <- & Hk).
        split; [now apply Hsc|]. rewrite Hsf. cbn.
        rewrite SUM_some; [reflexivity | now apply group_nonempty in Hk].
      - destruct (Hres _ Hin0) as [-> ?]. now split. }
    destruct Hnn as [Hn1 Hn2].
    assert (H1 : ra_total_contabil r1 = ra_total_contabil r0
                 /\ ra_total_financeiro r1 = ra_total_financeiro r0
                 /\ ra_status r1
                    = classifica_adiantamento (ra_total_contabil r0) (ra_total_financeiro r0)).
    { rewrite <- Hr0. now cbn. }
    destruct H1 as (E1 & E2 & E3).
    assert (H2 : ra_total_contabil r = ra_total_contabil r1
                 /\ ra_total_financeiro r = ra_total_financeiro r1
                 /\ ra_status r = ra_status r1).
    { rewrite <- Hr1. now destruct (sem_detalhes (ra_detalhes r1)). }
    destruct H2 as (-> & -> & ->). rewrite E1, E2, E3.
    split; [exact Hn1|]. split; [exact Hn2|].
    unfold classifica_adiantamento. rewrite Hn1, Hn2. cbn [andb negb].
    destruct (Qle_bool _ _); [now left | now right].
Qed.


End TotalsProperties.

(** X1, at the sample database: the group of the accounting vendor 2002,
    which has no financial title, is 'Divergente' with a financial total
    of 0, not 'Pendente'. *)
Lemma no_group_left_pendente_witness :
  List.map Store.res_status (Store.resultado (Processo.store (Exemplos.conn_final 1000)))
  = [Store.Conferido; Store.Divergente]
  /\ Sql.is_null
       (Store.res_saldo_financeiro
          (List.last (Store.resultado (Processo.store (Exemplos.conn_final 1000)))
             Exemplos.resultado_row_default))
     = false.
Proof.
  split; [vm_compute; reflexivity|].
  refine (proj1 (proj2 (proj1 (no_group_left_pendente Processo.no_faults
                                 (Exemplos.conn_conciliacao 1000)
                                 (Exemplos.conn_final 1000) _) _ _))).
  - vm_compute. reflexivity.
  - vm_compute. right. left. reflexivity.
Defined.


(* ================================================================== *)
(** * Running [process_data] again *)
(* ================================================================== *)

Module ReexecucaoFacts.
Import Sql Store Conciliacao Processo ProcessoFacts ResultadoFacts Titulos.









Lemma mesmas_contas_refl db : mesmas_contas db db.
Proof. now repeat split. Qed.











(** The statements on [resultado] leave [financeiro] and its columns alone. *)
Lemma financeiro_vendor_statements b db :
  let db' :=
    apos_diferenca b
      (query_diferenca
         (query_contabeis_faltantes (query_adiantamento (query_atualiza_contabil db)))) in
  financeiro db' = financeiro db
  /\ has_codigo_fornecedor db' = has_codigo_fornecedor db
  /\ has_descricao_fornecedor db' = has_descricao_fornecedor db.
Proof. destruct b; repeat split; reflexivity. Qed.




Lemma antes_diferenca_frame db db0 :
  antes_diferenca db = Ok db0 ->
  financeiro db0 = financeiro db
  /\ has_codigo_fornecedor db = true /\ has_descricao_fornecedor db = true
  /\ has_codigo_fornecedor db0 = true /\ has_descricao_fornecedor db0 = true
  /\ contas_itens db0 = contas_itens db
  /\ adiantamento db0 = adiantamento db.
Proof.
  unfold antes_diferenca, bind, query_consolidada.
  cbn [has_codigo_fornecedor has_descricao_fornecedor set_resultado
       set_resultado_adiantamento].
  destruct (has_codigo_fornecedor db) eqn:H1, (has_descricao_fornecedor db) eqn:H2;
    try discriminate.
  intros [= <-]. cbn. rewrite H1, H2. repeat split; reflexivity.
Qed.



End ReexecucaoFacts.

Section RerunProperties.
Import Sql Store Conciliacao Processo ProcessoFacts ResultadoFacts Titulos
  TransactionFacts ReexecucaoFacts.


End RerunProperties.


(* ================================================================== *)
(** * Import: the columns of the destination table *)
(* ================================================================== *)

Module ColunasFacts.
Import Text Importacao ImportacaoFacts.




Lemma mem_false_iff x l : mem x l = false <-> ~ In x l.
Proof.
  rewrite <- mem_true_iff. destruct (mem x l); split; intros H; congruence.
Qed.



End ColunasFacts.

Section ImportSchema.
Import Text Importacao ImportacaoFacts ColunasFacts.

Variable load_frame : string -> string -> result frame.


End ImportSchema.


(* ================================================================== *)
(** * The numeric columns *)
(* ================================================================== *)

Module NumerosFacts.
Import Text Cleaner Numeros TextFacts SepararFacts CreditoFacts.
#[local] Arguments String.append : simpl nomatch.

Lemma filter_filter (p q : ascii -> bool) s :
  filter p (filter q s) = filter (fun c => q c && p c) s.
Proof.
  induction s as [|c s IH]; simpl; [reflexivity|].
  destruct (q c); simpl; [destruct (p c)|]; now rewrite IH.
Qed.

Lemma filter_ext (p q : ascii -> bool) s :
  (forall c, p c = q c) -> filter p s = filter q s.
Proof.
  intros H. induction s as [|c s IH]; simpl; [reflexivity|]. now rewrite H, IH.
Qed.


(** Removing a character is filtering it out. *)
Lemma subst_char_empty c s :
  subst_char c "" s = filter (fun d => negb (Ascii.eqb d c)) s.
Proof.
  induction s as [|d s IH]; simpl; [reflexivity|].
  destruct (Ascii.eqb d c); simpl; now rewrite IH.
Qed.

Lemma limpa_numero_financeiro_filter s :
  limpa_numero_financeiro s
  = subst_char "," "." (filter (fun c => is_digit c || is_comma c || is_minus c) s).
Proof.
  unfold limpa_numero_financeiro. cbv zeta.
  rewrite !replace_char, subst_char_empty, filter_filter. f_equal.
  apply filter_ext. intros c. unfold is_digit, is_comma, is_dot, is_minus.
  destruct (Ascii.eqb c ".") eqn:E.
  - apply Ascii.eqb_eq in E. subst c. reflexivity.
  - cbn [negb]. rewrite andb_true_r, orb_false_r. reflexivity.
Qed.

End NumerosFacts.

Section NumericColumns.
Import Text Cleaner Numeros TextFacts SepararFacts CreditoFacts NumerosFacts.
#[local] Arguments String.append : simpl nomatch.

(** X5 ([_clean_financeiro_data] 663-679, [_clean_modelo1_data] 742-755,
    [formatar_credito]).  The cleaners of the numeric columns read
    every text the same way: the three steps of the financial cleaner
    and the two steps of the trial-balance cleaner hand the same string
    to [pd.to_numeric], for every cell; on a cell without a minus sign
    it is the string that [formatar_credito] hands to [float].  The
    string holds digits, dots and minus signs only, and each of its dots
    stands for a comma of the cell: a dot of the cell is never a decimal
    point. *)
Theorem numeric_cleaners_agree (s : string) :
  limpa_numero_financeiro s = limpa_numero_modelo1 s
  /\ forallb (fun c => is_digit c || is_dot c || is_minus c) (limpa_numero_financeiro s)
     = true
  /\ count is_dot (limpa_numero_financeiro s) = count is_comma s
  /\ (forallb (fun c => negb (is_minus c)) s = true ->
      float_argument s = limpa_numero_financeiro s).
Proof.
  rewrite limpa_numero_financeiro_filter.
  split; [|split; [|split]].
  - unfold limpa_numero_modelo1. now rewrite replace_char.
  - induction s as [|c s IH]; [reflexivity|]. cbn [filter].
    destruct (is_digit c || is_comma c || is_minus c) eqn:E; [|exact IH].
    cbn [subst_char]. destruct (Ascii.eqb c ",") eqn:Ec.
    + cbn. exact IH.
    + cbn [forallb]. rewrite IH, andb_true_r.
      unfold is_comma in E. rewrite Ec, orb_false_r in E.
      apply orb_true_iff in E as [->| ->]; [reflexivity|]. now rewrite orb_true_r.
  - induction s as [|c s IH]; [reflexivity|]. cbn [filter count].
    destruct (Ascii.eqb c ",") eqn:Ec.
    + assert (Hc : is_comma c = true) by exact Ec.
      rewrite Hc, orb_true_r. cbn [orb subst_char]. rewrite Ec. cbn. now rewrite IH.
    + assert (Hc : is_comma c = false) by exact Ec.
      rewrite Hc, orb_false_r. cbn [Nat.add]. destruct (is_digit c || is_minus c) eqn:E.
      * cbn [subst_char]. rewrite Ec. cbn [count]. rewrite IH.
        assert (Hd : is_dot c = false).
        { unfold is_dot. destruct (Ascii.eqb c ".") eqn:Ed; [|reflexivity].
          apply Ascii.eqb_eq in Ed. subst c. discriminate E. }
        now rewrite Hd.
      * exact IH.
  - intros Hminus. unfold float_argument, keep_digits_commas. cbv zeta.
    rewrite filter_strip.
    2:{ intros c. destruct c as [[] [] [] [] [] [] [] []]; vm_compute; congruence. }
    assert (Hk : filter (fun c => is_digit c || is_comma c || is_minus c) s
                 = filter (fun c => is_digit c || is_comma c) s).
    { apply filter_agree. revert Hminus. clear.
      induction s as [|c s IH]; [reflexivity|]. cbn [forallb].
      intros [Hc Hs]%andb_true_iff. apply negb_true_iff in Hc.
      rewrite Hc, orb_false_r, (IH Hs), andb_true_r. apply eqb_reflx. }
    rewrite Hk. set (t := filter (fun c => is_digit c || is_comma c) s).
    assert (Hdots : replace "." "" t = t).
    { rewrite replace_char. apply subst_char_absent.
      subst t. clear. induction s as [|c s IH]; [reflexivity|]. cbn [filter].
      destruct (is_digit c || is_comma c) eqn:E; [|exact IH].
      cbn [forallb]. rewrite IH, andb_true_r.
      destruct (Ascii.eqb c ".") eqn:Ed; [|reflexivity].
      apply Ascii.eqb_eq in Ed. subst c. discriminate E. }
    rewrite Hdots. destruct (contains "," t) eqn:Hc.
    + now rewrite replace_char.
    + symmetry. apply subst_char_absent.
      revert Hc. clear. induction t as [|c t IH]; [reflexivity|].
      cbn [contains forallb]. rewrite prefix_char.
      destruct (Ascii.eqb c ","); [discriminate|]. cbn [orb negb andb]. exact IH.
Qed.

End NumericColumns.

(** X5, at the text of 1.234,56. *)
Lemma numeric_cleaners_agree_witness :
  Cleaner.float_argument "1.234,56" = "1234.56"
  /\ Numeros.limpa_numero_financeiro "1.234,56" = "1234.56".
Proof.
  split; [|reflexivity].
  refine (eq_trans (proj2 (proj2 (proj2 (numeric_cleaners_agree "1.234,56"))) _) _);
    reflexivity.
Defined.

(* ================================================================== *)
(** * Vendor codes of digits *)
(* ================================================================== *)

Module CodigoFacts.
Import Text Cleaner Sql Store Conciliacao TextFacts SepararFacts CreditoFacts NumerosFacts.
#[local] Arguments String.append : simpl nomatch.

Lemma separar_valor_digits v : forallb is_digit (fst (separar_valor v)) = true.
Proof.
  unfold separar_valor. destruct v as [v|]; [|reflexivity].
  destruct (negb (is_empty (strip v))); [|reflexivity].
  destruct (re_match_codigo (strip v)); [|reflexivity].
  cbn [fst]. apply forallb_filter.
Qed.

Lemma drop_while_keep p s :
  forallb (fun c => negb (p c)) s = true -> drop_while p s = s.
Proof.
  destruct s as [|c s]; [reflexivity|]. cbn [forallb drop_while].
  intros [Hc _]%andb_true_iff. apply negb_true_iff in Hc. now rewrite Hc.
Qed.

Lemma drop_while_end_keep p s :
  forallb (fun c => negb (p c)) s = true -> drop_while_end p s = s.
Proof.
  induction s as [|c s IH]; [reflexivity|]. cbn [forallb drop_while_end].
  intros [Hc Hs]%andb_true_iff. apply negb_true_iff in Hc.
  now rewrite (IH Hs), Hc, andb_false_r.
Qed.

Lemma digit_not_blank c : is_digit c = true -> negb (is_blank c) = true.
Proof. destruct c as [[] [] [] [] [] [] [] []]; vm_compute; congruence. Qed.

Lemma digit_not_space' c : is_digit c = true -> negb (is_space c) = true.
Proof. intros H. now rewrite (digit_not_space c H). Qed.

Lemma digit_upper c : is_digit c = true -> ascii_upper c = c.
Proof. destruct c as [[] [] [] [] [] [] [] []]; vm_compute; congruence. Qed.

Lemma digit_not_char (a : ascii) c :
  is_digit a = false -> is_digit c = true -> negb (Ascii.eqb c a) = true.
Proof.
  intros Ha Hc. apply negb_true_iff, Ascii.eqb_neq. intros ->. congruence.
Qed.

Lemma digits_strip s : forallb is_digit s = true -> strip s = s.
Proof.
  intros H. unfold strip.
  rewrite (drop_while_keep is_space s) by (eapply forallb_impl; [apply digit_not_space'|exact H]).
  apply drop_while_end_keep. eapply forallb_impl; [apply digit_not_space'|exact H].
Qed.

Lemma digits_TRIM s : forallb is_digit s = true -> TRIM (Some s) = Some s.
Proof.
  intros H. unfold TRIM. cbn [option_map]. f_equal.
  rewrite (drop_while_keep is_blank s) by (eapply forallb_impl; [apply digit_not_blank|exact H]).
  apply drop_while_end_keep. eapply forallb_impl; [apply digit_not_blank|exact H].
Qed.

Lemma digits_upper s : forallb is_digit s = true -> Text.map ascii_upper s = s.
Proof.
  induction s as [|c s IH]; [reflexivity|]. cbn [forallb Text.map].
  intros [Hc Hs]%andb_true_iff. now rewrite (digit_upper c Hc), (IH Hs).
Qed.

(** A text without the first character of [old] has no occurrence of [old]. *)
Lemma replace_fuel_absent a old new s fuel :
  forallb (fun d => negb (Ascii.eqb d a)) s = true ->
  replace_fuel fuel (String a old) new s = s.
Proof.
  revert s. induction fuel as [|fuel IH]; intros s Hs; [reflexivity|].
  destruct s as [|d s]; [reflexivity|].
  cbn [forallb] in Hs. apply andb_true_iff in Hs as [Hd Hs].
  apply negb_true_iff, Ascii.eqb_neq in Hd.
  cbn [replace_fuel String.prefix].
  destruct (ascii_dec a d) as [->|_]; [contradiction|].
  now rewrite (IH s Hs).
Qed.

Lemma replace_absent a old new s :
  forallb (fun d => negb (Ascii.eqb d a)) s = true ->
  replace (String a old) new s = s.
Proof. intros H. unfold replace. cbn [is_empty]. now apply replace_fuel_absent. Qed.

Lemma digits_norm_codigo s : forallb is_digit s = true -> norm_codigo (Some s) = Some s.
Proof.
  intros H. unfold norm_codigo. rewrite (digits_TRIM s H).
  unfold UPPER, REPLACE. cbn [option_map]. rewrite (digits_upper s H).
  rewrite (replace_absent "A" "F" "" s)
    by (eapply forallb_impl;
        [intros c; apply (digit_not_char "A"%char c); reflexivity|exact H]).
  rewrite (replace_absent "F" "" "" s)
    by (eapply forallb_impl;
        [intros c; apply (digit_not_char "F"%char c); reflexivity|exact H]).
  reflexivity.
Qed.

Lemma digits_clean_codigo s :
  forallb is_digit s = true -> clean_codigo_fornecedor s = s.
Proof.
  intros H. unfold clean_codigo_fornecedor. rewrite (digits_strip s H).
  unfold strip_prefix_AF_F. destruct s as [|c s]; [reflexivity|].
  cbn [forallb] in H. apply andb_true_iff in H as [Hc _].
  cbn [String.prefix].
  destruct (ascii_dec "A" c) as [<-|_]; [discriminate Hc|].
  destruct (ascii_dec "F" c) as [<-|_]; [discriminate Hc|].
  reflexivity.
Qed.

End CodigoFacts.

Section DigitCodes.
Import Text Cleaner Sql Store Conciliacao CodigoFacts.

(** X6 ([separar_codigo_descricao], the cleaning of [codigo_fornecedor]
    in [_clean_contas_itens_data] and [_clean_adiantamento_data], and the
    join of [query_atualiza_contabil]).  A vendor code that the splitter
    extracts holds digits only; the import cleaning (strip, then the
    removal of a leading AF or F) and the normalisation of the join
    (TRIM, UPPER, removal of every AF and F) leave such a code as it is.
    So between a group and an accounting line whose codes are of digits,
    the join of [query_atualiza_contabil] is the equality of the two
    codes, on the lines of the vendor account with a non-empty code. *)
Theorem digit_codes_join_by_equality :
  (forall v : option string,
     let c := fst (separar_valor v) in
     forallb is_digit c = true
     /\ clean_codigo_fornecedor c = c
     /\ norm_codigo (Some c) = Some c)
  /\ (forall (r : resultado_row) (ci : contas_itens_row) (c1 c2 : string),
        res_codigo_fornecedor r = Some c1 ->
        ci_codigo_fornecedor ci = Some c2 ->
        forallb is_digit c1 = true ->
        forallb is_digit c2 = true ->
        ci_matches r ci
        = LIKE_prefix (ci_conta_contabil ci) CONTA_FORNECEDORES
          && String.eqb c2 c1 && negb (is_empty c2)).
Proof.
  split.
  - intros v c. subst c. pose proof (separar_valor_digits v) as H.
    split; [exact H|]. split; [now apply digits_clean_codigo | now apply digits_norm_codigo].
  - intros r ci c1 c2 Hr Hci H1 H2. unfold ci_matches.
    rewrite Hr, Hci, (digits_norm_codigo c1 H1), (digits_norm_codigo c2 H2).
    cbn [eq_text is_null negb ne_empty]. now rewrite andb_true_r.
Qed.

End DigitCodes.

(** X6, at the title text of the vendor 1001 and the accounting line of
    the sample database. *)
Lemma digit_codes_join_by_equality_witness :
  Conciliacao.ci_matches
    {| Store.res_codigo_fornecedor := Some (fst (Cleaner.separar_valor (Some "1001 ACME")));
       Store.res_descricao_fornecedor := Some "ACME";
       Store.res_saldo_contabil := Some 0%Q;
       Store.res_saldo_financeiro := Some 1000%Q;
       Store.res_diferenca := Some 0%Q;
       Store.res_status := Store.Pendente;
       Store.res_detalhes := None;
       Store.res_ordem_importancia := None |}
    (Exemplos.ci_acme 1000)
  = true.
Proof.
  refine (eq_trans (proj2 digit_codes_join_by_equality _ (Exemplos.ci_acme 1000)
                      "1001" "1001" _ _ _ _) _);
    reflexivity.
Defined.

(* ================================================================== *)
(** * The schema and the columns of [financeiro] *)
(* ================================================================== *)

Module EsquemaFacts.
Import Text Importacao ImportacaoFacts Esquema.

Lemma table_info_insert_eq (db : gmap string frame) t f :
  table_info (<[t := f]> db) t = column_names f.
Proof. unfold table_info. now rewrite lookup_insert_eq. Qed.

Lemma table_info_insert_ne (db : gmap string frame) t t' f :
  t <> t' -> table_info (<[t := f]> db) t' = table_info db t'.
Proof. intros H. unfold table_info. now rewrite lookup_insert_ne. Qed.

(** The names of the frame an import writes: those of the table. *)
Lemma mem_prepared x T df : mem x (column_names (prepared T df)) = mem x T.
Proof.
  unfold prepared. rewrite names_add_missing, mem_app, mem_new_columns, mem_select, mem_filter.
  destruct (mem x T), (mem x (column_names df)); reflexivity.
Qed.

(** No import adds a column to a table, or takes one from it. *)
Lemma import_from_excel_mem load file_path table_name (db : gmap string frame) x t :
  mem x (table_info (fst (import_from_excel load file_path table_name db)) t)
  = mem x (table_info db t).
Proof.
  destruct (load file_path (destino file_path table_name)) as [df|e] eqn:Hload.
  - rewrite (import_from_excel_ok load _ _ db df Hload). cbn [fst].
    destruct (String.eqb (destino file_path table_name) t) eqn:E.
    + apply String.eqb_eq in E. subst t.
      now rewrite table_info_insert_eq, mem_prepared.
    + apply String.eqb_neq in E. now rewrite table_info_insert_ne.
  - unfold import_from_excel. rewrite Hload. now destruct e.
Qed.

Lemma importa_todos_mem imports (db : gmap string frame) x t :
  mem x (table_info (importa_todos imports db) t) = mem x (table_info db t).
Proof.
  unfold importa_todos. revert db.
  induction imports as [|i imports IH]; intros db; [reflexivity|].
  cbn [List.fold_left]. now rewrite IH, import_from_excel_mem.
Qed.

Lemma create_table_if_not_exists_other t cols (db : gmap string frame) t' :
  t <> t' -> create_table_if_not_exists t cols db !! t' = db !! t'.
Proof.
  intros H. unfold create_table_if_not_exists.
  destruct (db !! t); [reflexivity|]. now rewrite lookup_insert_ne.
Qed.

Lemma create_table_if_not_exists_same t cols (db : gmap string frame) :
  create_table_if_not_exists t cols db !! t
  = match db !! t with
    | Some f => Some f
    | None => Some {| nrows := 0; columns := List.map (fun c => (c, [])) cols |}
    end.
Proof.
  unfold create_table_if_not_exists.
  destruct (db !! t) eqn:E; [exact E|]. now rewrite lookup_insert_eq.
Qed.

Lemma column_names_empty_table cols :
  column_names {| nrows := 0; columns := List.map (fun c => (c, [])) cols |} = cols.
Proof.
  unfold column_names. cbn [columns]. rewrite List.map_map. cbn [fst]. apply List.map_id.
Qed.

Lemma names_add_column f col v :
  column_names (add_column f col v) = column_names f ++ [col].
Proof. unfold column_names, add_column. cbn [columns]. now rewrite List.map_app. Qed.

(** What [ensure_column] does to the membership of a column in a table. *)
Lemma ensure_column_mem t col (db db' : gmap string frame) x t' :
  ensure_column t col db = Ok db' ->
  mem x (table_info db' t')
  = mem x (table_info db t') || (String.eqb t t' && String.eqb x col).
Proof.
  unfold ensure_column. destruct (mem col (table_info db t)) eqn:Hm.
  - intros [= <-]. destruct (String.eqb t t') eqn:Et, (String.eqb x col) eqn:Ex;
      cbn; rewrite ?orb_false_r; try reflexivity.
    apply String.eqb_eq in Et, Ex. subst. now rewrite Hm.
  - destruct (db !! t) as [f|] eqn:Hf; [|discriminate]. intros [= <-].
    destruct (String.eqb t t') eqn:Et.
    + apply String.eqb_eq in Et. subst t'.
      rewrite table_info_insert_eq, names_add_column, mem_app. unfold table_info.
      rewrite Hf. cbn [mem List.existsb andb]. now rewrite orb_false_r.
    + apply String.eqb_neq in Et. rewrite table_info_insert_ne by exact Et.
      cbn. now rewrite orb_false_r.
Qed.

Lemma ensure_column_exists t col (db db' : gmap string frame) t' :
  ensure_column t col db = Ok db' -> is_Some (db !! t') -> is_Some (db' !! t').
Proof.
  unfold ensure_column. destruct (mem col (table_info db t)); [now intros [= <-]|].
  destruct (db !! t) as [f|] eqn:Hf; [|discriminate]. intros [= <-] H.
  destruct (String.eqb t t') eqn:Et.
  - apply String.eqb_eq in Et. subst t'. rewrite lookup_insert_eq. now eexists.
  - apply String.eqb_neq in Et. now rewrite lookup_insert_ne.
Qed.

Lemma ensure_column_ok t col (db : gmap string frame) :
  is_Some (db !! t) -> exists db', ensure_column t col db = Ok db'.
Proof.
  intros [f Hf]. unfold ensure_column. rewrite Hf.
  destruct (mem col (table_info db t)); eexists; reflexivity.
Qed.

Lemma ensure_column_done t col (db : gmap string frame) :
  mem col (table_info db t) = true -> ensure_column t col db = Ok db.
Proof. intros H. unfold ensure_column. now rewrite H. Qed.

Lemma create_table_if_not_exists_done t cols (db : gmap string frame) :
  is_Some (db !! t) -> create_table_if_not_exists t cols db = db.
Proof. intros [f Hf]. unfold create_table_if_not_exists. now rewrite Hf. Qed.

Lemma create_table_if_not_exists_exists t cols (db : gmap string frame) t' :
  is_Some (db !! t') \/ t = t' -> is_Some (create_table_if_not_exists t cols db !! t').
Proof.
  intros [H| <-].
  - destruct (String.eqb t t') eqn:Et.
    + apply String.eqb_eq in Et. subst t'. rewrite create_table_if_not_exists_same.
      destruct H as [f ->]. now eexists.
    + apply String.eqb_neq in Et. now rewrite create_table_if_not_exists_other.
  - rewrite create_table_if_not_exists_same. destruct (db !! t); now eexists.
Qed.

End EsquemaFacts.

Module InicializacaoFacts.
Import Text Importacao ImportacaoFacts Esquema EsquemaFacts.

Lemma estende_refl f : estende f f.
Proof. split; [reflexivity|]. exists []. cbn. now rewrite List.app_nil_r. Qed.

Lemma estende_trans f g h : estende f g -> estende g h -> estende f h.
Proof.
  intros (Hn1 & e1 & H1) (Hn2 & e2 & H2). split; [congruence|].
  exists (e1 ++ e2). rewrite H2, H1, Hn1, List.map_app, List.app_assoc. reflexivity.
Qed.

Lemma estende_add_column f col : estende f (add_column f col CNull).
Proof. split; [reflexivity|]. exists [col]. reflexivity. Qed.

Lemma conserva_refl db : conserva db db.
Proof. intros t f H. exists f. split; [exact H | apply estende_refl]. Qed.

Lemma conserva_trans a b c : conserva a b -> conserva b c -> conserva a c.
Proof.
  intros Hab Hbc t f H. destruct (Hab t f H) as (f1 & H1 & E1).
  destruct (Hbc t f1 H1) as (f2 & H2 & E2). exists f2. split; [exact H2|].
  eapply estende_trans; eassumption.
Qed.

Lemma conserva_create t cols db : conserva db (create_table_if_not_exists t cols db).
Proof.
  intros t' f H. exists f. split; [|apply estende_refl].
  unfold create_table_if_not_exists. destruct (db !! t) eqn:E; [exact H|].
  rewrite lookup_insert_ne; [exact H|]. intros <-. congruence.
Qed.

Lemma conserva_ensure_column t col db db' :
  ensure_column t col db = Ok db' -> conserva db db'.
Proof.
  unfold ensure_column. destruct (mem col (table_info db t)).
  - intros [= <-]. apply conserva_refl.
  - destruct (db !! t) as [f|] eqn:Hf; [|discriminate]. intros [= <-] t' f' H.
    destruct (String.eqb t t') eqn:Et.
    + apply String.eqb_eq in Et. subst t'. rewrite lookup_insert_eq.
      rewrite Hf in H. injection H as <-. eexists. split; [reflexivity|].
      apply estende_add_column.
    + apply String.eqb_neq in Et. rewrite lookup_insert_ne by exact Et.
      exists f'. split; [exact H | apply estende_refl].
Qed.

Lemma conserva_ensure_columns l db db' :
  ensure_columns l db = Ok db' -> conserva db db'.
Proof.
  revert db. induction l as [|[t col] l IH]; intros db.
  - intros [= <-]. apply conserva_refl.
  - cbn [ensure_columns]. unfold bind.
    destruct (ensure_column t col db) as [db1|e] eqn:E; [|discriminate].
    intros H. eapply conserva_trans; [eapply conserva_ensure_column; exact E | now apply IH].
Qed.

Lemma conserva_create_tables db : conserva db (create_tables db).
Proof.
  unfold create_tables. cbv zeta.
  repeat (eapply conserva_trans; [|apply conserva_create]). apply conserva_refl.
Qed.

Lemma create_tables_exists db t : In t tabelas -> is_Some (create_tables db !! t).
Proof.
  unfold create_tables, tabelas. cbv zeta. intros H.
  cbn [In] in H.
  repeat (destruct H as [<-|H];
          [repeat first [ apply create_table_if_not_exists_exists; right; reflexivity
                        | apply create_table_if_not_exists_exists; left ] |]).
  destruct H.
Qed.

Lemma create_tables_done db :
  (forall t, In t tabelas -> is_Some (db !! t)) -> create_tables db = db.
Proof.
  intros H. unfold create_tables. cbv zeta.
  repeat match goal with
         | |- context [create_table_if_not_exists ?t ?c db] =>
             rewrite (create_table_if_not_exists_done t c db)
               by (apply H; unfold tabelas; cbn; tauto)
         end.
  reflexivity.
Qed.

Lemma create_table_if_not_exists_info t cols (db : gmap string frame) t' :
  table_info (create_table_if_not_exists t cols db) t'
  = match db !! t with
    | Some _ => table_info db t'
    | None => if String.eqb t t' then cols else table_info db t'
    end.
Proof.
  unfold create_table_if_not_exists. destruct (db !! t) as [f|] eqn:Hf; [reflexivity|].
  destruct (String.eqb t t') eqn:Et.
  - apply String.eqb_eq in Et. subst t'.
    now rewrite table_info_insert_eq, column_names_empty_table.
  - apply String.eqb_neq in Et. now rewrite table_info_insert_ne.
Qed.

(** [CREATE TABLE IF NOT EXISTS] does not give a table a column that is
    neither in the table nor in the statement. *)
Lemma create_table_if_not_exists_mem t cols (db : gmap string frame) t' x :
  mem x (table_info db t') = false ->
  (t = t' -> mem x cols = false) ->
  mem x (table_info (create_table_if_not_exists t cols db) t') = false.
Proof.
  intros H Hc. rewrite create_table_if_not_exists_info.
  destruct (db !! t); [exact H|].
  destruct (String.eqb t t') eqn:Et; [|exact H].
  apply String.eqb_eq in Et. now apply Hc.
Qed.

Lemma ensure_columns_mem l (db db' : gmap string frame) x t' :
  ensure_columns l db = Ok db' ->
  mem x (table_info db' t')
  = mem x (table_info db t')
    || List.existsb (fun i => String.eqb (fst i) t' && String.eqb x (snd i)) l.
Proof.
  revert db. induction l as [|[t col] l IH]; intros db.
  - intros [= <-]. cbn. now rewrite orb_false_r.
  - cbn [ensure_columns]. unfold bind.
    destruct (ensure_column t col db) as [db1|e] eqn:E; [|discriminate].
    intros H. rewrite (IH _ H), (ensure_column_mem _ _ _ _ x t' E).
    cbn [List.existsb fst snd]. now rewrite orb_assoc.
Qed.

Lemma ensure_columns_exists l (db db' : gmap string frame) t' :
  ensure_columns l db = Ok db' -> is_Some (db !! t') -> is_Some (db' !! t').
Proof.
  revert db. induction l as [|[t col] l IH]; intros db.
  - now intros [= <-].
  - cbn [ensure_columns]. unfold bind.
    destruct (ensure_column t col db) as [db1|e] eqn:E; [|discriminate].
    intros H Ht. apply (IH _ H). eapply ensure_column_exists; eassumption.
Qed.

Lemma ensure_columns_ok l (db : gmap string frame) :
  (forall i, In i l -> is_Some (db !! fst i)) -> exists db', ensure_columns l db = Ok db'.
Proof.
  revert db. induction l as [|[t col] l IH]; intros db H; [now eexists|].
  cbn [ensure_columns]. unfold bind.
  destruct (ensure_column_ok t col db (H (t, col) (or_introl eq_refl))) as (db1 & E).
  rewrite E. apply IH. intros i Hi.
  eapply ensure_column_exists; [exact E|]. apply H. now right.
Qed.

Lemma ensure_columns_done l (db : gmap string frame) :
  (forall i, In i l -> mem (snd i) (table_info db (fst i)) = true) ->
  ensure_columns l db = Ok db.
Proof.
  induction l as [|[t col] l IH]; intros H; [reflexivity|].
  cbn [ensure_columns]. rewrite (ensure_column_done t col db (H (t, col) (or_introl eq_refl))).
  cbn [bind]. apply IH. intros i Hi. apply H. now right.
Qed.

Lemma _initialize_database_ok db :
  exists db1, ensure_columns COLUNAS_GARANTIDAS (create_tables db) = Ok db1.
Proof.
  apply ensure_columns_ok. intros i Hi. apply create_tables_exists.
  unfold COLUNAS_GARANTIDAS, tabelas in *. cbn [In] in *.
  repeat (destruct Hi as [<-|Hi]; [cbn; tauto|]). destruct Hi.
Qed.

Lemma _initialize_database_total db : exists db1, _initialize_database db = Ok db1.
Proof.
  destruct (_initialize_database_ok db) as (db1 & H). exists db1.
  unfold _initialize_database. now rewrite H.
Qed.

Lemma _initialize_database_inv db db1 :
  _initialize_database db = Ok db1 ->
  ensure_columns COLUNAS_GARANTIDAS (create_tables db) = Ok db1.
Proof.
  unfold _initialize_database, try_except.
  destruct (ensure_columns COLUNAS_GARANTIDAS (create_tables db)); [|discriminate].
  now intros [= <-].
Qed.

End InicializacaoFacts.

Section SchemaProperties.
Import Text Importacao ImportacaoFacts Esquema EsquemaFacts InicializacaoFacts.
Import Store Processo ProcessoFacts ReexecucaoFacts.

(** X7 ([_initialize_database]).  When the engine fails no statement,
    [_initialize_database] does not raise, and it only adds to the
    file: afterwards the six tables are there, each with the columns
    that [ensure_column] is called for; a table that was there keeps
    its rows and its columns, followed by the columns added, which are
    [NULL] in every row; and calling it again changes nothing. *)
Theorem _initialize_database_additive (db : gmap string frame) :
  exists db1,
    _initialize_database db = Ok db1
    /\ _initialize_database db1 = Ok db1
    /\ (forall t, In t tabelas -> is_Some (db1 !! t))
    /\ (forall i, In i COLUNAS_GARANTIDAS -> mem (snd i) (table_info db1 (fst i)) = true)
    /\ (forall t f, db !! t = Some f ->
          exists f1, db1 !! t = Some f1
            /\ nrows f1 = nrows f
            /\ exists extra : list string,
                 columns f1
                 = columns f
                   ++ List.map (fun c => (c, List.repeat CNull (nrows f))) extra).
Proof.
  destruct (_initialize_database_ok db) as (db1 & H1). exists db1.
  assert (Hex : forall t, In t tabelas -> is_Some (db1 !! t)).
  { intros t Ht. eapply ensure_columns_exists; [exact H1|]. now apply create_tables_exists. }
  assert (Hcols : forall i, In i COLUNAS_GARANTIDAS ->
                            mem (snd i) (table_info db1 (fst i)) = true).
  { intros i Hi. rewrite (ensure_columns_mem _ _ _ (snd i) (fst i) H1).
    apply orb_true_iff. right. apply List.existsb_exists. exists i.
    split; [exact Hi|]. now rewrite !String.eqb_refl. }
  split; [|split; [|split; [exact Hex|split; [exact Hcols|]]]].
  - unfold _initialize_database. now rewrite H1.
  - unfold _initialize_database. rewrite (create_tables_done db1 Hex).
    now rewrite (ensure_columns_done _ db1 Hcols).
  - intros t f Hf.
    destruct (conserva_create_tables db t f Hf) as (f0 & Hf0 & E0).
    destruct (conserva_ensure_columns _ _ _ H1 t f0 Hf0) as (f1 & Hf1 & E1).
    exists f1. split; [exact Hf1|]. exact (estende_trans _ _ _ E0 E1).
Qed.

(** X8 ([_initialize_database], [import_from_excel], [process_data]).
    Nothing before [process_data] gives [financeiro] the column
    [codigo_fornecedor]: the schema does not have it, [ensure_column] is
    not called for it, and an import keeps the columns of the table it
    replaces.  So on a file whose [financeiro] table lacks the column (a
    new file, for one), after [_initialize_database] and any imports,
    [process_data] raises [ExcecaoNaoMapeadaError] at its first query,
    whatever the files held, and leaves the database as it found it. *)
Theorem fresh_database_run_fails
  (db db1 : gmap string frame)
  (imports : list ((string -> string -> result frame) * string * string))
  (faults : call -> bool) (conn : connection) :
  mem "codigo_fornecedor" (table_info db TABLE_FINANCEIRO) = false ->
  _initialize_database db = Ok db1 ->
  has_codigo_fornecedor (store conn)
  = mem "codigo_fornecedor" (table_info (importa_todos imports db1) TABLE_FINANCEIRO) ->
  snapshot conn = None ->
  process_data faults conn
  = ({| store := store conn; snapshot := None |}, Raise ExcecaoNaoMapeadaError).
Proof.
  intros Hdb Hinit Hflag Hsnap.
  apply _initialize_database_inv in Hinit.
  assert (Hcol : has_codigo_fornecedor (store conn) = false).
  { rewrite Hflag, importa_todos_mem.
    rewrite (ensure_columns_mem _ _ _ "codigo_fornecedor" TABLE_FINANCEIRO Hinit).
    cbn [COLUNAS_GARANTIDAS List.existsb fst snd]. cbn.
    rewrite orb_false_r.
    unfold create_tables. cbv zeta.
    repeat (apply create_table_if_not_exists_mem;
            [|intros E; first [discriminate E | reflexivity]]).
    exact Hdb. }
  destruct (process_data faults conn) as [conn' [b|e]] eqn:Hrun.
  - exfalso. apply process_data_inv in Hrun as (_ & _ & _ & _ & db0 & Hdb0 & _).
    apply antes_diferenca_frame in Hdb0 as (_ & Hc & _). congruence.
  - destruct (process_data_rollback faults _ _ _ Hsnap Hrun) as (-> & Hstore & Hs').
    f_equal. destruct conn' as [s n]. cbn in *. congruence.
Qed.

End SchemaProperties.

(** X7, at a new file. *)
Lemma _initialize_database_additive_witness :
  exists db1,
    Esquema._initialize_database (∅ : gmap string Importacao.frame) = Ok db1
    /\ Esquema._initialize_database db1 = Ok db1.
Proof.
  destruct (_initialize_database_additive ∅) as (db1 & H1 & H2 & _).
  exists db1. split; [exact H1 | exact H2].
Defined.

(** X8, at a new file, the import of the sample frame and the sample
    titles read without the two vendor columns. *)
Lemma fresh_database_run_fails_witness :
  exists db1,
    Esquema._initialize_database (∅ : gmap string Importacao.frame) = Ok db1
    /\ snd (Processo.process_data Processo.no_faults
              {| Processo.store :=
                   Store.set_financeiro (Exemplos.db_conciliacao 1000)
                     (Store.financeiro (Exemplos.db_conciliacao 1000)) false false;
                 Processo.snapshot := None |})
       = Raise ExcecaoNaoMapeadaError.
Proof.
  destruct (InicializacaoFacts._initialize_database_total ∅) as (db1 & H1).
  exists db1. split; [exact H1|].
  rewrite (fresh_database_run_fails ∅ db1
             [(Exemplos.load_exemplo, "/dados/finr150.xlsx", "financeiro")]
             Processo.no_faults
             {| Processo.store :=
                  Store.set_financeiro (Exemplos.db_conciliacao 1000)
                    (Store.financeiro (Exemplos.db_conciliacao 1000)) false false;
                Processo.snapshot := None |}).
  - reflexivity.
  - unfold Importacao.table_info. rewrite lookup_empty. reflexivity.
  - exact H1.
  - cbn [Processo.store Store.set_financeiro Store.has_codigo_fornecedor].
    symmetry. rewrite EsquemaFacts.importa_todos_mem.
    apply InicializacaoFacts._initialize_database_inv in H1.
    rewrite (InicializacaoFacts.ensure_columns_mem _ _ _ _ _ H1).
    cbn [Esquema.COLUNAS_GARANTIDAS List.existsb fst snd]. cbn.
    rewrite orb_false_r.
    unfold Esquema.create_tables. cbv zeta.
    repeat (apply InicializacaoFacts.create_table_if_not_exists_mem;
            [|intros E; first [discriminate E | reflexivity]]).
    unfold Importacao.table_info. rewrite lookup_empty. reflexivity.
  - reflexivity.
Defined.

(* ================================================================== *)
(** * Reading a file *)
(* ================================================================== *)

Module PlanilhaFacts.
Import Text Importacao Planilha.









End PlanilhaFacts.

Section SpreadsheetProperties.
Import Text Importacao Planilha PlanilhaFacts.


Variable raw : Type.
Variable parse_rows : string -> result (list (list (option string))).
Variable DataFrame :
  list (list (option string)) -> list rotulo -> result (list (list (option string))).
Variable read_excel : string -> option nat -> nat -> result raw.
Variable read_csv : string -> string -> result raw.
Variable of_tabela : tabela -> raw.
Variable mapeia : string -> raw -> result raw.
Variable completa_e_limpa : string -> string -> list string -> raw -> result frame.

Let importa :=
  import_from_excel
    (load_frame raw parse_rows DataFrame read_excel read_csv of_tabela
       mapeia completa_e_limpa).

(** X10 ([import_from_excel] lines 309-338 and 429-437,
    [read_spreadsheetml]).  How a file that cannot be read ends an
    import, by its suffix (in any letter case).  A suffix other than
    .xlsx, .xml and .txt: the import returns [False].  An .xml file that
    cannot be parsed, that has fewer than two rows, or whose rows do not
    make a frame: the import returns [False].  An .xlsx file that pandas
    fails to read: the import raises [ExcecaoNaoMapeadaError].  A .txt
    file is read with the separator ';' and, when that raises, with a
    tab.  In each of these cases the database is left as it was. *)
Theorem import_from_excel_unreadable (file_path table_name : string)
  (db : gmap string frame) :
  let ext := Text.map py_lower (path_suffix file_path) in
  (ext <> ".xlsx" -> ext <> ".xml" -> ext <> ".txt" ->
   importa file_path table_name db = (db, Ok false))
  /\ (ext = ".xml" ->
      (match parse_rows file_path with
       | Raise _ => True
       | Ok rows =>
           (List.length rows < 2)%nat
           \/ exists e, DataFrame (List.skipn 2 rows) (List.nth 1 rows []) = Raise e
       end) ->
      importa file_path table_name db = (db, Ok false))
  /\ (ext = ".xlsx" ->
      forall e,
        e <> InvalidDataFormat -> e <> PlanilhaFormatacaoErradaError ->
        read_excel file_path (Some 5%nat) 0 = Raise e
        \/ ((exists df, read_excel file_path (Some 5%nat) 0 = Ok df)
            /\ read_excel file_path None 1 = Raise e) ->
        importa file_path table_name db = (db, Raise ExcecaoNaoMapeadaError))
  /\ (ext = ".txt" ->
      forall e, read_csv file_path ";" = Raise e ->
        le_arquivo raw parse_rows DataFrame read_excel read_csv of_tabela file_path
        = read_csv file_path (String (ascii_of_nat 9) "")).
Proof.
  cbv zeta. subst importa. unfold import_from_excel, load_frame, le_arquivo. cbv zeta.
  set (ext := Text.map py_lower (path_suffix file_path)).
  split; [|split; [|split]].
  - intros H1 H2 H3.
    apply String.eqb_neq in H1, H2, H3. rewrite H1, H2, H3. reflexivity.
  - intros -> Hfail. cbn [String.eqb Ascii.eqb Bool.eqb].
    assert (Hread : read_spreadsheetml parse_rows DataFrame file_path
                    = Raise InvalidDataFormat).
    { unfold read_spreadsheetml, try_except, bind.
      destruct (parse_rows file_path) as [rows|e]; [|reflexivity].
      destruct Hfail as [Hlen|(e & He)].
      - apply Nat.ltb_lt in Hlen. now rewrite Hlen.
      - destruct (List.length rows <? 2)%nat; [reflexivity|]. now rewrite He. }
    rewrite Hread. reflexivity.
  - intros -> e He1 He2 Hfail. cbn [String.eqb Ascii.eqb Bool.eqb].
    destruct Hfail as [Hs|((df & Hs) & Hr)]; rewrite Hs; cbn [bind]; [|rewrite Hr; cbn [bind]];
      destruct e; congruence.
  - intros -> e He. cbn [String.eqb Ascii.eqb Bool.eqb]. now rewrite He.
Qed.

End SpreadsheetProperties.


(** X10, at a file of a format that the import does not read. *)
Lemma import_from_excel_unreadable_witness :
  Importacao.import_from_excel
    (Planilha.load_frame unit (fun _ => Raise ValueError) (fun _ _ => Raise ValueError)
       (fun _ _ _ => Raise ValueError) (fun _ _ => Raise ValueError) (fun _ => tt)
       (fun _ _ => Raise ValueError) (fun _ _ _ _ => Raise ValueError))
    "/dados/finr150.csv" "financeiro" Exemplos.db_exemplo
  = (Exemplos.db_exemplo, Ok false).
Proof.
  refine (proj1 (import_from_excel_unreadable unit (fun _ => Raise ValueError)
                   (fun _ _ => Raise ValueError) (fun _ _ _ => Raise ValueError)
                   (fun _ _ => Raise ValueError) (fun _ => tt)
                   (fun _ _ => Raise ValueError) (fun _ _ _ _ => Raise ValueError)
                   "/dados/finr150.csv" "financeiro" Exemplos.db_exemplo) _ _ _);
    vm_compute; discriminate.
Defined.

(* ================================================================== *)
(** * Reference dates *)
(* ================================================================== *)

Module DatasFacts.
Import Retorno Datas.
#[local] Open Scope Z_scope.

Lemma dias_no_mes_bounds y m : 1 <= m <= 12 -> 28 <= dias_no_mes y m <= 31.
Proof.
  intros Hm. unfold dias_no_mes.
  assert (H : m = 1 \/ m = 2 \/ m = 3 \/ m = 4 \/ m = 5 \/ m = 6 \/ m = 7 \/ m = 8
              \/ m = 9 \/ m = 10 \/ m = 11 \/ m = 12) by lia.
  repeat (destruct H as [->|H]); try subst m; cbn [mdays Z.eqb Pos.eqb andb];
    try destruct (isleap y); lia.
Qed.

Lemma valid_iff d :
  valid d = true
  <-> 1 <= year d <= 9999 /\ 1 <= month d <= 12
      /\ 1 <= day d <= dias_no_mes (year d) (month d).
Proof.
  unfold valid. rewrite !andb_true_iff, !Z.leb_le. tauto.
Qed.

Lemma mk_datetime_ok y m d :
  1 <= y <= 9999 -> 1 <= m <= 12 -> 1 <= d <= dias_no_mes y m ->
  mk_datetime y m d = Devolve {| year := y; month := m; day := d |}.
Proof.
  intros Hy Hm Hd. unfold mk_datetime. cbv zeta.
  assert (H : valid {| year := y; month := m; day := d |} = true)
    by (apply valid_iff; cbn; tauto).
  now rewrite H.
Qed.

Lemma mk_datetime_year0 m d : mk_datetime 0 m d = Levanta ValueErrorData.
Proof. reflexivity. Qed.

Lemma monthrange_ok y m : 1 <= m <= 12 -> monthrange y m = Devolve (dias_no_mes y m).
Proof.
  intros Hm. unfold monthrange.
  assert (H : (1 <=? m) && (m <=? 12) = true)
    by (apply andb_true_iff; rewrite !Z.leb_le; lia).
  now rewrite H.
Qed.

(** The month before ([ano], [mes]). *)
Lemma mes_anterior_ok ano mes :
  1 <= ano <= 9999 -> 1 <= mes <= 12 -> (2 <= ano \/ mes <> 1) ->
  let y := if mes =? 1 then ano - 1 else ano in
  let m := if mes =? 1 then 12 else mes - 1 in
  mes_anterior ano mes
  = Devolve ({| year := y; month := m; day := 1 |},
             {| year := y; month := m; day := dias_no_mes y m |})
    /\ 1 <= y <= 9999 /\ 1 <= m <= 12.
Proof.
  intros Hy Hm Hedge. cbv zeta. unfold mes_anterior.
  destruct (mes =? 1) eqn:E.
  - apply Z.eqb_eq in E. subst mes.
    assert (Hy' : 1 <= ano - 1 <= 9999) by lia.
    pose proof (dias_no_mes_bounds (ano - 1) 12 ltac:(lia)) as Hb.
    rewrite (mk_datetime_ok (ano - 1) 12 1) by lia.
    rewrite (monthrange_ok (ano - 1) 12) by lia. cbn [liga].
    rewrite (mk_datetime_ok (ano - 1) 12 (dias_no_mes (ano - 1) 12)) by lia.
    cbn [liga]. repeat split; lia.
  - apply Z.eqb_neq in E.
    pose proof (dias_no_mes_bounds ano (mes - 1) ltac:(lia)) as Hb.
    rewrite (mk_datetime_ok ano (mes - 1) 1) by lia.
    rewrite (monthrange_ok ano (mes - 1)) by lia. cbn [liga].
    rewrite (mk_datetime_ok ano (mes - 1) (dias_no_mes ano (mes - 1))) by lia.
    cbn [liga]. repeat split; lia.
Qed.

Lemma mes_anterior_year1 : mes_anterior 1 1 = Levanta ValueErrorData.
Proof. reflexivity. Qed.

Lemma datetime_eta d : {| year := year d; month := month d; day := day d |} = d.
Proof. now destruct d. Qed.

End DatasFacts.

Section DateProperties.
Import Retorno Datas DatasFacts.
#[local] Open Scope Z_scope.

(** X11 ([DatabaseManager._get_datas_referencia]).  For a reference date
    other than 31 January of the year 1 the function raises nothing and
    gives a period of two existing dates of one month, from the first of
    that month, that does not end after the reference date.  On the last
    day of a month the period is the whole month before: it ends on that
    month's last day, and the day after its end is the first of the
    reference month.  On any other day it runs from the first of the
    reference month to the reference date.  On 31 January of the year 1
    the function raises [ValueError]. *)
Theorem periodo_referencia_spec (d : datetime) :
  valid d = true ->
  (2 <= year d \/ month d <> 1 \/ ultimo_do_mes d = false ->
   exists di df,
     periodo_referencia d = Devolve (di, df)
     /\ _get_datas_referencia d = Devolve (strftime di, strftime df)
     /\ valid di = true /\ valid df = true
     /\ day di = 1 /\ year di = year df /\ month di = month df
     /\ antes_ou_igual df d
     /\ (ultimo_do_mes d = true ->
         ultimo_do_mes df = true
         /\ dia_seguinte df = {| year := year d; month := month d; day := 1 |})
     /\ (ultimo_do_mes d = false ->
         df = d /\ year di = year d /\ month di = month d))
  /\ (year d = 1 -> month d = 1 -> ultimo_do_mes d = true ->
      _get_datas_referencia d = Levanta ValueErrorData).
Proof.
  intros Hv. apply valid_iff in Hv as (Hy & Hm & Hd).
  pose proof (dias_no_mes_bounds (year d) (month d) Hm) as Hb.
  split.
  - intros Hedge. unfold _get_datas_referencia, periodo_referencia. cbv zeta.
    rewrite (monthrange_ok _ _ Hm). cbn [liga].
    fold (ultimo_do_mes d). destruct (ultimo_do_mes d) eqn:Hlast.
    + assert (Hedge' : 2 <= year d \/ month d <> 1)
        by (destruct Hedge as [?|[?|?]]; [now left | now right | discriminate]).
      destruct (mes_anterior_ok (year d) (month d) Hy Hm Hedge') as (Heq & Hy' & Hm').
      cbv zeta in Heq. rewrite Heq. cbn [liga fst snd].
      set (y := if month d =? 1 then year d - 1 else year d) in *.
      set (m := if month d =? 1 then 12 else month d - 1) in *.
      pose proof (dias_no_mes_bounds y m Hm') as Hb'.
      eexists _, _. split; [reflexivity|]. split; [reflexivity|].
      split; [apply valid_iff; cbn; lia|]. split; [apply valid_iff; cbn; lia|].
      split; [reflexivity|]. split; [reflexivity|]. split; [reflexivity|].
      split; [|split; [|discriminate]].
      * unfold antes_ou_igual. cbn [year month day]. subst y m.
        destruct (month d =? 1) eqn:E; [left; lia|].
        apply Z.eqb_neq in E. right. left. split; [reflexivity | lia].
      * intros _. split.
        -- unfold ultimo_do_mes. cbn [year month day]. apply Z.eqb_refl.
        -- unfold dia_seguinte. cbn [year month day]. rewrite Z.ltb_irrefl.
           subst y m. destruct (month d =? 1) eqn:E.
           ++ apply Z.eqb_eq in E. rewrite E. cbn. f_equal. lia.
           ++ apply Z.eqb_neq in E.
              assert (Hlt : (month d - 1 <? 12) = true) by (apply Z.ltb_lt; lia).
              rewrite Hlt. f_equal. lia.
    + rewrite (mk_datetime_ok (year d) (month d) 1) by lia. cbn [liga fst snd].
      eexists _, _. split; [reflexivity|]. split; [reflexivity|].
      split; [apply valid_iff; cbn; lia|]. split; [apply valid_iff; lia|].
      split; [reflexivity|]. split; [reflexivity|]. split; [reflexivity|].
      split; [|split; [discriminate|]].
      * unfold antes_ou_igual. right. right. repeat split; lia.
      * intros _. repeat split; reflexivity.
  - intros Hy1 Hm1 Hlast. unfold _get_datas_referencia, periodo_referencia. cbv zeta.
    rewrite (monthrange_ok _ _ Hm). cbn [liga].
    fold (ultimo_do_mes d). rewrite Hlast, Hy1, Hm1. reflexivity.
Qed.

(** X12 ([Utils._calcular_datas_contas_itens]).  On a day that is not
    the last of its month the function raises [UnboundLocalError]: its
    two dates are assigned under [if eh_ultimo_dia] only, and the branches
    for the other days are commented out.  On the last day of a month it
    gives what [DatabaseManager._get_datas_referencia] gives, the month
    before. *)
Theorem _calcular_datas_contas_itens_last_day_only (d : datetime) :
  valid d = true ->
  (ultimo_do_mes d = false ->
   _calcular_datas_contas_itens d = Levanta UnboundLocalError)
  /\ (ultimo_do_mes d = true ->
      _calcular_datas_contas_itens d = _get_datas_referencia d).
Proof.
  intros Hv. apply valid_iff in Hv as (Hy & Hm & Hd).
  unfold _calcular_datas_contas_itens, _get_datas_referencia, periodo_referencia.
  cbv zeta. rewrite (monthrange_ok _ _ Hm). cbn [liga]. fold (ultimo_do_mes d).
  split; intros Hlast; rewrite Hlast; [reflexivity|].
  destruct (mes_anterior (year d) (month d)) as [[di df]|e]; reflexivity.
Qed.

(** X13 ([Utils.ultimo_dia_mes_anterior], [Utils.primeiro_e_ultimo_dia],
    [Utils.obter_ultimo_dia_ano_passado]).  From the second year on these
    functions raise nothing.  [primeiro_e_ultimo_dia] gives the first and
    the last day of the current month, two existing dates with today
    between them; the date of [ultimo_dia_mes_anterior] is the day before
    the first of these, and on the last day of a month it is the end of
    the period of [_get_datas_referencia]; [obter_ultimo_dia_ano_passado]
    gives 31 December of the year before. *)
Theorem utils_dates_spec (hoje : datetime) :
  valid hoje = true -> 2 <= year hoje ->
  exists primeiro ultimo anterior,
    primeiro_e_ultimo_dia_em hoje = Devolve (primeiro, ultimo)
    /\ primeiro_e_ultimo_dia hoje = Devolve (strftime primeiro, strftime ultimo)
    /\ ultimo_dia_mes_anterior_em hoje = Devolve anterior
    /\ ultimo_dia_mes_anterior hoje = Devolve (strftime anterior)
    /\ valid primeiro = true /\ valid ultimo = true /\ valid anterior = true
    /\ antes_ou_igual primeiro hoje /\ antes_ou_igual hoje ultimo
    /\ ultimo_do_mes ultimo = true
    /\ dia_seguinte anterior = primeiro
    /\ (ultimo_do_mes hoje = true ->
        exists di, periodo_referencia hoje = Devolve (di, anterior))
    /\ obter_ultimo_dia_ano_passado hoje
       = Devolve (strftime {| year := year hoje - 1; month := 12; day := 31 |}).
Proof.
  intros Hv Hy2. apply valid_iff in Hv as (Hy & Hm & Hd).
  pose proof (dias_no_mes_bounds (year hoje) (month hoje) Hm) as Hb.
  set (y := if month hoje =? 1 then year hoje - 1 else year hoje).
  set (m := if month hoje =? 1 then 12 else month hoje - 1).
  assert (Hym : 1 <= y <= 9999 /\ 1 <= m <= 12).
  { subst y m. destruct (month hoje =? 1) eqn:E; [lia|]. apply Z.eqb_neq in E. lia. }
  destruct Hym as [Hy' Hm'].
  pose proof (dias_no_mes_bounds y m Hm') as Hb'.
  exists {| year := year hoje; month := month hoje; day := 1 |},
         {| year := year hoje; month := month hoje;
            day := dias_no_mes (year hoje) (month hoje) |},
         {| year := y; month := m; day := dias_no_mes y m |}.
  assert (H1 : primeiro_e_ultimo_dia_em hoje
               = Devolve ({| year := year hoje; month := month hoje; day := 1 |},
                          {| year := year hoje; month := month hoje;
                             day := dias_no_mes (year hoje) (month hoje) |})).
  { unfold primeiro_e_ultimo_dia_em.
    rewrite (mk_datetime_ok (year hoje) (month hoje) 1) by lia. cbn [liga].
    rewrite (monthrange_ok _ _ Hm). cbn [liga].
    now rewrite (mk_datetime_ok (year hoje) (month hoje) _) by lia. }
  assert (H2 : ultimo_dia_mes_anterior_em hoje
               = Devolve {| year := y; month := m; day := dias_no_mes y m |}).
  { unfold ultimo_dia_mes_anterior_em. cbv zeta. fold y m.
    rewrite (monthrange_ok y m Hm'). cbn [liga].
    now rewrite (mk_datetime_ok y m _) by lia. }
  split; [exact H1|]. split; [unfold primeiro_e_ultimo_dia; now rewrite H1|].
  split; [exact H2|]. split; [unfold ultimo_dia_mes_anterior; now rewrite H2|].
  split; [apply valid_iff; cbn; lia|]. split; [apply valid_iff; cbn; lia|].
  split; [apply valid_iff; cbn; lia|].
  split; [right; right; cbn; repeat split; lia|].
  split; [right; right; cbn; repeat split; lia|].
  split; [unfold ultimo_do_mes; cbn; apply Z.eqb_refl|].
  split; [|split].
  - unfold dia_seguinte. cbn [year month day]. rewrite Z.ltb_irrefl.
    subst y m. destruct (month hoje =? 1) eqn:E.
    + apply Z.eqb_eq in E. rewrite E. cbn. f_equal. lia.
    + apply Z.eqb_neq in E.
      assert (Hlt : (month hoje - 1 <? 12) = true) by (apply Z.ltb_lt; lia).
      rewrite Hlt. f_equal. lia.
  - intros Hlast. unfold periodo_referencia. cbv zeta.
    rewrite (monthrange_ok _ _ Hm). cbn [liga]. fold (ultimo_do_mes hoje). rewrite Hlast.
    destruct (mes_anterior_ok (year hoje) (month hoje) Hy Hm (or_introl Hy2)) as (Heq & _).
    cbv zeta in Heq. fold y m in Heq. rewrite Heq. eexists. reflexivity.
  - unfold obter_ultimo_dia_ano_passado.
    rewrite (mk_datetime_ok (year hoje - 1) 12 31); [reflexivity|lia|lia|].
    unfold dias_no_mes. cbn. lia.
Qed.

End DateProperties.

(** X11, at the last day of February of a leap year and at the day
    before it. *)
Lemma periodo_referencia_witness :
  Datas._get_datas_referencia {| Datas.year := 2024; Datas.month := 2; Datas.day := 29 |}
  = Retorno.Devolve ("01/01/2024", "31/01/2024")
  /\ Datas._get_datas_referencia {| Datas.year := 2024; Datas.month := 2; Datas.day := 28 |}
     = Retorno.Devolve ("01/02/2024", "28/02/2024")
  /\ exists di df,
       Datas.periodo_referencia
         {| Datas.year := 2024; Datas.month := 2; Datas.day := 29 |}
       = Retorno.Devolve (di, df).
Proof.
  split; [vm_compute; reflexivity|]. split; [vm_compute; reflexivity|].
  destruct (proj1 (periodo_referencia_spec
                     {| Datas.year := 2024; Datas.month := 2; Datas.day := 29 |} eq_refl))
    as (di & df & H & _).
  - left. vm_compute. discriminate.
  - exists di, df. exact H.
Defined.

(** X12, at the same two days. *)
Lemma _calcular_datas_contas_itens_witness :
  Datas._calcular_datas_contas_itens
    {| Datas.year := 2024; Datas.month := 2; Datas.day := 28 |}
  = Retorno.Levanta Retorno.UnboundLocalError
  /\ Datas._calcular_datas_contas_itens
       {| Datas.year := 2024; Datas.month := 2; Datas.day := 29 |}
     = Retorno.Devolve ("01/01/2024", "31/01/2024").
Proof.
  split.
  - exact (proj1 (_calcular_datas_contas_itens_last_day_only
                    {| Datas.year := 2024; Datas.month := 2; Datas.day := 28 |} eq_refl)
             eq_refl).
  - vm_compute. reflexivity.
Defined.

(** X13, at 15 March 2025. *)
Lemma utils_dates_witness :
  Datas.ultimo_dia_mes_anterior {| Datas.year := 2025; Datas.month := 3; Datas.day := 15 |}
  = Retorno.Devolve "28/02/2025"
  /\ exists primeiro ultimo,
       Datas.primeiro_e_ultimo_dia_em
         {| Datas.year := 2025; Datas.month := 3; Datas.day := 15 |}
       = Retorno.Devolve (primeiro, ultimo).
Proof.
  split; [vm_compute; reflexivity|].
  destruct (utils_dates_spec {| Datas.year := 2025; Datas.month := 3; Datas.day := 15 |}
              eq_refl)
    as (p & u & a & H & _).
  - vm_compute. discriminate.
  - exists p, u. exact H.
Defined.

(* ================================================================== *)
(** * The summary sheet *)
(* ================================================================== *)

Module ExportacaoFacts.
Import Text Cleaner Sql Store Exportacao TextFacts SepararFacts CreditoFacts CodigoFacts.
#[local] Arguments String.append : simpl nomatch.

Lemma le_null_trans a b c : le_null a b = true -> le_null b c = true -> le_null a c = true.
Proof.
  destruct a as [x|], b as [y|], c as [z|]; cbn; try congruence.
  rewrite !Qle_bool_iff. apply Qle_trans.
Qed.

Lemma le_null_total a b : le_null a b = false -> le_null b a = true.
Proof.
  destruct a as [x|], b as [y|]; cbn; try congruence.
  intros H. apply Qle_bool_iff. destruct (Qlt_le_dec y x) as [Hlt|Hle].
  - now apply Qlt_le_weak.
  - apply Qle_bool_iff in Hle. congruence.
Qed.

Lemma antes_true x y : antes x y = true -> nao_cresce x y.
Proof.
  unfold antes, nao_cresce. cbv zeta.
  now destruct (le_null (ABS (res_diferenca y)) (ABS (res_diferenca x))).
Qed.

Lemma antes_false x y : antes x y = false -> nao_cresce y x.
Proof.
  unfold antes, nao_cresce. cbv zeta.
  destruct (le_null (ABS (res_diferenca y)) (ABS (res_diferenca x))) eqn:E1.
  - destruct (le_null (ABS (res_diferenca x)) (ABS (res_diferenca y))); [reflexivity|discriminate].
  - intros _. now apply le_null_total.
Qed.

Lemma nao_cresce_trans x y z : nao_cresce x y -> nao_cresce y z -> nao_cresce x z.
Proof. unfold nao_cresce. intros H1 H2. eapply le_null_trans; eassumption. Qed.

Lemma In_insere z x l : In z (insere x l) <-> z = x \/ In z l.
Proof.
  induction l as [|y l IH]; cbn [insere].
  - cbn. intuition congruence.
  - destruct (antes x y); cbn [In]; [intuition congruence|].
    rewrite IH. intuition congruence.
Qed.

Lemma In_order_by z l : In z (order_by l) <-> In z l.
Proof.
  unfold order_by. induction l as [|x l IH]; [reflexivity|].
  cbn [List.fold_right]. rewrite In_insere, IH. cbn. intuition congruence.
Qed.

Lemma sorted_insere x l :
  StronglySorted nao_cresce l -> StronglySorted nao_cresce (insere x l).
Proof.
  induction l as [|y l IH]; intros Hs; cbn [insere].
  - repeat constructor.
  - inversion Hs as [|? ? Hl Hy]; subst. destruct (antes x y) eqn:E.
    + constructor; [exact Hs|]. constructor; [now apply antes_true|].
      eapply List.Forall_impl; [|exact Hy]. intros z Hz.
      eapply nao_cresce_trans; [apply antes_true; exact E | exact Hz].
    + constructor; [now apply IH|].
      apply List.Forall_forall. intros z Hz. apply In_insere in Hz as [->|Hz].
      * now apply antes_false.
      * rewrite List.Forall_forall in Hy. now apply Hy.
Qed.

Lemma sorted_order_by l : StronglySorted nao_cresce (order_by l).
Proof.
  unfold order_by. induction l as [|x l IH]; [constructor|].
  cbn [List.fold_right]. now apply sorted_insere.
Qed.

Lemma sorted_filter {A : Type} (R : A -> A -> Prop) (p : A -> bool) l :
  StronglySorted R l -> StronglySorted R (List.filter p l).
Proof.
  induction 1 as [|x l Hl IH Hx]; [constructor|]. cbn [List.filter].
  destruct (p x); [|exact IH]. constructor; [exact IH|].
  apply List.Forall_forall. intros z Hz. apply List.filter_In in Hz as [Hz _].
  rewrite List.Forall_forall in Hx. now apply Hx.
Qed.

Lemma sorted_map {A B : Type} (R : A -> A -> Prop) (S' : B -> B -> Prop) (h : A -> B) l :
  (forall x y, R x y -> S' (h x) (h y)) ->
  StronglySorted R l -> StronglySorted S' (List.map h l).
Proof.
  intros Hh. induction 1 as [|x l Hl IH Hx]; [constructor|]. cbn [List.map].
  constructor; [exact IH|]. apply List.Forall_map.
  eapply List.Forall_impl; [|exact Hx]. intros z. apply Hh.
Qed.

Lemma length_filter_insere (p : resultado_row -> bool) x l :
  List.length (List.filter p (insere x l))
  = ((if p x then 1 else 0) + List.length (List.filter p l))%nat.
Proof.
  induction l as [|y l IH]; cbn [insere].
  - cbn. now destruct (p x).
  - destruct (antes x y); cbn [List.filter].
    + now destruct (p x), (p y).
    + destruct (p y); cbn [List.length]; rewrite IH; destruct (p x); lia.
Qed.

Lemma length_filter_order_by (p : resultado_row -> bool) l :
  List.length (List.filter p (order_by l)) = List.length (List.filter p l).
Proof.
  unfold order_by. induction l as [|x l IH]; [reflexivity|].
  cbn [List.fold_right List.filter]. rewrite length_filter_insere, IH.
  now destruct (p x).
Qed.

(** ** The three masks, on a code *)

Lemma drop_while_empty p s : drop_while p s = "" -> forallb p s = true.
Proof.
  induction s as [|c s IH]; [reflexivity|]. cbn [drop_while forallb].
  destruct (p c); [exact IH | discriminate].
Qed.

Lemma drop_while_end_empty p s : drop_while_end p s = "" -> forallb p s = true.
Proof.
  induction s as [|c s IH]; [reflexivity|]. cbn [drop_while_end forallb].
  destruct (drop_while_end p s) as [|d r]; cbn [is_empty andb].
  - destruct (p c); [intros _; now apply IH | discriminate].
  - discriminate.
Qed.

Lemma drop_while_all p s : forallb p s = true -> drop_while p s = "".
Proof.
  induction s as [|c s IH]; [reflexivity|]. cbn [drop_while forallb].
  intros [-> Hs]%andb_true_iff. now apply IH.
Qed.

Lemma forallb_drop_while p q s : forallb q s = true -> forallb q (drop_while p s) = true.
Proof.
  induction s as [|c s IH]; [reflexivity|]. cbn [drop_while forallb].
  intros [Hc Hs]%andb_true_iff. destruct (p c); [now apply IH|].
  cbn [forallb]. now rewrite Hc, Hs.
Qed.

Lemma blank_is_space c : is_blank c = true -> is_space c = true.
Proof. unfold is_blank. intros H. apply Ascii.eqb_eq in H. now subst c. Qed.

(** A text that [TRIM] empties is emptied by [strip]. *)
Lemma trim_empty_strip_empty s :
  drop_while_end is_blank (drop_while is_blank s) = "" -> strip s = "".
Proof.
  intros H. apply drop_while_end_empty in H.
  assert (Hall : forallb is_blank s = true).
  { revert H. clear. induction s as [|c s IH]; [reflexivity|].
    cbn [drop_while forallb]. destruct (is_blank c) eqn:E; [exact IH|].
    cbn [forallb]. now rewrite E. }
  unfold strip. rewrite drop_while_all; [reflexivity|].
  eapply forallb_impl; [apply blank_is_space | exact Hall].
Qed.

Lemma digit_start_presente s :
  starts_with is_digit (strip s) = true -> codigo_presente s = true.
Proof.
  unfold codigo_presente. cbv zeta. destruct (strip s) as [|d t]; [discriminate|].
  cbn [starts_with]. intros Hd.
  destruct d as [[] [] [] [] [] [] [] []]; try discriminate Hd; reflexivity.
Qed.

Lemma separar_valor_codigo c :
  starts_with is_digit (strip c) = true ->
  starts_with is_digit (fst (separar_valor (Some c))) = true.
Proof.
  intros Hd.
  assert (Hne : is_empty (strip c) = false) by (destruct (strip c); [discriminate|reflexivity]).
  assert (Hm : exists g, re_match_codigo (strip c) = Some g).
  { unfold re_match_codigo. destruct (strip c) as [|d t]; [discriminate|].
    cbn [starts_with] in Hd. cbn [take_while]. rewrite Hd. cbn [is_empty]. now eexists. }
  destruct Hm as (g & Hm).
  destruct (re_match_codigo_shape _ _ Hm) as (rest & Hs & Hg & _).
  rewrite (separar_valor_match c g rest Hs Hm). cbn [fst].
  destruct g as [|d g]; [discriminate|]. cbn [starts_with] in Hg.
  cbn [filter]. now rewrite Hg.
Qed.

Lemma separar_valor_sem_codigo c :
  starts_with is_digit (strip c) = false -> fst (separar_valor (Some c)) = "".
Proof.
  intros Hd. unfold separar_valor.
  destruct (negb (is_empty (strip c))); [|reflexivity].
  now rewrite (re_match_codigo_none _ Hd).
Qed.

Lemma mascaras_codigo (r : resultado_row) :
  (negb (is_null (res_codigo_fornecedor r))
   && ne_empty (res_codigo_fornecedor r)
   && ne_empty (TRIM (res_codigo_fornecedor r)))
  && match res_codigo_fornecedor r with
     | Some c => codigo_presente c
     | None => false
     end
  && codigo_presente (fst (separar_valor (res_codigo_fornecedor r)))
  = codigo_numerico r.
Proof.
  unfold codigo_numerico. destruct (res_codigo_fornecedor r) as [c|]; [|reflexivity].
  destruct (starts_with is_digit (strip c)) eqn:Hd.
  - pose proof (separar_valor_codigo c Hd) as Hcod.
    pose proof (separar_valor_digits (Some c)) as Hdig.
    assert (H3 : codigo_presente (fst (separar_valor (Some c))) = true).
    { apply digit_start_presente. now rewrite (digits_strip _ Hdig). }
    rewrite H3, (digit_start_presente c Hd).
    cbn [is_null negb ne_empty TRIM option_map andb].
    assert (H1 : is_empty c = false).
    { destruct c; [discriminate Hd | reflexivity]. }
    rewrite H1. cbn [negb andb].
    destruct (drop_while_end is_blank (drop_while is_blank c)) eqn:E; [|reflexivity].
    apply trim_empty_strip_empty in E. rewrite E in Hd. discriminate.
  - rewrite (separar_valor_sem_codigo c Hd). cbn. now rewrite andb_false_r.
Qed.

Lemma filter_filter_list {A : Type} (p q : A -> bool) l :
  List.filter p (List.filter q l) = List.filter (fun x => q x && p x) l.
Proof.
  induction l as [|x l IH]; [reflexivity|]. cbn [List.filter].
  destruct (q x); cbn [List.filter andb]; [destruct (p x)|]; now rewrite IH.
Qed.

(** The rows behind the sheet: the groups of the query whose code, stripped,
    starts with a digit. *)
Lemma resumo_conciliacao_rows db :
  exists rows,
    resumo_conciliacao db = List.map linha_resumo rows
    /\ StronglySorted nao_cresce rows
    /\ (forall r, In r rows <-> In r (resultado db) /\ codigo_numerico r = true)
    /\ List.length rows = List.length (List.filter codigo_numerico (resultado db)).
Proof.
  unfold resumo_conciliacao, query_resumo. cbv zeta.
  set (f1 := fun r : resultado_row =>
               negb (is_null (res_codigo_fornecedor r))
               && ne_empty (res_codigo_fornecedor r)
               && ne_empty (TRIM (res_codigo_fornecedor r))).
  set (f2 := fun r : resultado_row =>
               match res_codigo_fornecedor r with
               | Some c => codigo_presente c
               | None => false
               end).
  set (f3 := fun r : resultado_row =>
               codigo_presente (fst (separar_valor (res_codigo_fornecedor r)))).
  eexists. split; [reflexivity|].
  assert (Hmask : forall r, f1 r && f2 r && f3 r = codigo_numerico r)
    by (intros r; apply mascaras_codigo).
  split; [|split].
  - apply sorted_filter, sorted_filter, sorted_order_by.
  - intros r. rewrite !List.filter_In, In_order_by, List.filter_In, <- Hmask.
    rewrite !andb_true_iff. tauto.
  - rewrite filter_filter_list, length_filter_order_by, filter_filter_list.
    f_equal. apply List.filter_ext. intros r. rewrite <- Hmask.
    destruct (f1 r), (f2 r), (f3 r); reflexivity.
Qed.

End ExportacaoFacts.

Section SummarySheet.
Import Text Cleaner Sql Store Exportacao ExportacaoFacts CodigoFacts TextFacts SepararFacts.

(** X14 ([export_to_excel], lines 2031-2111).  The rows of the sheet
    'Resumo da Conciliação'.  The sheet shows a group of [resultado] if
    and only if its code, with its white space stripped, starts with a
    digit; the other groups are left out.  The code shown is not empty
    and holds digits only.  The description shown is what follows the
    digits in the text of the code, not the description of the group: for
    a group whose code holds digits only it is empty.  The rows come in
    the order of the absolute difference, largest first, and the three
    amounts of a row have 0 for [NULL]. *)
Theorem resumo_conciliacao_spec (db : database) :
  (forall row,
     In row (resumo_conciliacao db)
     <-> exists r, In r (resultado db) /\ codigo_numerico r = true /\ row = linha_resumo r)
  /\ List.length (resumo_conciliacao db)
     = List.length (List.filter codigo_numerico (resultado db))
  /\ (forall row,
        In row (resumo_conciliacao db) ->
        is_empty (rs_codigo row) = false /\ forallb is_digit (rs_codigo row) = true)
  /\ (forall r c,
        res_codigo_fornecedor r = Some c -> forallb is_digit c = true ->
        rs_codigo (linha_resumo r) = c /\ rs_descricao_fornecedor (linha_resumo r) = "")
  /\ StronglySorted
       (fun a b => Qle_bool (Qabs (rs_diferenca b)) (Qabs (rs_diferenca a)) = true)
       (resumo_conciliacao db).
Proof.
  destruct (resumo_conciliacao_rows db) as (rows & -> & Hsorted & Hin & Hlen).
  split; [|split; [|split; [|split]]].
  - intros row. rewrite List.in_map_iff. split.
    + intros (r & <- & Hr). apply Hin in Hr as [Hr Hc]. now exists r.
    + intros (r & Hr & Hc & ->). exists r. split; [reflexivity|]. apply Hin. now split.
  - now rewrite List.length_map.
  - intros row Hrow. apply List.in_map_iff in Hrow as (r & <- & Hr).
    apply Hin in Hr as [_ Hc]. unfold linha_resumo. cbn [rs_codigo].
    split; [|apply separar_valor_digits].
    unfold codigo_numerico in Hc. destruct (res_codigo_fornecedor r) as [c|]; [|discriminate].
    apply separar_valor_codigo in Hc. now destruct (fst (separar_valor (Some c))).
  - intros r c Hc Hdig. unfold linha_resumo. cbn [rs_codigo rs_descricao_fornecedor].
    rewrite Hc. destruct c as [|d c]; [split; reflexivity|].
    assert (Hstrip : strip (String d c) = String d c) by now apply digits_strip.
    assert (Hm : re_match_codigo (String d c) = Some (String d c)).
    { pose proof (re_match_codigo_parts (String d c) "" "" "" eq_refl Hdig eq_refl eq_refl
                    (fun _ => eq_refl) eq_refl (fun _ => eq_refl)) as H.
      cbn [String.append] in H. now rewrite !append_empty_r in H. }
    rewrite (separar_valor_match (String d c) (String d c) "");
      [|now rewrite Hstrip, append_empty_r | now rewrite Hstrip].
    cbn [fst snd]. split; [now apply filter_all | reflexivity].
  - eapply sorted_map; [|exact Hsorted].
    intros x y Hxy. unfold nao_cresce in Hxy. unfold linha_resumo. cbn [rs_diferenca].
    destruct (res_diferenca y) as [dy|], (res_diferenca x) as [dx|]; cbn in *;
      try exact Hxy; try discriminate.
    apply Qle_bool_iff. apply Qabs_nonneg.
Qed.

End SummarySheet.

(** X14, at the sample database after a run with 1200.00 on the
    accounting side: the two groups, the larger difference first, with no
    description. *)
Lemma resumo_conciliacao_witness :
  List.map (fun row => (Exportacao.rs_codigo row, Exportacao.rs_descricao_fornecedor row))
    (Exportacao.resumo_conciliacao (Processo.store (Exemplos.conn_final 1200)))
  = [("1001", ""); ("2002", "")]
  /\ Exportacao.rs_descricao_fornecedor
       (Exportacao.linha_resumo
          (hd Exemplos.resultado_row_default
             (Store.resultado (Processo.store (Exemplos.conn_final 1200)))))
     = "".
Proof.
  split; [vm_compute; reflexivity|].
  refine (proj2 (proj1 (proj2 (proj2 (proj2 (resumo_conciliacao_spec
                                               (Processo.store (Exemplos.conn_final 1200))))))
                   _ "1001" _ _)).
  - vm_compute. reflexivity.
  - reflexivity.
Defined.

(* ================================================================== *)
(** * The tables an import writes, and the column mappings *)
(* ================================================================== *)

Module MapeamentoFacts.
Import Text Importacao ImportacaoFacts ColunasFacts Planilha.

Lemma valor_de_some k m v : valor_de k m = Some v -> In v (List.map snd m).
Proof.
  induction m as [|[k' v'] m IH]; [discriminate|]. cbn [valor_de List.map snd].
  destruct (String.eqb k k'); [intros [= ->]; now left | intros H; right; now apply IH].
Qed.

Lemma valor_de_none k m : valor_de k m = None -> ~ In k (List.map fst m).
Proof.
  induction m as [|[k' v'] m IH]; [intros _ []|]. cbn [valor_de List.map fst].
  destruct (String.eqb k k') eqn:E; [discriminate|]. apply String.eqb_neq in E.
  intros H [Hk|Hk]; [congruence | now apply IH].
Qed.

(** A mapping whose values are not keys renames every key away. *)
Lemma rename_away m labels k :
  List.forallb (fun v => negb (mem v (List.map fst m))) (List.map snd m) = true ->
  In k (List.map fst m) -> ~ In k (rename m labels).
Proof.
  intros Hdisj Hk Hin. unfold rename in Hin.
  apply List.in_map_iff in Hin as (l & Hl & _).
  destruct (valor_de l m) as [v|] eqn:E.
  - subst v. apply valor_de_some in E.
    rewrite List.forallb_forall in Hdisj. specialize (Hdisj k E).
    apply negb_true_iff, mem_false_iff in Hdisj. contradiction.
  - subst l. now apply valor_de_none in E.
Qed.

Lemma get_expected_columns_unknown t :
  mem t [TABLE_FINANCEIRO; TABLE_MODELO1; TABLE_CONTAS_ITENS; TABLE_ADIANTAMENTO] = false ->
  get_expected_columns t = Raise ValueError.
Proof.
  unfold mem. cbn [List.existsb]. rewrite !orb_false_iff.
  intros (H1 & H2 & H3 & H4 & _). unfold get_expected_columns.
  now rewrite H1, H2, H3, H4.
Qed.

End MapeamentoFacts.

Section SourceTables.
Import Text Importacao ImportacaoFacts ColunasFacts Planilha MapeamentoFacts.

Variable raw : Type.
Variable parse_rows : string -> result (list (list (option string))).
Variable DataFrame :
  list (list (option string)) -> list rotulo -> result (list (list (option string))).
Variable read_excel : string -> option nat -> nat -> result raw.
Variable read_csv : string -> string -> result raw.
Variable of_tabela : tabela -> raw.
Variable mapeia : string -> raw -> result raw.
Variable completa_e_limpa : string -> string -> list string -> raw -> result frame.

Let carrega :=
  load_frame raw parse_rows DataFrame read_excel read_csv of_tabela mapeia completa_e_limpa.

(** X15 ([import_from_excel], [get_expected_columns]).  An import
    writes one of the four source tables or nothing.  When the file name
    has no report token and the table asked for is not [financeiro],
    [modelo1], [contas_itens] or [adiantamento], the call does not return
    [True] and changes no table: [get_expected_columns] raises
    [ValueError] for such a name, and a file that was read and mapped
    ends in [ExcecaoNaoMapeadaError].  So no import changes a table
    other than these four ([resultado] and [resultado_adiantamento], for
    two). *)
Theorem import_from_excel_source_tables_only (file_path table_name : string)
  (db : gmap string frame) :
  let tabelas_origem :=
    [TABLE_FINANCEIRO; TABLE_MODELO1; TABLE_CONTAS_ITENS; TABLE_ADIANTAMENTO] in
  (mem (destino file_path table_name) tabelas_origem = false ->
   fst (import_from_excel carrega file_path table_name db) = db
   /\ snd (import_from_excel carrega file_path table_name db) <> Ok true
   /\ (forall df df',
         le_arquivo raw parse_rows DataFrame read_excel read_csv of_tabela file_path = Ok df ->
         mapeia file_path df = Ok df' ->
         snd (import_from_excel carrega file_path table_name db)
         = Raise ExcecaoNaoMapeadaError))
  /\ (forall t, mem t tabelas_origem = false ->
        fst (import_from_excel carrega file_path table_name db) !! t = db !! t).
Proof.
  cbv zeta.
  assert (Hunknown :
    mem (destino file_path table_name)
      [TABLE_FINANCEIRO; TABLE_MODELO1; TABLE_CONTAS_ITENS; TABLE_ADIANTAMENTO] = false ->
    exists e, carrega file_path (destino file_path table_name) = Raise e
              /\ (forall df df',
                    le_arquivo raw parse_rows DataFrame read_excel read_csv of_tabela
                      file_path = Ok df ->
                    mapeia file_path df = Ok df' -> e = ValueError)).
  { intros Hmem. subst carrega. unfold load_frame, bind.
    destruct (le_arquivo _ _ _ _ _ _ file_path) as [df|e];
      [|exists e; split; [reflexivity | intros ? ? [=]]].
    destruct (mapeia file_path df) as [df'|e] eqn:Hmap.
    - rewrite (get_expected_columns_unknown _ Hmem). now exists ValueError.
    - exists e. split; [reflexivity|]. intros df0 df1 [= <-] H. congruence. }
  split.
  - intros Hmem. destruct (Hunknown Hmem) as (e & He & Hval).
    unfold import_from_excel. rewrite He.
    split; [now destruct e|]. split; [now destruct e|].
    intros df df' H1 H2. now rewrite (Hval df df' H1 H2).
  - intros t Ht.
    destruct (String.eqb (destino file_path table_name) t) eqn:E.
    + apply String.eqb_eq in E. subst t. destruct (Hunknown Ht) as (e & He & _).
      unfold import_from_excel. rewrite He. now destruct e.
    + apply String.eqb_neq in E. unfold import_from_excel.
      destruct (carrega file_path (destino file_path table_name)) as [df|e].
      * cbn [fst]. now rewrite lookup_insert_ne.
      * now destruct e.
Qed.

End SourceTables.

Section ColumnMappings.
Import Text Importacao ImportacaoFacts ColunasFacts Planilha MapeamentoFacts.

(** X16 ([_get_column_mapping], [Settings.COLUNAS_*],
    [get_expected_columns], line 357 of [import_from_excel]).  For a file
    whose name holds one report token, [_get_column_mapping] gives the
    mapping of the destination table (for .txt and .xml files, of the two
    reports ctbr140 and ctbr100 only).  The three accounting mappings go
    from the name of the table's column to the label of the file, the
    reverse of the financial one: whatever the labels of the file are,
    after [df.rename] with such a mapping no expected column of the
    destination is a label of the frame (a label that was one is renamed
    away), so every expected column is left to the suggestions.  The
    financial mapping renames its file labels to the expected names. *)
Theorem accounting_mapping_renames_away (file_path table_name tok : string)
  (labels : list string) :
  In tok ["ctbr040"; "ctbr140"; "ctbr100"] ->
  has_token tok file_path = true ->
  (forall t, In t ["finr150"; "ctbr040"; "ctbr140"; "ctbr100"] -> t <> tok ->
             has_token t file_path = false) ->
  _get_column_mapping file_path <> [] ->
  _get_column_mapping file_path = colunas_da_tabela (destino file_path table_name)
  /\ (exists cols,
        get_expected_columns (destino file_path table_name) = Ok cols
        /\ forall c, In c cols -> ~ In c (rename (_get_column_mapping file_path) labels))
  /\ rename COLUNAS_FINANCEIRO (List.map fst COLUNAS_FINANCEIRO)
     = List.map snd COLUNAS_FINANCEIRO.
Proof.
  intros Htok Hhas Hothers Hne.
  assert (H150 : contains "finr150" (Text.map py_lower (path_stem file_path)) = false).
  { apply (Hothers "finr150"); [cbn; tauto|].
    intros <-. cbn in Htok. intuition discriminate. }
  assert (Hcase :
    (contains "ctbr040" (Text.map py_lower (path_stem file_path)) = true
     /\ contains "ctbr140" (Text.map py_lower (path_stem file_path)) = false
     /\ contains "ctbr100" (Text.map py_lower (path_stem file_path)) = false)
    \/ (contains "ctbr040" (Text.map py_lower (path_stem file_path)) = false
        /\ contains "ctbr140" (Text.map py_lower (path_stem file_path)) = true
        /\ contains "ctbr100" (Text.map py_lower (path_stem file_path)) = false)
    \/ (contains "ctbr040" (Text.map py_lower (path_stem file_path)) = false
        /\ contains "ctbr140" (Text.map py_lower (path_stem file_path)) = false
        /\ contains "ctbr100" (Text.map py_lower (path_stem file_path)) = true)).
  { cbn [In] in Htok. destruct Htok as [<-|[<-|[<-|[]]]].
    - left. split; [exact Hhas|].
      split; apply Hothers; cbn; try tauto; discriminate.
    - right. left. split; [apply Hothers; cbn; try tauto; discriminate|].
      split; [exact Hhas|]. apply Hothers; cbn; try tauto; discriminate.
    - right. right. split; [apply Hothers; cbn; try tauto; discriminate|].
      split; [apply Hothers; cbn; try tauto; discriminate|]. exact Hhas. }
  assert (Hmap : _get_column_mapping file_path
                 = colunas_da_tabela (destino file_path table_name)
                 /\ In (destino file_path table_name)
                      [TABLE_MODELO1; TABLE_CONTAS_ITENS; TABLE_ADIANTAMENTO]).
  { revert Hne. unfold _get_column_mapping, destino. cbv zeta. rewrite H150.
    destruct Hcase as [(-> & -> & ->)|[(-> & -> & ->)|(-> & -> & ->)]];
      destruct (String.eqb (Text.map py_lower (path_suffix file_path)) ".xlsx");
      destruct (String.eqb (Text.map py_lower (path_suffix file_path)) ".txt");
      destruct (String.eqb (Text.map py_lower (path_suffix file_path)) ".xml");
      intros Hne; try (exfalso; apply Hne; reflexivity);
      (split; [reflexivity | cbn; tauto]). }
  destruct Hmap as [Hmap Hdest]. split; [exact Hmap|]. split; [|reflexivity].
  rewrite Hmap. cbn [In] in Hdest.
  destruct Hdest as [<-|[<-|[<-|[]]]];
    (eexists; split; [reflexivity|]; intros c Hc; apply rename_away;
     [reflexivity | cbn in Hc |- *; tauto]).
Qed.

End ColumnMappings.

(** X15, at a file without a token, for the table [resultado]. *)
Lemma import_from_excel_source_tables_only_witness :
  fst (Importacao.import_from_excel
         (Planilha.load_frame unit (fun _ => Raise ValueError) (fun _ _ => Raise ValueError)
            (fun _ _ _ => Ok tt) (fun _ _ => Raise ValueError) (fun _ => tt)
            (fun _ df => Ok df) (fun _ _ _ _ => Ok Exemplos.df_exemplo))
         "/dados/planilha.xlsx" "resultado" Exemplos.db_exemplo)
  = Exemplos.db_exemplo.
Proof.
  refine (proj1 (proj1 (import_from_excel_source_tables_only unit
                          (fun _ => Raise ValueError) (fun _ _ => Raise ValueError)
                          (fun _ _ _ => Ok tt) (fun _ _ => Raise ValueError) (fun _ => tt)
                          (fun _ df => Ok df) (fun _ _ _ _ => Ok Exemplos.df_exemplo)
                          "/dados/planilha.xlsx" "resultado" Exemplos.db_exemplo) _)).
  vm_compute. reflexivity.
Defined.

(** X16, at a balance file whose labels are already the names of the
    table's columns. *)
Lemma accounting_mapping_renames_away_witness :
  Planilha.rename (Planilha._get_column_mapping "/dados/ctbr140_jan.xlsx")
    ["conta_contabil"; "saldo_atual"; "Filial"]
  = ["Codigo"; "Saldo atual"; "Filial"]
  /\ Planilha._get_column_mapping "/dados/ctbr140_jan.xlsx"
     = Planilha.colunas_da_tabela
         (Importacao.destino "/dados/ctbr140_jan.xlsx" "financeiro").
Proof.
  split; [vm_compute; reflexivity|].
  refine (proj1 (accounting_mapping_renames_away "/dados/ctbr140_jan.xlsx" "financeiro"
                   "ctbr140" [] _ _ _ _)).
  - cbn. tauto.
  - vm_compute. reflexivity.
  - intros t Ht Hne. cbn [In] in Ht.
    destruct Ht as [<-|[<-|[<-|[<-|[]]]]]; try (vm_compute; reflexivity).
    now exfalso.
  - vm_compute. discriminate.
Defined.

(* ================================================================== *)
(** * The statistics and the metadata of the export *)
(* ================================================================== *)

Module MetadadosFacts.
Import Text Sql Store Conciliacao Retorno Datas DatasFacts Metadados.

Lemma _get_datas_referencia_ok d :
  valid d = true -> (2 <= year d)%Z ->
  exists datas, _get_datas_referencia d = Devolve datas.
Proof.
  intros Hv Hy2. apply valid_iff in Hv as (Hy & Hm & Hd).
  unfold _get_datas_referencia, periodo_referencia. cbv zeta.
  rewrite (monthrange_ok _ _ Hm). cbn [liga].
  destruct (day d =? dias_no_mes (year d) (month d))%Z.
  - destruct (mes_anterior_ok (year d) (month d) Hy Hm (or_introl Hy2)) as (Heq & _).
    cbv zeta in Heq. rewrite Heq. cbn [liga]. now eexists.
  - rewrite (mk_datetime_ok (year d) (month d) 1) by lia. cbn [liga]. now eexists.
Qed.

(** The three counts of a table with rows add up to its number of rows. *)
Lemma conta_status_partition {A : Type} (status_de : A -> status) (t : list A) :
  t <> [] ->
  exists a b c : Z,
    conta_status status_de Conferido t = Some a
    /\ conta_status status_de Divergente t = Some b
    /\ conta_status status_de Pendente t = Some c
    /\ (0 <= a)%Z /\ (0 <= b)%Z /\ (0 <= c)%Z
    /\ (a + b + c)%Z = Z.of_nat (List.length t).
Proof.
  intros Hne. unfold conta_status. destruct t as [|x t]; [contradiction|].
  eexists _, _, _. repeat (split; [reflexivity || apply Nat2Z.is_nonneg|]).
  rewrite <- !Nat2Z.inj_add. f_equal. clear Hne.
  induction (x :: t) as [|y l IH]; [reflexivity|]. cbn [List.filter List.length].
  destruct (status_de y); cbn [status_eqb List.length]; lia.
Qed.

Lemma conta_status_empty {A : Type} (status_de : A -> status) s :
  conta_status status_de s [] = None.
Proof. reflexivity. Qed.

End MetadadosFacts.

Section ExportStatistics.
Import Text Sql Store Conciliacao Retorno Datas DatasFacts Metadados MetadadosFacts.

Variable escreve_abas : string -> database -> retorno unit.
Variable finaliza : string -> list valor -> retorno string.

(** X17 ([export_to_excel], lines 1693-1763 and 2113-2296).  The
    statistics and the metadata of the export.  On a [resultado] with
    rows the counts of the three statuses add up to the number of
    rows.  On a table without rows the counts are [NULL] (a [SUM] over no
    row), and the metadata cannot be built: [int(None)] raises
    [TypeError].  So an export of the vendors with [resultado] empty, or
    of the advances with [resultado_adiantamento] empty, raises
    [ResultsSaveError], whatever was written before; and an export ends
    in no other way than by returning or raising [ResultsSaveError]. *)
Theorem export_to_excel_statistics (agora : datetime) (export_type : string)
  (db : database) :
  valid agora = true -> (2 <= year agora)%Z ->
  (resultado db <> [] ->
   exists a b c : Z,
     conciliados_ok (query_stats db) = Some a
     /\ divergentes (query_stats db) = Some b
     /\ pendentes (query_stats db) = Some c
     /\ (a + b + c)%Z = total_registros (query_stats db))
  /\ (resultado db = [] -> export_type <> "adiantamentos" ->
      (forall data_inicial data_final,
         metadata_values export_type data_inicial data_final
           (query_stats db) (query_adiantamento_stats db)
         = Levanta TypeError)
      /\ export_to_excel escreve_abas finaliza agora export_type db
         = Levanta ResultsSaveError)
  /\ (resultado_adiantamento db = [] -> export_type <> "fornecedores" ->
      (forall data_inicial data_final,
         metadata_values export_type data_inicial data_final
           (query_stats db) (query_adiantamento_stats db)
         = Levanta TypeError)
      /\ export_to_excel escreve_abas finaliza agora export_type db
         = Levanta ResultsSaveError)
  /\ ((exists caminho,
         export_to_excel escreve_abas finaliza agora export_type db = Devolve caminho)
      \/ export_to_excel escreve_abas finaliza agora export_type db
         = Levanta ResultsSaveError).
Proof.
  intros Hv Hy2.
  destruct (_get_datas_referencia_ok agora Hv Hy2) as (datas & Hdatas).
  assert (Hexp : forall mv,
            (forall data_inicial data_final,
               metadata_values export_type data_inicial data_final
                 (query_stats db) (query_adiantamento_stats db) = Levanta mv) ->
            export_to_excel escreve_abas finaliza agora export_type db
            = Levanta ResultsSaveError).
  { intros mv Hmv. unfold export_to_excel. rewrite Hdatas. cbn [liga].
    destruct (escreve_abas export_type db) as [[]|e]; [|reflexivity].
    cbn [liga]. cbv zeta. now rewrite Hmv. }
  split; [|split; [|split]].
  - intros Hne.
    destruct (conta_status_partition res_status (resultado db) Hne)
      as (a & b & c & Ha & Hb & Hc & _ & _ & _ & Hsum).
    exists a, b, c. unfold query_stats. cbv zeta. cbn. tauto.
  - intros Hempty Hex.
    assert (Hmv : forall data_inicial data_final,
              metadata_values export_type data_inicial data_final
                (query_stats db) (query_adiantamento_stats db) = Levanta TypeError).
    { intros di df. unfold metadata_values.
      apply String.eqb_neq in Hex. rewrite Hex.
      unfold query_stats. cbv zeta. cbn [conciliados_ok total_registros].
      rewrite Hempty. now destruct (String.eqb export_type "fornecedores"). }
    split; [exact Hmv | exact (Hexp _ Hmv)].
  - intros Hempty Hex.
    assert (Hmv : forall data_inicial data_final,
              metadata_values export_type data_inicial data_final
                (query_stats db) (query_adiantamento_stats db) = Levanta TypeError).
    { intros di df. unfold metadata_values.
      apply String.eqb_neq in Hex. rewrite Hex.
      unfold query_adiantamento_stats. cbv zeta.
      cbn [adiantamentos_ok adiantamentos_divergentes total_adiantamentos].
      rewrite Hempty.
      destruct (String.eqb export_type "adiantamentos"); [reflexivity|].
      destruct (resultado db) as [|r t] eqn:Hres.
      - unfold query_stats. cbv zeta.
        cbn [conciliados_ok divergentes pendentes total_registros total_financeiro
             total_contabil diferenca_geral].
        rewrite Hres. reflexivity.
      - destruct (conta_status_partition res_status (r :: t) ltac:(discriminate))
          as (a & b & c & Ha & Hb & Hc & _).
        unfold query_stats. cbv zeta.
        cbn [conciliados_ok divergentes pendentes total_registros total_financeiro
             total_contabil diferenca_geral].
        rewrite Hres, Ha, Hb, Hc. reflexivity. }
    split; [exact Hmv | exact (Hexp _ Hmv)].
  - unfold export_to_excel. rewrite Hdatas. cbn [liga].
    match goal with |- context [tenta ?body _] => destruct body as [p|e] end;
      cbn [tenta]; [left; now exists p | now right].
Qed.

End ExportStatistics.

(** X17, at the sample database before any run: no group yet. *)
Lemma export_to_excel_statistics_witness :
  Metadados.export_to_excel (fun _ _ => Retorno.Devolve tt)
    (fun _ _ => Retorno.Devolve "CONCILIACAO.xlsx")
    {| Datas.year := 2025; Datas.month := 3; Datas.day := 15 |} "all"
    (Exemplos.db_conciliacao 1000)
  = Retorno.Levanta Retorno.ResultsSaveError.
Proof.
  refine (proj2 (proj1 (proj2 (export_to_excel_statistics (fun _ _ => Retorno.Devolve tt)
                                 (fun _ _ => Retorno.Devolve "CONCILIACAO.xlsx")
                                 {| Datas.year := 2025; Datas.month := 3; Datas.day := 15 |}
                                 "all" (Exemplos.db_conciliacao 1000) _ _)) _ _)).
  - reflexivity.
  - vm_compute. discriminate.
  - reflexivity.
  - discriminate.
Defined.

(* ================================================================== *)
(** * The check of the totals *)
(* ================================================================== *)

Module ConsistenciaFacts.
Import Text Importacao ImportacaoFacts Esquema EsquemaFacts InicializacaoFacts.
Import Retorno Consistencia.

(** Nothing gives [financeiro] the column [saldo_devedor]. *)
Lemma saldo_devedor_absent (db db1 : gmap string frame)
  (imports : list ((string -> string -> result frame) * string * string)) :
  mem "saldo_devedor" (table_info db TABLE_FINANCEIRO) = false ->
  _initialize_database db = Ok db1 ->
  mem "saldo_devedor" (table_info (importa_todos imports db1) TABLE_FINANCEIRO) = false.
Proof.
  intros Hdb Hinit. apply _initialize_database_inv in Hinit.
  rewrite importa_todos_mem.
  rewrite (ensure_columns_mem _ _ _ "saldo_devedor" TABLE_FINANCEIRO Hinit).
  cbn [COLUNAS_GARANTIDAS List.existsb fst snd]. cbn.
  rewrite orb_false_r.
  unfold create_tables. cbv zeta.
  repeat (apply create_table_if_not_exists_mem;
          [|intros E; first [discriminate E | reflexivity]]).
  exact Hdb.
Qed.

Lemma prepara_saldo_devedor (db : gmap string frame) :
  mem "saldo_devedor" (table_info db TABLE_FINANCEIRO) = false -> prepara db = false.
Proof.
  intros H. unfold prepara. cbn [COLUNAS_CONSULTA List.forallb fst snd].
  now rewrite H.
Qed.

Lemma diferenca_percentual_ok (totals : option Q * option Q) :
  (exists d, diferenca_percentual totals = Devolve d)
  <-> exists a b, totals = (Some a, Some b) /\ ~ (py_max a b == 0)%Q.
Proof.
  unfold diferenca_percentual. destruct totals as [[a|] [b|]].
  - destruct (Qeq_bool (py_max a b) 0) eqn:E; split.
    + intros (d & [=]).
    + intros (a' & b' & [= <- <-] & Hne). exfalso. apply Hne.
      now apply Qeq_bool_iff.
    + intros _. exists a, b. split; [reflexivity|].
      now apply Qeq_bool_neq.
    + intros _. eexists. reflexivity.
  - split; [intros (d & [=]) | intros (a' & b' & [=] & _)].
  - split; [intros (d & [=]) | intros (a' & b' & [=] & _)].
  - split; [intros (d & [=]) | intros (a' & b' & [=] & _)].
Qed.

End ConsistenciaFacts.

Section TotalsCheck.
Import Text Importacao Esquema Retorno Consistencia ConsistenciaFacts.

Variable totais : gmap string frame -> option Q * option Q.

(** X18 ([validate_data_consistency], lines 1188-1212).  The check of
    the totals returns [True] exactly when its query can be prepared,
    both sums are numbers and the greater of the two is not zero: the
    difference between the totals has no part in the result.  And the
    query cannot be prepared on a file that this code builds: it sums
    the column [saldo_devedor] of [financeiro], which the schema does
    not have, [ensure_column] does not add and an import does not keep.
    So on a file whose [financeiro] lacks the column (a new file, for
    one), after [_initialize_database] and any imports, the query
    raises [OperationalError] and the check returns [False]. *)
Theorem validate_data_consistency_spec :
  (forall db,
     validate_data_consistency totais db = true
     <-> prepara db = true
         /\ exists a b, totais db = (Some a, Some b) /\ ~ (py_max a b == 0)%Q)
  /\ (forall (db db1 : gmap string frame)
        (imports : list ((string -> string -> result frame) * string * string)),
        mem "saldo_devedor" (table_info db TABLE_FINANCEIRO) = false ->
        _initialize_database db = Ok db1 ->
        consulta_totais totais (importa_todos imports db1) = Levanta SqlOperationalError
        /\ validate_data_consistency totais (importa_todos imports db1) = false).
Proof.
  split.
  - intros db. unfold validate_data_consistency, consulta_totais.
    destruct (prepara db); cbn [liga].
    + rewrite <- diferenca_percentual_ok.
      destruct (diferenca_percentual (totais db)) as [d|e]; cbn [liga]; split.
      * intros _. split; [reflexivity | now exists d].
      * reflexivity.
      * discriminate.
      * intros (_ & d & [=]).
    + split; [discriminate | intros ([=] & _)].
  - intros db db1 imports Hdb Hinit.
    pose proof (prepara_saldo_devedor _ (saldo_devedor_absent db db1 imports Hdb Hinit))
      as Hprep.
    unfold validate_data_consistency, consulta_totais. now rewrite Hprep.
Qed.

End TotalsCheck.

(** X18, at a new file and the import of the sample frame, with sums
    that differ by half. *)
Lemma validate_data_consistency_witness :
  exists db1,
    Esquema._initialize_database (∅ : gmap string Importacao.frame) = Ok db1
    /\ Consistencia.validate_data_consistency (fun _ => (Some 100%Q, Some 50%Q))
         (Esquema.importa_todos
            [(Exemplos.load_exemplo, "/dados/finr150.xlsx", "financeiro")] db1)
       = false.
Proof.
  destruct (InicializacaoFacts._initialize_database_total ∅) as (db1 & H1).
  exists db1. split; [exact H1|].
  refine (proj2 (proj2 (validate_data_consistency_spec (fun _ => (Some 100%Q, Some 50%Q)))
                   ∅ db1 [(Exemplos.load_exemplo, "/dados/finr150.xlsx", "financeiro")]
                   _ H1)).
  unfold Importacao.table_info. rewrite lookup_empty. reflexivity.
Defined.

(* ================================================================== *)
(** * The parameters of the reports: placeholders *)
(* ================================================================== *)

Module ParametrosFacts.
Import Text TextFacts CreditoFacts Retorno Datas DatasFacts Parametros.
#[local] Arguments String.append : simpl nomatch.

Lemma prefix_chaves X : String.prefix "{{" ("{{" +:+ X) = true.
Proof. cbn. now destruct X. Qed.

Lemma eqb_drop_app a suf : String.eqb (drop (String.length a) (a +:+ suf)) suf = true.
Proof. rewrite drop_length_app. apply String.eqb_refl. Qed.

Lemma endswith_app suf a : endswith suf (a +:+ suf) = true.
Proof.
  unfold endswith. rewrite length_append.
  replace (String.length a + String.length suf - String.length suf)%nat
    with (String.length a) by lia.
  rewrite eqb_drop_app, andb_true_r. apply Nat.leb_le. lia.
Qed.

Lemma substring_0_app m t : String.substring 0 (String.length m) (m +:+ t) = m.
Proof.
  induction m as [|c m IH]; cbn.
  - now destruct t.
  - now rewrite IH.
Qed.

Lemma miolo_chaves m : miolo ("{{" +:+ m +:+ "}}") = m.
Proof.
  unfold miolo. cbn [String.append String.length].
  rewrite length_append. cbn [String.length].
  replace (S (S (String.length m + 2)) - 4)%nat with (String.length m) by lia.
  cbn [String.substring]. apply substring_0_app.
Qed.

Lemma drop_while_end_idem p s :
  drop_while_end p (drop_while_end p s) = drop_while_end p s.
Proof.
  induction s as [|c s IH]; [reflexivity|].
  cbn [drop_while_end]. cbv zeta.
  destruct (is_empty (drop_while_end p s) && p c) eqn:E; [reflexivity|].
  cbn [drop_while_end]. cbv zeta. now rewrite IH, E.
Qed.

Lemma drop_while_end_comm p s :
  drop_while p (drop_while_end p s) = drop_while_end p (drop_while p s).
Proof.
  induction s as [|c s IH]; [reflexivity|].
  cbn [drop_while_end drop_while]. cbv zeta.
  destruct (p c) eqn:Ec.
  - rewrite <- IH. destruct (drop_while_end p s) as [|d r] eqn:Er; cbn [is_empty andb].
    + reflexivity.
    + cbn [drop_while]. now rewrite Ec.
  - rewrite andb_false_r. cbn [drop_while drop_while_end]. cbv zeta.
    now rewrite Ec, andb_false_r.
Qed.

Lemma strip_drop_while_end t : strip (drop_while_end is_space t) = strip t.
Proof.
  unfold strip. now rewrite drop_while_end_comm, drop_while_end_idem.
Qed.


Lemma starts_with_app_ponto p n t :
  Cleaner.starts_with p n = false -> p "."%char = false ->
  Cleaner.starts_with p (n +:+ "." +:+ t) = false.
Proof. intros Hn Hp. destruct n as [|c n]; cbn; assumption. Qed.

Lemma drop_while_end_ponto t :
  drop_while_end is_space ("." +:+ t) = "." +:+ drop_while_end is_space t.
Proof.
  cbn [String.append drop_while_end]. cbv zeta.
  replace (is_space ".") with false by reflexivity. now rewrite andb_false_r.
Qed.

(** The text between the braces, stripped, of a placeholder with a dot. *)
Lemma strip_com_ponto w1 n t :
  forallb is_space w1 = true -> Cleaner.starts_with is_space n = false ->
  strip (w1 +:+ n +:+ "." +:+ t) = n +:+ "." +:+ drop_while_end is_space t.
Proof.
  intros Hw Hn. unfold strip.
  rewrite (drop_while_app _ _ _ Hw).
  rewrite drop_while_id by now apply starts_with_app_ponto.
  rewrite drop_while_end_app_keep.
  - now rewrite drop_while_end_ponto.
  - apply drop_while_end_nonempty. reflexivity.
Qed.

Lemma nome_e_parte_ponto n T :
  forallb nao_ponto n = true ->
  nome_e_parte (n +:+ "." +:+ T) = (n, Some (strip T)).
Proof.
  intros Hn. unfold nome_e_parte, split_ponto.
  rewrite existsb_app. cbn [existsb String.append]. 
  replace (is_dot ".") with true by reflexivity. cbn [orb]. rewrite orb_true_r.
  cbn [fst snd].
  rewrite (take_while_app nao_ponto n (String "." T) Hn) by reflexivity.
  rewrite (drop_while_app nao_ponto n (String "." T) Hn).
  reflexivity.
Qed.

Lemma nome_e_parte_com_ponto w1 n t :
  forallb is_space w1 = true -> Cleaner.starts_with is_space n = false ->
  forallb nao_ponto n = true ->
  nome_e_parte (strip (w1 +:+ n +:+ "." +:+ t)) = (n, Some (strip t)).
Proof.
  intros Hw Hs Hn. rewrite (strip_com_ponto _ _ _ Hw Hs).
  rewrite (nome_e_parte_ponto _ _ Hn). now rewrite strip_drop_while_end.
Qed.

Lemma drop_while_end_app_all p a w :
  forallb p w = true -> drop_while_end p (a +:+ w) = drop_while_end p a.
Proof.
  intros Hw. induction a as [|c a IH]; cbn [String.append].
  - now apply drop_while_end_all.
  - cbn [drop_while_end]. now rewrite IH.
Qed.

Lemma de_nome_parts n :
  forallb de_nome n = true ->
  forallb (fun c => negb (is_space c)) n = true /\ forallb nao_ponto n = true.
Proof.
  intros H. split; apply (forallb_impl de_nome _ n); try exact H;
    intros c [? ?]%andb_true_iff; assumption.
Qed.

Lemma starts_with_de_nome n :
  forallb de_nome n = true -> Cleaner.starts_with is_space n = false.
Proof.
  destruct n as [|c n]; [reflexivity|]. cbn [forallb Cleaner.starts_with].
  intros [[H _]%andb_true_iff _]%andb_true_iff. now apply negb_true_iff.
Qed.

Lemma existsb_false_forallb p n :
  forallb (fun c => negb (p c)) n = true -> existsb p n = false.
Proof.
  induction n as [|c n IH]; [reflexivity|]. cbn [forallb existsb].
  intros [Hc Hn]%andb_true_iff. apply negb_true_iff in Hc. now rewrite Hc, IH.
Qed.

Lemma nome_e_parte_sem_ponto w1 n w3 :
  forallb is_space w1 = true -> forallb is_space w3 = true ->
  forallb de_nome n = true -> n <> "" ->
  nome_e_parte (strip (w1 +:+ n +:+ w3)) = (n, None).
Proof.
  intros Hw1 Hw3 Hn Hne.
  destruct (de_nome_parts n Hn) as (Hsp & Hdot).
  assert (Hstrip : strip (w1 +:+ n +:+ w3) = n).
  { unfold strip. rewrite (drop_while_app _ _ _ Hw1).
    rewrite drop_while_id.
    - rewrite (drop_while_end_app_all _ _ _ Hw3). now apply drop_while_end_none.
    - destruct n as [|c n]; [congruence|]. cbn.
      cbn [forallb] in Hsp. apply andb_true_iff in Hsp as [Hc _].
      now apply negb_true_iff. }
  rewrite Hstrip. unfold nome_e_parte.
  now rewrite (existsb_false_forallb is_dot n Hdot).
Qed.

Lemma metodos_disponiveis_nome n m :
  metodos_disponiveis n = Some m -> forallb de_nome n = true /\ n <> "".
Proof.
  unfold metodos_disponiveis.
  repeat match goal with
         | |- context [String.eqb n ?l] =>
             destruct (String.eqb_spec n l) as [->|_];
             [intros _; split; [reflexivity | discriminate]|]
         end.
  discriminate.
Qed.

Lemma metodos_disponiveis_branco n w :
  forallb is_space w = true -> w <> "" -> metodos_disponiveis (n +:+ w) = None.
Proof.
  intros Hw Hne. destruct (metodos_disponiveis (n +:+ w)) as [m|] eqn:E; [|reflexivity].
  exfalso. apply metodos_disponiveis_nome in E as [E _].
  rewrite forallb_app in E. apply andb_true_iff in E as [_ E].
  destruct w as [|c w]; [congruence|]. cbn [forallb] in Hw, E.
  apply andb_true_iff in Hw as [Hc _]. apply andb_true_iff in E as [E _].
  unfold de_nome in E. now rewrite Hc in E.
Qed.

Lemma liga_devolve {A : Type} (m : retorno A) : liga m (fun x => Devolve x) = m.
Proof. now destruct m. Qed.

Lemma datas_contas_itens_unbound hoje :
  valid hoje = true -> ultimo_do_mes hoje = false ->
  datas_contas_itens hoje = Levanta UnboundLocalError.
Proof.
  intros Hv Hlast. apply valid_iff in Hv as (_ & Hm & _).
  unfold datas_contas_itens, _calcular_datas_contas_itens. cbv zeta.
  rewrite (monthrange_ok _ _ Hm). cbn [liga]. fold (ultimo_do_mes hoje).
  now rewrite Hlast.
Qed.

(** A value between double braces. *)
Lemma _resolver_valor_chaves hoje m :
  _resolver_valor hoje (JStr ("{{" +:+ m +:+ "}}"))
  = match metodos_disponiveis (fst (nome_e_parte (strip m))) with
    | Some metodo =>
        liga (metodo hoje)
          (fun resultado =>
             Devolve (parte_do_resultado resultado (snd (nome_e_parte (strip m)))))
    | None => Devolve (Json (JStr ("{{" +:+ m +:+ "}}")))
    end.
Proof.
  unfold _resolver_valor.
  rewrite prefix_chaves.
  replace ("{{" +:+ m +:+ "}}") with (("{{" +:+ m) +:+ "}}") at 1
    by now rewrite append_assoc.
  rewrite endswith_app. cbn [andb]. cbv zeta. now rewrite miolo_chaves.
Qed.

End ParametrosFacts.

Section Placeholders.
Import Text TextFacts Retorno Datas Parametros ParametrosFacts.
#[local] Arguments String.append : simpl nomatch.

Variable hoje : datetime.

(** X19 ([Utils._resolver_valor]).  A value that is no text between
    double braces is returned as it is.  For a method [nome] of
    [metodos_disponiveis], white space after the opening braces and
    before the closing ones is ignored: the placeholder without a dot
    gives what the method gives; with a dot, a method that gives a text
    gives that text whatever follows the dot, and a method that gives a
    pair gives its first text for the part [inicial], its second for
    [final] (white space around the part ignored) and the whole pair
    for any other part; what the method raises is raised.  White space
    between the name and the dot is not ignored: the name is then no
    method, and the value is returned unresolved.  On a day that is not
    the last of its month every [datas_contas_itens] placeholder raises
    [UnboundLocalError]. *)
Theorem _resolver_valor_spec :
  (forall valor,
     (forall s, valor = JStr s -> String.prefix "{{" s && endswith "}}" s = false) ->
     _resolver_valor hoje valor = Devolve (Json valor))
  /\ (forall nome metodo w1 w3 t,
        metodos_disponiveis nome = Some metodo ->
        forallb is_space w1 = true -> forallb is_space w3 = true ->
        _resolver_valor hoje (JStr ("{{" +:+ w1 +:+ nome +:+ w3 +:+ "}}")) = metodo hoje
        /\ _resolver_valor hoje (JStr ("{{" +:+ w1 +:+ nome +:+ "." +:+ t +:+ "}}"))
           = match metodo hoje with
             | Levanta e => Levanta e
             | Devolve (Json j) => Devolve (Json j)
             | Devolve (Tupla a b) =>
                 Devolve (if String.eqb (strip t) "inicial" then Json (JStr a)
                          else if String.eqb (strip t) "final" then Json (JStr b)
                          else Tupla a b)
             end
        /\ (w3 <> "" ->
            _resolver_valor hoje
              (JStr ("{{" +:+ w1 +:+ nome +:+ w3 +:+ "." +:+ t +:+ "}}"))
            = Devolve (Json (JStr ("{{" +:+ w1 +:+ nome +:+ w3 +:+ "." +:+ t +:+ "}}")))))
  /\ (valid hoje = true -> ultimo_do_mes hoje = false ->
      forall w1 w3 t,
        forallb is_space w1 = true -> forallb is_space w3 = true ->
        _resolver_valor hoje (JStr ("{{" +:+ w1 +:+ "datas_contas_itens" +:+ w3 +:+ "}}"))
        = Levanta UnboundLocalError
        /\ _resolver_valor hoje
             (JStr ("{{" +:+ w1 +:+ "datas_contas_itens" +:+ "." +:+ t +:+ "}}"))
           = Levanta UnboundLocalError).
Proof.
  assert (Hsem : forall nome metodo w1 w3,
            metodos_disponiveis nome = Some metodo ->
            forallb is_space w1 = true -> forallb is_space w3 = true ->
            _resolver_valor hoje (JStr ("{{" +:+ w1 +:+ nome +:+ w3 +:+ "}}"))
            = metodo hoje).
  { intros nome metodo w1 w3 Hm Hw1 Hw3.
    destruct (metodos_disponiveis_nome _ _ Hm) as (Hn & Hne).
    replace ("{{" +:+ w1 +:+ nome +:+ w3 +:+ "}}")
      with ("{{" +:+ (w1 +:+ nome +:+ w3) +:+ "}}")
      by now rewrite !append_assoc.
    rewrite _resolver_valor_chaves.
    rewrite (nome_e_parte_sem_ponto _ _ _ Hw1 Hw3 Hn Hne). cbn [fst snd].
    rewrite Hm. destruct (metodo hoje) as [[j|a b]|e]; reflexivity. }
  assert (Hcom : forall nome metodo w1 t,
            metodos_disponiveis nome = Some metodo ->
            forallb is_space w1 = true ->
            _resolver_valor hoje (JStr ("{{" +:+ w1 +:+ nome +:+ "." +:+ t +:+ "}}"))
            = match metodo hoje with
              | Levanta e => Levanta e
              | Devolve (Json j) => Devolve (Json j)
              | Devolve (Tupla a b) =>
                  Devolve (if String.eqb (strip t) "inicial" then Json (JStr a)
                           else if String.eqb (strip t) "final" then Json (JStr b)
                           else Tupla a b)
              end).
  { intros nome metodo w1 t Hm Hw1.
    destruct (metodos_disponiveis_nome _ _ Hm) as (Hn & Hne).
    destruct (de_nome_parts _ Hn) as (_ & Hdot).
    replace ("{{" +:+ w1 +:+ nome +:+ "." +:+ t +:+ "}}")
      with ("{{" +:+ (w1 +:+ nome +:+ "." +:+ t) +:+ "}}")
      by now rewrite !append_assoc.
    rewrite _resolver_valor_chaves.
    rewrite (nome_e_parte_com_ponto _ _ _ Hw1 (starts_with_de_nome _ Hn) Hdot).
    cbn [fst snd]. rewrite Hm.
    destruct (metodo hoje) as [[j|a b]|e]; cbn [liga parte_do_resultado]; try reflexivity.
    destruct (strip t) as [|c r]; reflexivity. }
  split; [|split].
  - intros valor Hv. destruct valor as [| | | |s| |]; try reflexivity.
    unfold _resolver_valor. now rewrite (Hv s eq_refl).
  - intros nome metodo w1 w3 t Hm Hw1 Hw3.
    split; [now apply Hsem | split; [now apply Hcom|]].
    intros Hw3ne.
    destruct (metodos_disponiveis_nome _ _ Hm) as (Hn & Hne).
    destruct (de_nome_parts _ Hn) as (_ & Hdot).
    replace ("{{" +:+ w1 +:+ nome +:+ w3 +:+ "." +:+ t +:+ "}}")
      with ("{{" +:+ (w1 +:+ (nome +:+ w3) +:+ "." +:+ t) +:+ "}}")
      by now rewrite !append_assoc.
    rewrite _resolver_valor_chaves.
    rewrite nome_e_parte_com_ponto.
    + cbn [fst snd]. now rewrite (metodos_disponiveis_branco _ _ Hw3 Hw3ne).
    + exact Hw1.
    + destruct nome as [|c n]; [congruence|]. exact (starts_with_de_nome _ Hn).
    + rewrite forallb_app, Hdot. cbn [andb].
      apply (forallb_impl is_space _ w3); [|exact Hw3].
      intros c Hc. destruct c as [[] [] [] [] [] [] [] []]; vm_compute in Hc |- *; congruence.
  - intros Hv Hlast w1 w3 t Hw1 Hw3.
    pose proof (datas_contas_itens_unbound hoje Hv Hlast) as Hraise.
    split.
    + rewrite (Hsem "datas_contas_itens" _ w1 w3 eq_refl Hw1 Hw3).
      unfold tupla. now rewrite Hraise.
    + rewrite (Hcom "datas_contas_itens" _ w1 t eq_refl Hw1).
      unfold tupla. now rewrite Hraise.
Qed.

End Placeholders.

(** X19, on 15 March 2025. *)
Lemma _resolver_valor_witness :
  Parametros._resolver_valor {| Datas.year := 2025; Datas.month := 3; Datas.day := 15 |}
    (Parametros.JStr "{{ primeiro_e_ultimo_dia. final }}")
  = Retorno.Devolve (Parametros.Json (Parametros.JStr "31/03/2025"))
  /\ Parametros._resolver_valor {| Datas.year := 2025; Datas.month := 3; Datas.day := 15 |}
       (Parametros.JStr "{{datas_contas_itens}}")
     = Retorno.Levanta Retorno.UnboundLocalError.
Proof.
  pose proof (_resolver_valor_spec {| Datas.year := 2025; Datas.month := 3; Datas.day := 15 |})
    as (_ & H2 & H3).
  split.
  - exact (proj1 (proj2 (H2 "primeiro_e_ultimo_dia" _ " " "" " final " eq_refl eq_refl eq_refl))).
  - exact (proj1 (H3 eq_refl eq_refl "" "" "" eq_refl eq_refl)).
Defined.

(* ================================================================== *)
(** * The parameters of the reports: the file *)
(* ================================================================== *)

Module CargaFacts.
Import Text TextFacts Retorno Datas DatasFacts Parametros ParametrosFacts.











End CargaFacts.

Section ParameterFile.
Import Text Retorno Datas Parametros CargaFacts.

Variable le_json : string -> retorno json.
Variable hoje : datetime.


End ParameterFile.

